(** * rag-agent: the retrieval-augmented answer loop

    A shallow embedding of the decision logic of the repository's
    [app/vectorstore.py], [app/rag.py] and [app/agentic_rag.py], and the
    properties of it that the specification states.

    Conventions of the embedding.
    - A Python call that may raise is a value of [outcome]: [Returns v] or
      [Raises msg].  [try ... except Exception] is [try_except].
    - External services (the Chroma index, the embedding and generation
      backends, [json.loads]) are oracles: fields of a record, quantified
      over in every theorem, so nothing is assumed about what they answer.
    - Relevance scores are Python floats that are only ever compared; they
      are modelled by the rationals they denote ([Q], finite values).
    - Strings are byte strings, so [len] and slicing count bytes where
      Python counts code points. *)

From Stdlib Require Import QArith.
From stdpp Require Import base option list strings gmap pretty.

Open Scope Z_scope.
Open Scope string_scope.
Set Warnings "-register-all".

(** ** Python outcomes *)

Inductive outcome (A : Type) : Type :=
  | Returns (a : A)
  | Raises (msg : string).
Arguments Returns {A} a.
Arguments Raises {A} msg.

#[global] Instance outcome_ret : MRet outcome := fun A a => Returns a.
#[global] Instance outcome_bind : MBind outcome := fun A B k m =>
  match m with
  | Returns a => k a
  | Raises msg => Raises msg
  end.

#[global] Instance outcome_fmap : FMap outcome := fun A B f m =>
  match m with
  | Returns a => Returns (f a)
  | Raises msg => Raises msg
  end.

(** [try: body except Exception as e: handler e] *)
Definition try_except {A} (body : outcome A) (handler : string -> outcome A) : outcome A :=
  match body with
  | Returns a => Returns a
  | Raises msg => handler msg
  end.

Definition returned {A} (o : outcome A) : bool :=
  match o with
  | Returns _ => true
  | Raises _ => false
  end.

(** [s[:n]] on a string. *)
Definition str_take (n : nat) (s : string) : string := String.substring 0 n s.

(** A LangChain [Document]: the text of a chunk and its metadata dict. *)
Record Document : Type := {
  page_content : string;
  metadata : gmap string string;
}.

(** ** app/vectorstore.py *)

Module Vectorstore.

(** The embedding client ([OpenAIEmbeddings]): a network call that may raise. *)
Record Embeddings : Type := {
  embed_query : string -> outcome (list Q);
}.

(** The Chroma client, as far as this module calls it. *)
Record Chroma : Type := {
  similarity_search_with_score : string -> Z -> outcome (list (Document * Q));
  max_marginal_relevance_search : string -> Z -> Z -> Q -> outcome (list Document);
  collection_count : outcome Z;
}.

(** What the module reads from outside: [get_embeddings()], whether
    [chroma.sqlite3] exists under the persist directory, and the [Chroma(...)]
    constructor.  [get_chroma_dir()] only creates the data directory and is
    taken to succeed. *)
Record Env : Type := {
  get_embeddings : outcome Embeddings;
  chroma_sqlite3_exists : bool;
  Chroma_open : Embeddings -> outcome Chroma;
}.

(** The module-level globals [_vectorstore] and [_is_ready]. *)
Record Globals : Type := {
  _vectorstore : option Chroma;
  _is_ready : bool;
}.

Definition not_loaded : Globals := {| _vectorstore := None; _is_ready := false |}.

(** [get_vectorstore]: returns the cached instance, or tries to load the
    persisted index; every failure inside the [try] leaves both globals
    reset. *)
Definition get_vectorstore (env : Env) (g : Globals) : Globals * option Chroma :=
  match _vectorstore g with
  | Some vs => (g, Some vs)
  | None =>
      let loaded :=
        embeddings ← get_embeddings env;
        if chroma_sqlite3_exists env then
          vs ← Chroma_open env embeddings;
          _ ← collection_count vs;
          mret {| _vectorstore := Some vs; _is_ready := true |}
        else
          mret not_loaded in
      let g' := match loaded with
                | Returns g' => g'
                | Raises _ => not_loaded
                end in
      (g', _vectorstore g')
  end.

(** [search_similar(query, k)] *)
Definition search_similar (env : Env) (g : Globals) (query : string) (k : Z)
  : Globals * outcome (list (Document * Q)) :=
  let '(g', vs) := get_vectorstore env g in
  match vs with
  | None => (g', Returns [])
  | Some vs =>
      (g', try_except
             (results ← similarity_search_with_score vs query k;
              mret results)
             (fun _ => Returns []))
  end.

(** The neutral score given to a selected document whose score cannot be
    looked up ([score = 0.5]). *)
Definition default_score : Q := 1 # 2.

(** The body of the [for doc in docs] loop of [search_mmr]: a similarity
    lookup on the first 200 characters of the document, under a bare
    [except]. *)
Definition rescore (vs : Chroma) (doc : Document) : Q :=
  match similarity_search_with_score vs (str_take 200 (page_content doc)) 1 with
  | Returns ((_, score) :: _) => score
  | Returns [] => default_score
  | Raises _ => default_score
  end.

(** [search_mmr(query, k, fetch_k, lambda_mult)] *)
Definition search_mmr (env : Env) (g : Globals) (query : string)
    (k fetch_k : Z) (lambda_mult : Q) : Globals * outcome (list (Document * Q)) :=
  let '(g', vs) := get_vectorstore env g in
  match vs with
  | None => (g', Returns [])
  | Some vs =>
      (g', try_except
             (docs ← max_marginal_relevance_search vs query k fetch_k lambda_mult;
              results ←
                match docs with
                | [] => mret []
                | _ :: _ =>
                    embeddings ← get_embeddings env;
                    _ ← embed_query embeddings query;
                    mret (map (fun doc => (doc, rescore vs doc)) docs)
                end;
              mret results)
             (fun _ => Returns []))
  end.

(** [is_vectorstore_ready()] *)
Definition is_vectorstore_ready (env : Env) (g : Globals) : Globals * bool :=
  if _is_ready g then (g, true)
  else let g' := (get_vectorstore env g).1 in (g', _is_ready g').

(** The secondary lookup for [doc] gives no score: it raises or returns no
    result. *)
Definition rederivation_fails (vs : Chroma) (doc : Document) : Prop :=
  (exists msg, similarity_search_with_score vs (str_take 200 (page_content doc)) 1 = Raises msg)
  \/ similarity_search_with_score vs (str_take 200 (page_content doc)) 1 = Returns [].

End Vectorstore.

(** ** app/schemas.py and app/utils.py *)

Inductive ConfidenceLevel : Type := HIGH | MEDIUM | LOW.
Inductive RetrievalMode : Type := SIMILARITY | MMR.
Inductive AnswerMode : Type := STRICT | BALANCED | CREATIVE.

#[global] Instance ConfidenceLevel_eq_dec : EqDecision ConfidenceLevel.
Proof. solve_decision. Defined.
#[global] Instance RetrievalMode_eq_dec : EqDecision RetrievalMode.
Proof. solve_decision. Defined.
#[global] Instance AnswerMode_eq_dec : EqDecision AnswerMode.
Proof. solve_decision. Defined.

(** [ConfidenceLevel.value] *)
Definition ConfidenceLevel_value (c : ConfidenceLevel) : string :=
  match c with
  | HIGH => "high"
  | MEDIUM => "medium"
  | LOW => "low"
  end.

(** The part of [get_rag_config()] that the answer loop reads. *)
Record RagConfig : Type := {
  min_score : Q;
  min_sources : Z;
  mmr_lambda : Q;
}.

(** [get_rag_config()] with no environment variable set. *)
Definition default_rag_config : RagConfig :=
  {| min_score := 1 # 4; min_sources := 1; mmr_lambda := 1 # 2 |}.

(** [truncate_text(text, max_length)] *)
Definition truncate_text (text : string) (max_length : nat) : string :=
  if decide (String.length text <= max_length)%nat then text
  else str_take max_length text +:+ "...".

(** One entry of a response's [sources] list. *)
Record SourceInfo : Type := {
  source : string;
  chunk_id : string;
  snippet : string;
  score : Q;
  rank_before : Z;
  rank_after : Z;
}.

Definition nl : string := String (Ascii.ascii_of_nat 10) EmptyString.
Definition dquote : string := String (Ascii.ascii_of_nat 34) EmptyString.

(** [sep.join(parts)] *)
Fixpoint str_join (sep : string) (parts : list string) : string :=
  match parts with
  | [] => ""
  | [p] => p
  | p :: rest => p +:+ sep +:+ str_join sep rest
  end.

(** [enumerate(l, start)] *)
Fixpoint enumerate {A} (start : Z) (l : list A) : list (Z * A) :=
  match l with
  | [] => []
  | x :: rest => (start, x) :: enumerate (start + 1) rest
  end.

(** Comparison of two finite floats. *)
Definition Qlt_bool (a b : Q) : bool := negb (Qle_bool b a).
Definition Qge_bool (a b : Q) : bool := Qle_bool b a.

(** The doubles that the literals [0.7] and [0.4] denote. *)
Definition float_0_7 : Q := 3152519739159347 # 4503599627370496.
Definition float_0_4 : Q := 3602879701896397 # 9007199254740992.
(** The double that [0.8] denotes. *)
Definition float_0_8 : Q := 3602879701896397 # 4503599627370496.

(** ** app/rag.py *)

Module Rag.

(** The system prompt templates, by name. *)
Inductive Template : Type :=
  | RAG_STRICT_TEMPLATE
  | RAG_BALANCED_TEMPLATE
  | RAG_CREATIVE_TEMPLATE.

(** [get_prompt_template(answer_mode)] *)
Definition get_prompt_template (answer_mode : AnswerMode) : Template :=
  match answer_mode with
  | STRICT => RAG_STRICT_TEMPLATE
  | BALANCED => RAG_BALANCED_TEMPLATE
  | CREATIVE => RAG_CREATIVE_TEMPLATE
  end.

(** What [rag_query] calls outside this module and [vectorstore.py]:
    float formatting and rounding, the id generator, the configuration, the
    user-preference provider, the generation chain
    ([prompt | llm | StrOutputParser()], which raises when [get_llm()] or the
    backend call does), the token stream (the tokens yielded, then the
    exception that ended it, if any) and the two writers. *)
Record Services : Type := {
  format_3f : Q -> string;
  round3 : Q -> Q;
  generate_message_id : string;
  get_rag_config : RagConfig;
  get_profile_prompt : string -> string;
  chain_invoke : Template -> string -> string -> string -> outcome string;
  stream_chat_completion : Template -> string -> string -> string -> list string * option string;
  save_answer_to_file : string -> list SourceInfo -> option string -> outcome string;
  save_answer_as_markdown :
    string -> string -> list SourceInfo -> string -> string -> string -> option (string * string);
}.

(** [format_documents(docs)] *)
Definition format_documents (sv : Services) (docs : list (Document * Q)) : string :=
  str_join (nl +:+ "---" +:+ nl)
    (map (fun '(i, (doc, score)) =>
            let source := default "unknown" (metadata doc !! "source") in
            let chunk_id := default ("chunk_" +:+ pretty i) (metadata doc !! "chunk_id") in
            "[来源 " +:+ pretty i +:+ "] 文件: " +:+ source +:+ ", ID: " +:+ chunk_id
              +:+ ", 相似度: " +:+ format_3f sv score +:+ nl +:+ page_content doc +:+ nl)
         (enumerate 1 docs)).

(** [extract_sources(docs)] *)
Definition extract_sources (sv : Services) (docs : list (Document * Q)) : list SourceInfo :=
  map (fun '(i, (doc, score)) =>
         {| source := default "unknown" (metadata doc !! "source");
            chunk_id := default "unknown" (metadata doc !! "chunk_id");
            snippet := truncate_text (page_content doc) 300;
            score := round3 sv score;
            rank_before := i + 1;
            rank_after := i + 1 |})
      (enumerate 0 docs).

(** [max(score for _, score in docs)]: the first score, replaced by each
    later one that is greater. *)
Definition py_max (first : Q) (rest : list Q) : Q :=
  fold_left (fun cur s => if Qlt_bool cur s then s else cur) rest first.

(** [sum(1 for _, score in docs if score >= min_score)] *)
Definition count_valid (min_score : Q) (docs : list (Document * Q)) : Z :=
  fold_left (fun n '(_, score) => if Qge_bool score min_score then n + 1 else n) docs 0.

(** [calculate_confidence(docs, config)] *)
Definition calculate_confidence (docs : list (Document * Q)) (config : RagConfig)
  : ConfidenceLevel * bool :=
  match docs with
  | [] => (LOW, true)
  | (_, s0) :: rest =>
      let max_score := py_max s0 (map snd rest) in
      let valid_sources := count_valid (min_score config) docs in
      let need_fallback :=
        Qlt_bool max_score (min_score config) || bool_decide (valid_sources < min_sources config) in
      let confidence :=
        if need_fallback then LOW
        else if Qge_bool max_score float_0_7 && bool_decide (valid_sources >= 3) then HIGH
        else if Qge_bool max_score float_0_4 && bool_decide (valid_sources >= 2) then MEDIUM
        else MEDIUM in
      (confidence, need_fallback)
  end.

(** [FALLBACK_TEMPLATE.format(found_info, max_score, query_keywords)] *)
Definition FALLBACK_TEMPLATE (found_info max_score query_keywords : string) : string :=
  "根据我在知识库中的检索，**证据不足以完整回答您的问题**。" +:+ nl +:+ nl
  +:+ "## 我能找到的相关资料" +:+ nl
  +:+ found_info +:+ nl +:+ nl
  +:+ "## 我不确定的点" +:+ nl
  +:+ "- 上下文信息与您的问题相关性较低（最高相似度: " +:+ max_score +:+ "）" +:+ nl
  +:+ "- 检索到的信息可能不够完整或不够具体" +:+ nl +:+ nl
  +:+ "## 建议补充的资料" +:+ nl
  +:+ "为了更好地回答您的问题，建议您补充以下类型的文档：" +:+ nl
  +:+ "- 与" +:+ dquote +:+ query_keywords +:+ dquote +:+ "相关的详细说明文档" +:+ nl
  +:+ "- 包含具体数据、条款或规定的资料" +:+ nl +:+ nl
  +:+ "**请注意**：为了确保回答准确性，我不会基于不充分的证据给出具体结论。".

(** [generate_fallback_response(question, docs)]; with no document
    [max_score] is the integer [0]. *)
Definition generate_fallback_response (sv : Services) (question : string)
    (docs : list (Document * Q)) : string :=
  let max_score := match docs with
                   | [] => 0%Q
                   | (_, s0) :: rest => py_max s0 (map snd rest)
                   end in
  let query_keywords := str_take 30 question in
  let found_info :=
    match docs with
    | [] => "未找到任何相关资料"
    | _ :: _ =>
        str_join nl
          (map (fun '(i, (doc, score)) =>
                  pretty i +:+ ". **" +:+ default "unknown" (metadata doc !! "source")
                    +:+ "** (相似度: " +:+ format_3f sv score +:+ ")" +:+ nl
                    +:+ "   > " +:+ truncate_text (page_content doc) 150)
               (enumerate 1 (take 3 docs)))
    end in
  FALLBACK_TEMPLATE found_info (format_3f sv max_score) query_keywords.

Definition NOT_READY_ANSWER : string :=
  "抱歉，知识库尚未初始化。请先上传文档并执行入库操作。".

Definition NO_DOCS_ANSWER : string :=
  "抱歉，在知识库中没有找到与您问题相关的内容。建议：" +:+ nl
  +:+ "1. 尝试换一种方式描述问题" +:+ nl
  +:+ "2. 检查知识库是否包含相关主题的文档" +:+ nl
  +:+ "3. 上传更多相关资料".

Definition NOT_READY_ERROR : string :=
  "知识库尚未初始化，请先上传文档并执行入库操作。".

(** The dict that [rag_query] returns. *)
Record Response : Type := {
  message_id : string;
  answer : string;
  sources : list SourceInfo;
  confidence : ConfidenceLevel;
  saved_file : option string;
}.

(** Steps 1 to 3 of [rag_query] and [rag_query_stream]: retrieval in the
    requested mode. *)
Definition retrieve (env : Vectorstore.Env) (sv : Services) (g : Vectorstore.Globals)
    (question : string) (top_k : Z) (retrieval_mode : RetrievalMode)
  : Vectorstore.Globals * outcome (list (Document * Q)) :=
  match retrieval_mode with
  | MMR => Vectorstore.search_mmr env g question top_k 20 (mmr_lambda (get_rag_config sv))
  | SIMILARITY => Vectorstore.search_similar env g question top_k
  end.

(** [rag_query(question, user_id, top_k, save_to_file, file_name,
    retrieval_mode, answer_mode)] *)
Definition rag_query (env : Vectorstore.Env) (sv : Services) (g : Vectorstore.Globals)
    (question user_id : string) (top_k : Z) (save_to_file : bool)
    (file_name : option string) (retrieval_mode : RetrievalMode)
    (answer_mode : AnswerMode) : Vectorstore.Globals * outcome Response :=
  let message_id := generate_message_id sv in
  let config := get_rag_config sv in
  let '(g1, ready) := Vectorstore.is_vectorstore_ready env g in
  if negb ready then
    (g1, Returns {| message_id := message_id; answer := NOT_READY_ANSWER; sources := [];
                    confidence := LOW; saved_file := None |})
  else
    let '(g2, found) := retrieve env sv g1 question top_k retrieval_mode in
    (g2,
     retrieved_docs ← found;
     let '(confidence, need_fallback) := calculate_confidence retrieved_docs config in
     let sources := extract_sources sv retrieved_docs in
     answer ←
       (if need_fallback && bool_decide (answer_mode = STRICT) then
          mret (generate_fallback_response sv question retrieved_docs)
        else
          match retrieved_docs with
          | [] => mret NO_DOCS_ANSWER
          | _ :: _ =>
              let user_preferences := get_profile_prompt sv user_id in
              let context := format_documents sv retrieved_docs in
              let system_template := get_prompt_template answer_mode in
              chain_invoke sv system_template context question user_preferences
          end);
     saved_file ←
       (if save_to_file then Some <$> save_answer_to_file sv answer sources file_name
        else mret None);
     mret {| message_id := message_id; answer := answer; sources := sources;
             confidence := confidence; saved_file := saved_file |}).

(** The events that [rag_query_stream] yields. *)
Inductive StreamEvent : Type :=
  | EventError (error : string)
  | EventToken (delta : string)
  | EventEnd (response : Response) (saved_document : option (string * string)).

(** [for char in answer: yield token]: one event per character. *)
Fixpoint char_tokens (answer : string) : list StreamEvent :=
  match answer with
  | EmptyString => []
  | String c rest => EventToken (String c EmptyString) :: char_tokens rest
  end.

(** The end of [rag_query_stream], steps 9 and 10. *)
Definition stream_end (sv : Services) (question user_id thread_id full_answer : string)
    (sources : list SourceInfo) (confidence : ConfidenceLevel)
    (save_as_document : bool) : StreamEvent :=
  let saved_document :=
    if save_as_document && negb (bool_decide (full_answer = "")) then
      save_answer_as_markdown sv question full_answer sources user_id thread_id
        (ConfidenceLevel_value confidence)
    else None in
  EventEnd {| message_id := generate_message_id sv; answer := full_answer; sources := sources;
              confidence := confidence; saved_file := None |} saved_document.

(** [rag_query_stream(question, user_id, thread_id, top_k, retrieval_mode,
    answer_mode, save_as_document)]: the events yielded, in order, or the
    exception that leaves the generator. *)
Definition rag_query_stream (env : Vectorstore.Env) (sv : Services) (g : Vectorstore.Globals)
    (question user_id thread_id : string) (top_k : Z) (retrieval_mode : RetrievalMode)
    (answer_mode : AnswerMode) (save_as_document : bool)
  : Vectorstore.Globals * outcome (list StreamEvent) :=
  let config := get_rag_config sv in
  let '(g1, ready) := Vectorstore.is_vectorstore_ready env g in
  if negb ready then (g1, Returns [EventError NOT_READY_ERROR])
  else
    let '(g2, found) := retrieve env sv g1 question top_k retrieval_mode in
    (g2,
     retrieved_docs ← found;
     let '(confidence, need_fallback) := calculate_confidence retrieved_docs config in
     let sources := extract_sources sv retrieved_docs in
     let finish full_answer :=
       stream_end sv question user_id thread_id full_answer sources confidence save_as_document in
     if need_fallback && bool_decide (answer_mode = STRICT) then
       let answer := generate_fallback_response sv question retrieved_docs in
       mret (char_tokens answer ++ [finish answer])%list
     else
       match retrieved_docs with
       | [] => mret (char_tokens NO_DOCS_ANSWER ++ [finish NO_DOCS_ANSWER])%list
       | _ :: _ =>
           let user_preferences := get_profile_prompt sv user_id in
           let context := format_documents sv retrieved_docs in
           let system_template := get_prompt_template answer_mode in
           let '(tokens, failure) :=
             stream_chat_completion sv system_template user_preferences context question in
           match failure with
           | Some e => mret (map EventToken tokens ++ [EventError e])%list
           | None => mret (map EventToken tokens ++ [finish (str_join "" tokens)])%list
           end
       end).

End Rag.

(** ** Python values

    The fields of the agent state that come out of [json.loads] are
    dynamically typed; [pyval] is the type of what [json.loads] can return. *)

Inductive pyval : Type :=
  | PyNone
  | PyBool (b : bool)
  | PyNum (q : Q)
  | PyStr (s : string)
  | PyList (items : list pyval)
  | PyDict (items : list (string * pyval)).

(** Truth value of a Python object ([if x], [not x], [x or y]). *)
Definition py_truthy (v : pyval) : bool :=
  match v with
  | PyNone => false
  | PyBool b => b
  | PyNum q => negb (Qeq_bool q 0)
  | PyStr s => negb (bool_decide (s = ""))
  | PyList items => match items with [] => false | _ :: _ => true end
  | PyDict items => match items with [] => false | _ :: _ => true end
  end.

(** [x == 'literal'] *)
Definition py_eq_str (v : pyval) (s : string) : bool :=
  match v with
  | PyStr s' => bool_decide (s' = s)
  | _ => false
  end.

(** [len(x)]: a [TypeError] on [None], booleans and numbers. *)
Definition py_len (v : pyval) : outcome Z :=
  match v with
  | PyStr s => Returns (Z.of_nat (String.length s))
  | PyList items => Returns (Z.of_nat (length items))
  | PyDict items => Returns (Z.of_nat (length items))
  | _ => Raises "TypeError: object has no len()"
  end.

(** [x[:n]]: strings and lists can be sliced, nothing else. *)
Definition py_slice (n : nat) (v : pyval) : outcome pyval :=
  match v with
  | PyStr s => Returns (PyStr (str_take n s))
  | PyList items => Returns (PyList (take n items))
  | PyNone => Raises "'NoneType' object is not subscriptable"
  | PyBool _ => Raises "'bool' object is not subscriptable"
  | PyNum _ => Raises "number object is not subscriptable"
  | PyDict _ => Raises "a dict has no slice key"
  end.

(** Lookup in a dict given as its list of items. *)
Fixpoint assoc {V} (key : string) (items : list (string * V)) : option V :=
  match items with
  | [] => None
  | (k, v) :: rest => if decide (k = key) then Some v else assoc key rest
  end.

(** [d.get(key, default)]: an [AttributeError] when [d] is not a dict. *)
Definition py_get (d : pyval) (key : string) (dflt : pyval) : outcome pyval :=
  match d with
  | PyDict items => Returns (default dflt (assoc key items))
  | _ => Raises "AttributeError: object has no attribute 'get'"
  end.

(** [sep.join(x)]: over the characters of a string, the items of a list of
    strings or the keys of a dict; a [TypeError] otherwise. *)
Fixpoint chars (s : string) : list string :=
  match s with
  | EmptyString => []
  | String c rest => String c EmptyString :: chars rest
  end.

Fixpoint all_strings (items : list pyval) : option (list string) :=
  match items with
  | [] => Some []
  | PyStr s :: rest => cons s <$> all_strings rest
  | _ :: _ => None
  end.

Definition py_join (sep : string) (v : pyval) : outcome string :=
  match v with
  | PyStr s => Returns (str_join sep (chars s))
  | PyList items =>
      match all_strings items with
      | Some parts => Returns (str_join sep parts)
      | None => Raises "TypeError: sequence item: expected str instance"
      end
  | PyDict items => Returns (str_join sep (map fst items))
  | _ => Raises "TypeError: can only join an iterable"
  end.

(** [(before, after)] around the first occurrence of [sep] in [s]. *)
Fixpoint split_first (sep s : string) : option (string * string) :=
  if String.prefix sep s then Some ("", String.substring (String.length sep) (String.length s) s)
  else match s with
       | EmptyString => None
       | String c rest =>
           match split_first sep rest with
           | Some (before, after) => Some (String c before, after)
           | None => None
           end
       end.

(** [s.split(sep)[0]] *)
Definition split_0 (sep s : string) : string :=
  match split_first sep s with
  | Some (before, _) => before
  | None => s
  end.

(** The fence stripping applied to a model reply before [json.loads]:
    [content.split(fence)[1].split('```')[0]] for the first fence found. *)
Definition strip_fence (content : string) : string :=
  match split_first "```json" content with
  | Some (_, rest) => split_0 "```" (split_0 "```json" rest)
  | None =>
      match split_first "```" content with
      | Some (_, rest) => split_0 "```" (split_0 "```" rest)
      | None => content
      end
  end.

(** ** app/agentic_rag.py *)

Module Agentic.

(** One entry of [retrieved_chunks]. *)
Record Chunk : Type := {
  chunk_content : string;
  chunk_source : string;
  chunk_chunk_id : string;
  chunk_score : Q;
}.

(** One entry of [reasoning_trace]: a dict, as its list of items. *)
Definition TraceEntry : Type := list (string * pyval).

(** [AgentState] *)
Record AgentState : Type := {
  original_query : string;
  current_query : pyval;
  user_id : string;
  top_k : Z;
  retrieval_mode : string;
  filters : option pyval;
  retrieved_chunks : list Chunk;
  all_sources : list SourceInfo;
  draft_answer : pyval;
  claims : pyval;
  critique_result : pyval;
  decision : pyval;
  refined_query : pyval;
  gaps : pyval;
  loop_count : Z;
  max_loops : Z;
  final_answer : pyval;
  confidence : pyval;
  reasoning_trace : list TraceEntry;
}.

(** The dict a node returns: the keys it sets. *)
Record Update : Type := {
  u_current_query : option pyval;
  u_retrieved_chunks : option (list Chunk);
  u_all_sources : option (list SourceInfo);
  u_draft_answer : option pyval;
  u_claims : option pyval;
  u_critique_result : option pyval;
  u_decision : option pyval;
  u_refined_query : option pyval;
  u_gaps : option pyval;
  u_loop_count : option Z;
  u_final_answer : option pyval;
  u_confidence : option pyval;
  u_reasoning_trace : option (list TraceEntry);
}.

Definition no_update : Update :=
  {| u_current_query := None; u_retrieved_chunks := None; u_all_sources := None;
     u_draft_answer := None; u_claims := None; u_critique_result := None;
     u_decision := None; u_refined_query := None; u_gaps := None;
     u_loop_count := None; u_final_answer := None; u_confidence := None;
     u_reasoning_trace := None |}.

(** How the graph merges a node's dict into the state: [all_sources] is
    [Annotated[List, add]], so what a node returns for it is appended; every
    other key is overwritten; a key the node does not return is kept. *)
Definition apply_update (st : AgentState) (u : Update) : AgentState :=
  {| original_query := original_query st;
     current_query := default (current_query st) (u_current_query u);
     user_id := user_id st;
     top_k := top_k st;
     retrieval_mode := retrieval_mode st;
     filters := filters st;
     retrieved_chunks := default (retrieved_chunks st) (u_retrieved_chunks u);
     all_sources :=
       match u_all_sources u with
       | Some new => (all_sources st ++ new)%list
       | None => all_sources st
       end;
     draft_answer := default (draft_answer st) (u_draft_answer u);
     claims := default (claims st) (u_claims u);
     critique_result := default (critique_result st) (u_critique_result u);
     decision := default (decision st) (u_decision u);
     refined_query := default (refined_query st) (u_refined_query u);
     gaps := default (gaps st) (u_gaps u);
     loop_count := default (loop_count st) (u_loop_count u);
     max_loops := max_loops st;
     final_answer := default (final_answer st) (u_final_answer u);
     confidence := default (confidence st) (u_confidence u);
     reasoning_trace := default (reasoning_trace st) (u_reasoning_trace u) |}.

(** The nodes of the workflow graph. *)
Inductive Node : Type := retrieve | draft | critique | refine | finalize.

#[global] Instance Node_eq_dec : EqDecision Node.
Proof. solve_decision. Defined.

(** What the nodes call outside this module.  The first argument of a call
    that can answer differently from one round to the next is the round
    ([loop_count]).
    - [search_similar], [search_mmr]: the searches of [vectorstore.py], which
      return a list whatever the index and the backend do.
    - [get_llm]: building the client, which raises without an API key.
    - [llm_draft], [llm_critique], [llm_fallback]: [llm.invoke(...).content]
      for the three prompts, given the values the prompt is formatted from.
    - [json_loads]: [json.loads], [None] for a [JSONDecodeError].
    - [env_max_loops]: [RAG_AGENTIC_MAX_LOOPS] (default 2). *)
Record Backend : Type := {
  search_similar : Z -> pyval -> Z -> list (Document * Q);
  search_mmr : Z -> pyval -> Z -> Z -> Q -> list (Document * Q);
  get_rag_config : RagConfig;
  round3 : Q -> Q;
  get_profile_prompt : string -> string;
  get_llm : Z -> Node -> outcome unit;
  llm_draft : Z -> string -> list Chunk -> string -> outcome string;
  llm_critique : Z -> string -> pyval -> pyval -> list (string * string * string) -> outcome string;
  llm_fallback : Z -> string -> string -> string -> outcome string;
  json_loads : string -> option pyval;
  generate_message_id : string;
  env_max_loops : Z;
}.

(** The per-result body of the loop in [retrieve_node]. *)
Definition chunk_of (be : Backend) (i : Z) (doc : Document) (score : Q) : Chunk :=
  {| chunk_content := page_content doc;
     chunk_source := default "unknown" (metadata doc !! "source");
     chunk_chunk_id := default ("chunk_" +:+ pretty i) (metadata doc !! "chunk_id");
     chunk_score := round3 be score |}.

Definition source_of (doc : Document) (i : Z) (chunk_info : Chunk) : SourceInfo :=
  {| source := chunk_source chunk_info;
     chunk_id := chunk_chunk_id chunk_info;
     snippet := truncate_text (page_content doc) 300;
     score := chunk_score chunk_info;
     rank_before := i + 1;
     rank_after := i + 1 |}.

(** The search that [retrieve_node] runs in state [st]. *)
Definition search_results (be : Backend) (st : AgentState) : list (Document * Q) :=
  if bool_decide (retrieval_mode st = "mmr") then
    search_mmr be (loop_count st) (current_query st) (top_k st) 20
      (mmr_lambda (get_rag_config be))
  else
    search_similar be (loop_count st) (current_query st) (top_k st).

(** The [sources] list that [retrieve_node] builds from its results. *)
Definition retrieved_sources (be : Backend) (st : AgentState) : list SourceInfo :=
  map (fun '(i, (doc, score)) => source_of doc i (chunk_of be i doc score))
      (enumerate 0 (search_results be st)).

(** [retrieve_node(state)] *)
Definition retrieve_node (be : Backend) (st : AgentState) : outcome Update :=
  _ ← py_slice 50 (current_query st);
  let results := search_results be st in
  let chunks := map (fun '(i, (doc, score)) => chunk_of be i doc score) (enumerate 0 results) in
  let sources := retrieved_sources be st in
  let trace_entry :=
    [("step", PyStr "retrieve");
     ("query", current_query st);
     ("chunks_found", PyNum (inject_Z (Z.of_nat (length chunks))));
     ("top_score", PyNum (match chunks with c :: _ => chunk_score c | [] => 0%Q end))] in
  mret {| u_current_query := None; u_retrieved_chunks := Some chunks;
          u_all_sources := Some sources;
          u_draft_answer := None; u_claims := None; u_critique_result := None;
          u_decision := None; u_refined_query := None; u_gaps := None;
          u_loop_count := None; u_final_answer := None; u_confidence := None;
          u_reasoning_trace := Some [trace_entry] |}.

Definition NOT_FOUND_ANSWER : string := "未能找到相关信息。".

Definition draft_update (draft_answer claims : pyval) (trace_entry : TraceEntry) : Update :=
  {| u_current_query := None; u_retrieved_chunks := None; u_all_sources := None;
     u_draft_answer := Some draft_answer; u_claims := Some claims;
     u_critique_result := None; u_decision := None; u_refined_query := None;
     u_gaps := None; u_loop_count := None; u_final_answer := None;
     u_confidence := None; u_reasoning_trace := Some [trace_entry] |}.

(** [draft_node(state)] *)
Definition draft_node (be : Backend) (st : AgentState) : outcome Update :=
  match retrieved_chunks st with
  | [] =>
      mret (draft_update (PyStr NOT_FOUND_ANSWER) (PyList [])
              [("step", PyStr "draft"); ("status", PyStr "no_chunks")])
  | _ :: _ =>
      let user_preferences := get_profile_prompt be (user_id st) in
      _ ← get_llm be (loop_count st) draft;
      try_except
        (content ← llm_draft be (loop_count st) user_preferences (retrieved_chunks st)
                     (original_query st);
         let stripped := strip_fence content in
         '(draft_answer, claims) ←
           match json_loads be stripped with
           | Some result =>
               draft_answer ← py_get result "answer" (PyStr stripped);
               claims ← py_get result "claims" (PyList []);
               mret (draft_answer, claims)
           | None => mret (PyStr content, PyList [])
           end;
         claims_count ← py_len claims;
         mret (draft_update draft_answer claims
                 [("step", PyStr "draft"); ("claims_count", PyNum (inject_Z claims_count))]))
        (fun e =>
           mret (draft_update (PyStr ("生成回答时出错: " +:+ e)) (PyList [])
                   [("step", PyStr "draft"); ("error", PyStr e)]))
  end.

Definition critique_update (critique_result decision refined_query gaps confidence : pyval)
    (trace_entry : TraceEntry) : Update :=
  {| u_current_query := None; u_retrieved_chunks := None; u_all_sources := None;
     u_draft_answer := None; u_claims := None;
     u_critique_result := Some critique_result; u_decision := Some decision;
     u_refined_query := Some refined_query; u_gaps := Some gaps;
     u_loop_count := None; u_final_answer := None;
     u_confidence := Some confidence; u_reasoning_trace := Some [trace_entry] |}.

(** The result used when the critique reply is not valid JSON. *)
Definition unparsed_critique : pyval :=
  PyDict [("decision", PyStr "final"); ("confidence", PyStr "medium");
          ("gaps", PyList []); ("refined_query", PyNone)].

(** What the critique prompt shows of the accumulated sources. *)
Definition sources_view (st : AgentState) : list (string * string * string) :=
  map (fun s => (source s, chunk_id s, str_take 200 (snippet s))) (all_sources st).

(** [critique_node(state)] *)
Definition critique_node (be : Backend) (st : AgentState) : outcome Update :=
  if negb (py_truthy (claims st)) then
    mret (critique_update
            (PyDict [("decision", PyStr "final"); ("confidence", PyStr "medium")])
            (PyStr "final") PyNone (PyList []) (PyStr "medium")
            [("step", PyStr "critique"); ("status", PyStr "no_claims_to_check")])
  else
    _ ← get_llm be (loop_count st) critique;
    try_except
      (content ← llm_critique be (loop_count st) (original_query st) (draft_answer st)
                   (claims st) (sources_view st);
       let stripped := strip_fence content in
       let result := default unparsed_critique (json_loads be stripped) in
       decision ← py_get result "decision" (PyStr "final");
       confidence ← py_get result "confidence" (PyStr "medium");
       gaps ← py_get result "gaps" (PyList []);
       refined_query ← py_get result "refined_query" PyNone;
       let decision :=
         if bool_decide (loop_count st >= max_loops st - 1) then PyStr "final" else decision in
       gaps_count ← py_len gaps;
       shown_query ← (if py_truthy refined_query then py_slice 50 refined_query else mret PyNone);
       mret (critique_update result decision refined_query gaps confidence
               [("step", PyStr "critique"); ("decision", decision);
                ("confidence", confidence); ("gaps_count", PyNum (inject_Z gaps_count));
                ("refined_query", shown_query)]))
      (fun e =>
         mret (critique_update (PyDict []) (PyStr "final") PyNone (PyList []) (PyStr "low")
                 [("step", PyStr "critique"); ("error", PyStr e)])).

(** [refine_query_node(state)]; the first line is the slice in its log
    message, [state.get('refined_query', '')[:50]]. *)
Definition refine_query_node (be : Backend) (st : AgentState) : outcome Update :=
  _ ← py_slice 50 (refined_query st);
  let new_query :=
    if py_truthy (refined_query st) then refined_query st else PyStr (original_query st) in
  let new_loop_count := loop_count st + 1 in
  shown_query ← py_slice 50 new_query;
  mret {| u_current_query := Some new_query; u_retrieved_chunks := None;
          u_all_sources := None; u_draft_answer := None; u_claims := None;
          u_critique_result := None; u_decision := None; u_refined_query := None;
          u_gaps := None; u_loop_count := Some new_loop_count;
          u_final_answer := None; u_confidence := None;
          u_reasoning_trace :=
            Some [[("step", PyStr "refine_query"); ("new_query", shown_query);
                   ("loop", PyNum (inject_Z new_loop_count))]] |}.

(** [confidence_map.get(state['confidence'], ConfidenceLevel.MEDIUM)]: a
    list or a dict is unhashable. *)
Definition confidence_map_get (v : pyval) : outcome ConfidenceLevel :=
  match v with
  | PyList _ => Raises "TypeError: unhashable type: 'list'"
  | PyDict _ => Raises "TypeError: unhashable type: 'dict'"
  | PyStr s =>
      Returns (if bool_decide (s = "high") then HIGH
               else if bool_decide (s = "medium") then MEDIUM
               else if bool_decide (s = "low") then LOW
               else MEDIUM)
  | _ => Returns MEDIUM
  end.

(** [finalize_node(state)] *)
Definition finalize_node (be : Backend) (st : AgentState) : outcome Update :=
  final_answer ←
    (if (py_eq_str (confidence st) "high" || py_eq_str (confidence st) "medium")
        || negb (py_truthy (gaps st)) then
       mret (draft_answer st)
     else
       _ ← get_llm be (loop_count st) finalize;
       let context_parts := map snippet (take 5 (all_sources st)) in
       let context :=
         match context_parts with
         | [] => "无可用信息"
         | _ :: _ => str_join (nl +:+ "---" +:+ nl) context_parts
         end in
       mret (match
               (gaps_text ← (if py_truthy (gaps st) then py_join ", " (gaps st)
                             else mret "无明确缺口");
                content ← llm_fallback be (loop_count st) (original_query st) context gaps_text;
                mret (PyStr content))
             with
             | Returns a => a
             | Raises _ => draft_answer st
             end));
  final_confidence ← confidence_map_get (confidence st);
  mret {| u_current_query := None; u_retrieved_chunks := None; u_all_sources := None;
          u_draft_answer := None; u_claims := None; u_critique_result := None;
          u_decision := None; u_refined_query := None; u_gaps := None;
          u_loop_count := None; u_final_answer := Some final_answer;
          u_confidence := Some (PyStr (ConfidenceLevel_value final_confidence));
          u_reasoning_trace :=
            Some [[("step", PyStr "finalize");
                   ("confidence", PyStr (ConfidenceLevel_value final_confidence))]] |}.

(** [should_continue(state)] *)
Definition should_continue (st : AgentState) : string :=
  if py_eq_str (decision st) "need_more" && bool_decide (loop_count st < max_loops st) then
    "refine"
  else "finalize".

(** The function the graph runs at each node. *)
Definition run_node (be : Backend) (n : Node) (st : AgentState) : outcome Update :=
  match n with
  | retrieve => retrieve_node be st
  | draft => draft_node be st
  | critique => critique_node be st
  | refine => refine_query_node be st
  | finalize => finalize_node be st
  end.

(** The edges of [create_agentic_rag_graph]; [None] is [END].  After
    [critique] the label that [should_continue] returns selects the edge. *)
Definition next_node (n : Node) (st : AgentState) : option Node :=
  match n with
  | retrieve => Some draft
  | draft => Some critique
  | critique => if bool_decide (should_continue st = "refine") then Some refine else Some finalize
  | refine => Some retrieve
  | finalize => None
  end.

(** One executed node: the state it ran in and the state after its dict was
    merged. *)
Record Step : Type := {
  step_node : Node;
  step_before : AgentState;
  step_after : AgentState;
}.

(** How [graph.invoke] ends: with the final state, with the exception a node
    raised, or because the graph's step limit was reached first. *)
Inductive RunResult : Type :=
  | Done (final_state : AgentState)
  | Failed (msg : string)
  | OutOfSteps.

(** The graph run from node [n] in state [st], with [limit] steps allowed:
    the steps executed, in order, and how the run ended. *)
Fixpoint graph_exec (be : Backend) (limit : nat) (n : Node) (st : AgentState)
  : list Step * RunResult :=
  match limit with
  | O => ([], OutOfSteps)
  | S limit' =>
      match run_node be n st with
      | Raises e => ([], Failed e)
      | Returns u =>
          let st' := apply_update st u in
          let here := {| step_node := n; step_before := st; step_after := st' |} in
          match next_node n st' with
          | None => ([here], Done st')
          | Some n' =>
              let '(steps, result) := graph_exec be limit' n' st' in
              (here :: steps, result)
          end
      end
  end.

(** [graph.invoke(initial_state)]: the entry point is [retrieve]. *)
Definition graph_invoke (be : Backend) (limit : nat) (initial_state : AgentState) : RunResult :=
  (graph_exec be limit retrieve initial_state).2.

(** The deduplication loop of [agentic_rag_query]: [seen] is a set of
    [(source, chunk_id)] keys, [unique_sources] grows at its end. *)
Definition dedup_step (acc : gset (string * string) * list SourceInfo) (s : SourceInfo)
  : gset (string * string) * list SourceInfo :=
  let '(seen, unique_sources) := acc in
  let key := (source s, chunk_id s) in
  if decide (key ∈ seen) then (seen, unique_sources)
  else ({[ key ]} ∪ seen, (unique_sources ++ [s])%list).

Definition unique_sources (sources : list SourceInfo) : list SourceInfo :=
  (fold_left dedup_step sources (∅, [])).2.

(** One iteration of the [safe_trace] loop. *)
Definition safe_entry (entry : TraceEntry) : outcome TraceEntry :=
  query_part ←
    match assoc "query" entry with
    | None => mret []
    | Some query =>
        n ← py_len query;
        if bool_decide (n > 50) then
          match query with
          | PyStr q => mret [("query", PyStr (str_take 50 q +:+ "..."))]
          | _ => Raises "TypeError: can only concatenate str"
          end
        else mret [("query", query)]
    end;
  let decision_part :=
    match assoc "decision" entry with
    | None => []
    | Some d => [("decision", d)]
    end in
  let loop_part :=
    match assoc "loop" entry with
    | None => []
    | Some l => [("loop", l)]
    end in
  mret ([("step", default PyNone (assoc "step" entry))] ++ query_part ++ decision_part
          ++ loop_part)%list.

Fixpoint safe_trace (entries : list TraceEntry) : outcome (list TraceEntry) :=
  match entries with
  | [] => mret []
  | entry :: rest =>
      safe ← safe_entry entry;
      others ← safe_trace rest;
      mret (safe :: others)
  end.

(** The dict that [agentic_rag_query] returns. *)
Record Response : Type := {
  resp_message_id : string;
  resp_answer : pyval;
  resp_sources : list SourceInfo;
  resp_confidence : pyval;
  resp_reasoning_trace : list TraceEntry;
  loops_used : Z;
  resp_saved_file : option string;
}.

Definition initial_state (question user_id : string) (top_k : Z) (retrieval_mode : string)
    (max_loops : Z) (filters : option pyval) : AgentState :=
  {| original_query := question;
     current_query := PyStr question;
     user_id := user_id;
     top_k := top_k;
     retrieval_mode := retrieval_mode;
     filters := filters;
     retrieved_chunks := [];
     all_sources := [];
     draft_answer := PyStr "";
     claims := PyList [];
     critique_result := PyDict [];
     decision := PyStr "";
     refined_query := PyNone;
     gaps := PyList [];
     loop_count := 0;
     max_loops := max_loops;
     final_answer := PyStr "";
     confidence := PyStr "medium";
     reasoning_trace := [] |}.

(** The [except Exception as e] branch of [agentic_rag_query]. *)
Definition error_response (be : Backend) (e : string) : Response :=
  {| resp_message_id := generate_message_id be;
     resp_answer := PyStr ("Agentic RAG 执行出错: " +:+ e);
     resp_sources := [];
     resp_confidence := PyStr "low";
     resp_reasoning_trace := [[("step", PyStr "error"); ("message", PyStr e)]];
     loops_used := 0;
     resp_saved_file := None |}.

Definition GRAPH_RECURSION_ERROR : string := "GraphRecursionError".

(** The state that the workflow of a request starts from: [max_loops] is
    the argument, or [RAG_AGENTIC_MAX_LOOPS] when it is [None]. *)
Definition request_state (be : Backend) (question user_id : string) (top_k : Z)
    (retrieval_mode : string) (max_loops : option Z) (filters : option pyval) : AgentState :=
  initial_state question user_id top_k retrieval_mode
    (default (env_max_loops be) max_loops) filters.

(** [agentic_rag_query(question, user_id, top_k, retrieval_mode, max_loops,
    filters)], run on a graph that allows [limit] steps. *)
Definition agentic_rag_query (be : Backend) (limit : nat) (question user_id : string)
    (top_k : Z) (retrieval_mode : string) (max_loops : option Z)
    (filters : option pyval) : Response :=
  let message_id := generate_message_id be in
  let initial_state := request_state be question user_id top_k retrieval_mode max_loops filters in
  match graph_invoke be limit initial_state with
  | Done final_state =>
      match safe_trace (reasoning_trace final_state) with
      | Returns trace =>
          {| resp_message_id := message_id;
             resp_answer := final_answer final_state;
             resp_sources := unique_sources (all_sources final_state);
             resp_confidence := confidence final_state;
             resp_reasoning_trace := trace;
             loops_used := loop_count final_state + 1;
             resp_saved_file := None |}
      | Raises e => error_response be e
      end
  | Failed e => error_response be e
  | OutOfSteps => error_response be GRAPH_RECURSION_ERROR
  end.

End Agentic.

(** ** app/vectorstore.py: the chunk index and the life cycle of the store *)

(** [x[key]] with a string key: a [KeyError] on a dict without the key, a
    [TypeError] on anything that is not a dict. *)
Definition py_item (v : pyval) (key : string) : outcome pyval :=
  match v with
  | PyDict items =>
      match assoc key items with
      | Some x => Returns x
      | None => Raises ("KeyError: '" +:+ key +:+ "'")
      end
  | PyList _ => Raises "TypeError: list indices must be integers or slices, not str"
  | PyStr _ => Raises "TypeError: string indices must be integers, not 'str'"
  | PyNone => Raises "TypeError: 'NoneType' object is not subscriptable"
  | PyBool _ => Raises "TypeError: 'bool' object is not subscriptable"
  | PyNum _ => Raises "TypeError: number object is not subscriptable"
  end.

(** [d[key] = value] on the items of a dict: the value of a key that is
    present is replaced where it stands, a new key goes last. *)
Fixpoint dict_set (key : string) (value : pyval) (items : list (string * pyval))
  : list (string * pyval) :=
  match items with
  | [] => [(key, value)]
  | (k, v) :: rest =>
      if decide (k = key) then (k, value) :: rest else (k, v) :: dict_set key value rest
  end.

(** [x[key] = value] with a string key: a [TypeError] on anything that is
    not a dict. *)
Definition py_setitem (v : pyval) (key : string) (value : pyval) : outcome pyval :=
  match v with
  | PyDict items => Returns (PyDict (dict_set key value items))
  | PyList _ => Raises "TypeError: list indices must be integers or slices, not str"
  | PyStr _ => Raises "TypeError: 'str' object does not support item assignment"
  | PyNone => Raises "TypeError: 'NoneType' object does not support item assignment"
  | PyBool _ => Raises "TypeError: 'bool' object does not support item assignment"
  | PyNum _ => Raises "TypeError: number object does not support item assignment"
  end.

Module Store.
Import Vectorstore.

(** The file [chunks_index.json] under the memory directory: absent,
    present but not readable as JSON, or holding a JSON value.  Writing the
    file is taken to succeed. *)
Inductive IndexFile : Type :=
  | NoFile
  | Unreadable
  | Holds (index : pyval).

(** [load_chunks_index()]: the parsed file, or an empty index when the file
    is absent or reading it raises. *)
Definition load_chunks_index (file : IndexFile) : pyval :=
  match file with
  | Holds index => index
  | NoFile | Unreadable => PyDict [("chunks", PyDict [])]
  end.

(** [save_chunks_index(index)]: the file is written first; the count in
    the log line is computed after it. *)
Definition save_chunks_index (index : pyval) : IndexFile * outcome unit :=
  (Holds index,
   chunks ← py_get index "chunks" (PyDict []);
   _ ← py_len chunks;
   mret tt).

(** [doc.metadata] as a JSON object. *)
Definition metadata_dict (doc : Document) : pyval :=
  PyDict (map (fun kv => (kv.1, PyStr kv.2)) (map_to_list (metadata doc))).

(** The entry that the index keeps for a chunk. *)
Definition chunk_entry (doc : Document) : pyval :=
  PyDict [("source", PyStr (default "unknown" (metadata doc !! "source")));
          ("content", PyStr (page_content doc));
          ("metadata", metadata_dict doc)].

(** The body of the loop of [update_chunks_index].  The inner dict
    [index['chunks']] is updated in place; here the updated dict is put back
    under its key. *)
Definition index_document (index : pyval) (doc : Document) : outcome pyval :=
  let chunk_id := default "" (metadata doc !! "chunk_id") in
  if bool_decide (chunk_id = "") then mret index
  else
    chunks ← py_item index "chunks";
    chunks ← py_setitem chunks chunk_id (chunk_entry doc);
    py_setitem index "chunks" chunks.

Fixpoint index_documents (index : pyval) (documents : list Document) : outcome pyval :=
  match documents with
  | [] => mret index
  | doc :: rest =>
      index ← index_document index doc;
      index_documents index rest
  end.

(** [update_chunks_index(documents)]: the new file, and how the call
    ends.  An exception in the loop leaves the file as it was. *)
Definition update_chunks_index (file : IndexFile) (documents : list Document)
  : IndexFile * outcome unit :=
  match index_documents (load_chunks_index file) documents with
  | Returns index => save_chunks_index index
  | Raises e => (file, Raises e)
  end.

(** [get_chunk_by_id(chunk_id)]; [None] is [PyNone]. *)
Definition get_chunk_by_id (file : IndexFile) (chunk_id : string) : outcome pyval :=
  chunks ← py_get (load_chunks_index file) "chunks" (PyDict []);
  py_get chunks chunk_id PyNone.

(** What the module calls on Chroma beyond the searches:
    [Chroma.from_documents], [vs.add_documents], and [get] and [delete] on
    the collection ([get] is given the source name of its [where] clause). *)
Record Admin : Type := {
  Chroma_from_documents : list Document -> Embeddings -> outcome Chroma;
  vs_add_documents : Chroma -> list Document -> outcome unit;
  collection_get : Chroma -> string -> outcome pyval;
  collection_delete : Chroma -> pyval -> outcome unit;
}.

(** The state that the module keeps: its two globals and the chunk index
    file.  The persist directory is read through the [Env] of each call. *)
Record State : Type := {
  globals : Globals;
  chunks_file : IndexFile;
}.

(** [create_vectorstore(documents)] *)
Definition create_vectorstore (env : Env) (ad : Admin) (s : State) (documents : list Document)
  : State * outcome Chroma :=
  match get_embeddings env with
  | Raises e => (s, Raises e)
  | Returns embeddings =>
      match Chroma_from_documents ad documents embeddings with
      | Raises e => (s, Raises e)
      | Returns vs =>
          let '(file, updated) := update_chunks_index (chunks_file s) documents in
          ({| globals := {| _vectorstore := Some vs; _is_ready := true |};
              chunks_file := file |},
           _ ← updated; mret vs)
      end
  end.

(** [reset_vectorstore()] *)
Definition reset_vectorstore (s : State) : State :=
  {| globals := not_loaded; chunks_file := chunks_file s |}.

(** [delete_by_source(source_name)] *)
Definition delete_by_source (env : Env) (ad : Admin) (g : Globals) (source_name : string)
  : Globals * Z :=
  let '(g', vs) := get_vectorstore env g in
  match vs with
  | None => (g', 0)
  | Some vs =>
      (g',
       match
         (results ← collection_get ad vs source_name;
          if py_truthy results then
            ids ← py_item results "ids";
            if py_truthy ids then
              _ ← collection_delete ad vs ids;
              py_len ids
            else mret 0
          else mret 0)
       with
       | Returns deleted => deleted
       | Raises _ => 0
       end)
  end.

(** [add_documents(documents)] *)
Definition add_documents (env : Env) (ad : Admin) (s : State) (documents : list Document)
  : State * Z :=
  let '(g', vs) := get_vectorstore env (globals s) in
  match vs with
  | None => ({| globals := g'; chunks_file := chunks_file s |}, 0)
  | Some vs =>
      match vs_add_documents ad vs documents with
      | Raises _ => ({| globals := g'; chunks_file := chunks_file s |}, 0)
      | Returns _ =>
          let '(file, updated) := update_chunks_index (chunks_file s) documents in
          ({| globals := g'; chunks_file := file |},
           match updated with
           | Returns _ => Z.of_nat (length documents)
           | Raises _ => 0
           end)
      end
  end.

(** [get_document_count()] *)
Definition get_document_count (env : Env) (g : Globals) : Globals * Z :=
  let '(g', vs) := get_vectorstore env g in
  match vs with
  | None => (g', 0)
  | Some vs =>
      (g', match collection_count vs with
           | Returns n => n
           | Raises _ => 0
           end)
  end.

End Store.

(** ** app/ingest.py *)

Module Ingest.
Import Vectorstore Store.

(** A file of the knowledge directory: [file_path.name] and
    [str(file_path)]. *)
Record KnowledgeFile : Type := {
  file_name : string;
  file_path : string;
}.

(** What the module reads from outside: the files that
    [knowledge_dir.glob(pattern)] yields, [TextLoader(path).load()], and
    the splitter built from [CHUNK_SIZE] and [CHUNK_OVERLAP]
    ([splitter.split_documents([doc])]); building it raises when the
    settings are not numbers or do not fit together. *)
Record Files : Type := {
  glob : string -> list KnowledgeFile;
  TextLoader_load : string -> outcome (list Document);
  make_splitter : outcome (Document -> list Document);
}.

(** [doc.metadata['source'] = file_path.name] and
    [doc.metadata['file_path'] = str(file_path)] *)
Definition with_source (file : KnowledgeFile) (doc : Document) : Document :=
  {| page_content := page_content doc;
     metadata := <["file_path" := file_path file]>
                   (<["source" := file_name file]> (metadata doc)) |}.

(** The body of the inner loop of [load_documents]: a file that cannot be
    loaded adds nothing. *)
Definition load_file (fs : Files) (file : KnowledgeFile) : list Document :=
  match TextLoader_load fs (file_path file) with
  | Returns docs => map (with_source file) docs
  | Raises _ => []
  end.

(** [load_documents()] *)
Definition load_documents (fs : Files) : list Document :=
  concat (map (load_file fs) (glob fs "*.md" ++ glob fs "*.txt")).

(** [chunk.metadata['chunk_id'] = f"{source_name}_chunk_{i}"] and
    [chunk.metadata['chunk_index'] = i]; the metadata of this model holds
    text, so the index is kept as its decimal text. *)
Definition tag_chunk (source_name : string) (i : Z) (chunk : Document) : Document :=
  {| page_content := page_content chunk;
     metadata := <["chunk_index" := pretty i]>
                   (<["chunk_id" := source_name +:+ "_chunk_" +:+ pretty i]>
                      (metadata chunk)) |}.

(** The chunks of one document, tagged. *)
Definition split_document (splitter : Document -> list Document) (doc : Document)
  : list Document :=
  map (fun '(i, chunk) => tag_chunk (default "unknown" (metadata doc !! "source")) i chunk)
      (enumerate 0 (splitter doc)).

(** [split_documents(documents)] *)
Definition split_documents (fs : Files) (documents : list Document) : outcome (list Document) :=
  splitter ← make_splitter fs;
  mret (concat (map (split_document splitter) documents)).

Definition EMPTY_KNOWLEDGE_BASE : string :=
  "知识库目录为空，请先上传 .md 或 .txt 文件到 data/knowledge/ 目录".

(** [ingest_documents()] *)
Definition ingest_documents (env : Env) (ad : Admin) (fs : Files) (s : State)
  : State * outcome (Z * Z) :=
  let s := reset_vectorstore s in
  let documents := load_documents fs in
  match documents with
  | [] => (s, Raises EMPTY_KNOWLEDGE_BASE)
  | _ :: _ =>
      let doc_count := Z.of_nat (length documents) in
      match split_documents fs documents with
      | Raises e => (s, Raises e)
      | Returns chunks =>
          let chunk_count := Z.of_nat (length chunks) in
          let '(s, created) := create_vectorstore env ad s chunks in
          (s, _ ← created; mret (doc_count, chunk_count))
      end
  end.

End Ingest.

(** ** app/utils.py: file names *)

Module Utils.

(** The regular expressions of [sanitize_filename] classify characters, so
    here a text is the list of its code points.  [is_word] is the class
    [\w] of the [re] module: letters and digits of any script, and the
    underscore. *)
Definition text : Type := list N.

Definition UNDERSCORE : N := 95%N.

(** The characters that [[^\w\-._\u4e00-\u9fff]] does not match. *)
Definition kept_char (is_word : N -> bool) (c : N) : bool :=
  is_word c
  || bool_decide (c = 45%N) || bool_decide (c = 46%N) || bool_decide (c = 95%N)
  || (bool_decide (19968 <= c)%N && bool_decide (c <= 40959)%N).

(** [re.sub(r'[^\w\-._\u4e00-\u9fff]', '_', filename)] *)
Definition replace_unsafe (is_word : N -> bool) (filename : text) : text :=
  map (fun c => if kept_char is_word c then c else UNDERSCORE) filename.

(** [re.sub(r'_+', '_', s)]: of each run of underscores the last one is
    left. *)
Fixpoint squeeze (s : text) : text :=
  match s with
  | [] => []
  | c :: rest =>
      match rest with
      | c' :: _ =>
          if bool_decide (c = UNDERSCORE) && bool_decide (c' = UNDERSCORE) then squeeze rest
          else c :: squeeze rest
      | [] => [c]
      end
  end.

(** [s.lstrip('_')] and [s.strip('_')] *)
Fixpoint lstrip (s : text) : text :=
  match s with
  | [] => []
  | c :: rest => if bool_decide (c = UNDERSCORE) then lstrip rest else s
  end.

Definition strip (s : text) : text := reverse (lstrip (reverse (lstrip s))).

(** ['unnamed'] *)
Definition UNNAMED : text := [117; 110; 110; 97; 109; 101; 100]%N.

(** [sanitize_filename(filename)] *)
Definition sanitize_filename (is_word : N -> bool) (filename : text) : text :=
  let safe_name := replace_unsafe is_word filename in
  let safe_name := squeeze safe_name in
  let safe_name := strip safe_name in
  match safe_name with
  | [] => UNNAMED
  | _ :: _ => safe_name
  end.

(** The part of [s] before its last ['.'], when it has one. *)
Fixpoint before_last_dot (s : string) : option string :=
  match s with
  | EmptyString => None
  | String c rest =>
      match before_last_dot rest with
      | Some before => Some (String c before)
      | None => if bool_decide (String c EmptyString = ".") then Some "" else None
      end
  end.

(** [filename.rsplit('.', 1)[0]] *)
Definition rsplit_dot_0 (filename : string) : string :=
  default filename (before_last_dot filename).

(** The body of the loop that avoids a name conflict in
    [save_answer_as_markdown]: [f"{base_name}_{counter}.md"]. *)
Definition next_filename (filename : string) (counter : Z) : string :=
  rsplit_dot_0 filename +:+ "_" +:+ pretty counter +:+ ".md".

(** [while file_path.exists(): ...], over the names [existing] in the
    outputs directory, for at most [fuel] probes: the name that the loop
    ends with, or [None] when the probes are used up. *)
Fixpoint free_filename (fuel : nat) (existing : gset string) (filename : string) (counter : Z)
  : option string :=
  match fuel with
  | O => None
  | S fuel =>
      if decide (filename ∈ existing) then
        free_filename fuel existing (next_filename filename counter) (counter + 1)
      else Some filename
  end.

(** [save_answer_as_markdown], from the file name that
    [generate_document_filename(question)] proposed: the entries of the
    outputs directory afterwards (names and contents), and the name
    returned.  [content] is the rendering of the document, which raises when
    a source cannot be formatted; [write] tells whether writing the file
    raises.  Any exception makes the function return [None]. *)
Definition save_answer_as_markdown (fuel : nat) (write : string -> outcome unit)
    (outputs : gmap string string) (filename : string) (content : outcome string)
  : gmap string string * option string :=
  match free_filename fuel (dom outputs) filename 1 with
  | None => (outputs, None)
  | Some filename =>
      match (content ← content; _ ← write filename; mret content) with
      | Returns content => (<[filename := content]> outputs, Some filename)
      | Raises _ => (outputs, None)
      end
  end.

End Utils.

(** ** app/memory.py *)

Module Memory.

(** [UserProfile] *)
Record UserProfile : Type := {
  profile_user_id : string;
  language : string;
  output_style : string;
  format : string;
  tone : string;
}.

(** [UserProfile(user_id=user_id)] *)
Definition default_profile (user_id : string) : UserProfile :=
  {| profile_user_id := user_id; language := "zh-CN"; output_style := "详细";
     format := "markdown"; tone := "专业" |}.

(** A profile file [profile_{user_id}.json]: one that cannot be read as a
    profile (not JSON, or data that [UserProfile] rejects), or one that
    reads as the profile [p].  What [save_user_profile] writes reads back
    as the profile written. *)
Inductive ProfileFile : Type :=
  | Rejected
  | Stored (p : UserProfile).

(** [load_user_profile(user_id)]; [files] are the profile files of the
    memory directory, by the user id in their name. *)
Definition load_user_profile (files : gmap string ProfileFile) (user_id : string) : UserProfile :=
  match files !! user_id with
  | Some (Stored p) => p
  | Some Rejected | None => default_profile user_id
  end.

(** [save_user_profile(profile)] *)
Definition save_user_profile (files : gmap string ProfileFile) (profile : UserProfile)
  : gmap string ProfileFile :=
  <[profile_user_id profile := Stored profile]> files.

(** [update_user_profile(user_id, language, output_style, format, tone)] *)
Definition update_user_profile (files : gmap string ProfileFile) (user_id : string)
    (new_language new_output_style new_format new_tone : option string)
  : gmap string ProfileFile * UserProfile :=
  let profile := load_user_profile files user_id in
  let profile :=
    {| profile_user_id := profile_user_id profile;
       language := default (language profile) new_language;
       output_style := default (output_style profile) new_output_style;
       format := default (format profile) new_format;
       tone := default (tone profile) new_tone |} in
  (save_user_profile files profile, profile).

(** [style_map.get(profile.output_style, style_map["详细"])] *)
Definition style_prompt (output_style : string) : string :=
  if bool_decide (output_style = "简洁") then "回答要简洁明了，突出重点"
  else if bool_decide (output_style = "详细") then "回答要详细全面，包含必要的解释和示例"
  else if bool_decide (output_style = "学术") then "回答要严谨学术，使用专业术语，引用充分"
  else "回答要详细全面，包含必要的解释和示例".

(** [tone_map.get(profile.tone, tone_map["专业"])] *)
Definition tone_prompt (tone : string) : string :=
  if bool_decide (tone = "友好") then "使用友好、亲切的语气"
  else if bool_decide (tone = "专业") then "使用专业、客观的语气"
  else if bool_decide (tone = "正式") then "使用正式、严肃的语气"
  else "使用专业、客观的语气".

(** The prompt made from a profile. *)
Definition profile_prompt (profile : UserProfile) : string :=
  let prompts :=
    ["请使用" +:+ language profile +:+ "回答。";
     style_prompt (output_style profile);
     tone_prompt (tone profile)] in
  let prompts :=
    if bool_decide (format profile = "markdown") then
      (prompts ++ ["请使用 Markdown 格式组织回答，适当使用标题、列表等。"])%list
    else prompts in
  str_join " " prompts.

(** [get_profile_prompt(user_id)] *)
Definition get_profile_prompt (files : gmap string ProfileFile) (user_id : string) : string :=
  profile_prompt (load_user_profile files user_id).

End Memory.

(** ** Concrete worlds, used to run the definitions *)

Module Scenario.

Definition doc (text src cid : string) : Document :=
  {| page_content := text; metadata := {[ "source" := src; "chunk_id" := cid ]} |}.

Definition doc_a : Document := doc "alpha" "a.md" "a-0".
Definition doc_b : Document := doc "beta" "b.md" "b-0".
Definition doc_c : Document := doc "gamma" "c.md" "c-0".

(** An embedding client that answers. *)
Definition embeddings_ok : Vectorstore.Embeddings :=
  {| Vectorstore.embed_query := fun _ => Returns [] |}.

(** No API key: [get_embeddings()] raises; nothing was ever persisted. *)
Definition env_unbuilt : Vectorstore.Env :=
  {| Vectorstore.get_embeddings := Raises "ValueError: OPENAI_API_KEY";
     Vectorstore.chroma_sqlite3_exists := false;
     Vectorstore.Chroma_open := fun _ => Raises "unreachable" |}.

(** An index whose MMR search selects [doc_a], [doc_b], [doc_c], and whose
    similarity lookup scores [alpha], finds nothing for [beta] and raises
    for anything else. *)
Definition chroma_partial : Vectorstore.Chroma :=
  {| Vectorstore.similarity_search_with_score := fun q _ =>
       if bool_decide (q = "alpha") then Returns [(doc_a, float_0_8)]
       else if bool_decide (q = "beta") then Returns []
       else Raises "ConnectionError";
     Vectorstore.max_marginal_relevance_search := fun _ _ _ _ =>
       Returns [doc_a; doc_b; doc_c];
     Vectorstore.collection_count := Returns 3 |}.

Definition env_built : Vectorstore.Env :=
  {| Vectorstore.get_embeddings := Returns embeddings_ok;
     Vectorstore.chroma_sqlite3_exists := true;
     Vectorstore.Chroma_open := fun _ => Returns chroma_partial |}.

Definition globals_built : Vectorstore.Globals :=
  {| Vectorstore._vectorstore := Some chroma_partial; Vectorstore._is_ready := true |}.

(** A built index in which nothing matches. *)
Definition chroma_empty : Vectorstore.Chroma :=
  {| Vectorstore.similarity_search_with_score := fun _ _ => Returns [];
     Vectorstore.max_marginal_relevance_search := fun _ _ _ _ => Returns [];
     Vectorstore.collection_count := Returns 0 |}.

Definition globals_empty : Vectorstore.Globals :=
  {| Vectorstore._vectorstore := Some chroma_empty; Vectorstore._is_ready := true |}.

(** A built index whose only match scores 0.1, below [min_score]. *)
Definition chroma_weak : Vectorstore.Chroma :=
  {| Vectorstore.similarity_search_with_score := fun _ _ => Returns [(doc_a, (1 # 10)%Q)];
     Vectorstore.max_marginal_relevance_search := fun _ _ _ _ => Returns [doc_a];
     Vectorstore.collection_count := Returns 1 |}.

Definition globals_weak : Vectorstore.Globals :=
  {| Vectorstore._vectorstore := Some chroma_weak; Vectorstore._is_ready := true |}.

(** Services whose generation backend raises whenever it is called. *)
Definition services_down : Rag.Services :=
  {| Rag.format_3f := fun _ => "0.100";
     Rag.round3 := fun q => q;
     Rag.generate_message_id := "m-1";
     Rag.get_rag_config := default_rag_config;
     Rag.get_profile_prompt := fun _ => "";
     Rag.chain_invoke := fun _ _ _ _ => Raises "generation backend called";
     Rag.stream_chat_completion := fun _ _ _ _ => ([], Some "generation backend called");
     Rag.save_answer_to_file := fun _ _ _ => Returns "answer.md";
     Rag.save_answer_as_markdown := fun _ _ _ _ _ _ => None |}.

(** Services whose generation backend answers. *)
Definition services_up : Rag.Services :=
  {| Rag.format_3f := fun _ => "0.100";
     Rag.round3 := fun q => q;
     Rag.generate_message_id := "m-1";
     Rag.get_rag_config := default_rag_config;
     Rag.get_profile_prompt := fun _ => "";
     Rag.chain_invoke := fun _ _ _ _ => Returns "generated";
     Rag.stream_chat_completion := fun _ _ _ _ => (["gene"; "rated"], None);
     Rag.save_answer_to_file := fun _ _ _ => Returns "answer.md";
     Rag.save_answer_as_markdown := fun _ _ _ _ _ _ => None |}.

(** JSON text: a string literal in double quotes. *)
Definition quoted (s : string) : string := dquote +:+ s +:+ dquote.

(** [{"answer": "Alpha is a letter.", "claims": ["alpha is a letter"]}] *)
Definition draft_json : string :=
  "{" +:+ quoted "answer" +:+ ": " +:+ quoted "Alpha is a letter." +:+ ", "
  +:+ quoted "claims" +:+ ": [" +:+ quoted "alpha is a letter" +:+ "]}".

(** [{"decision": "need_more"}] *)
Definition need_more_json : string :=
  "{" +:+ quoted "decision" +:+ ": " +:+ quoted "need_more" +:+ "}".

(** [{"decision": "need_more", "refined_query": "alpha letter"}] *)
Definition refine_json : string :=
  "{" +:+ quoted "decision" +:+ ": " +:+ quoted "need_more" +:+ ", "
  +:+ quoted "refined_query" +:+ ": " +:+ quoted "alpha letter" +:+ "}".

(** [json.loads] on the three texts above; any other text met in these
    scenarios is not JSON. *)
Definition loads (text : string) : option pyval :=
  if bool_decide (text = draft_json) then
    Some (PyDict [("answer", PyStr "Alpha is a letter.");
                  ("claims", PyList [PyStr "alpha is a letter"])])
  else if bool_decide (text = need_more_json) then
    Some (PyDict [("decision", PyStr "need_more")])
  else if bool_decide (text = refine_json) then
    Some (PyDict [("decision", PyStr "need_more"); ("refined_query", PyStr "alpha letter")])
  else None.

(** A backend whose searches return [found] in every round, whose draft
    reply is [draft_json] and whose critique reply is [critique_reply]. *)
Definition backend (found : list (Document * Q)) (critique_reply : outcome string)
  : Agentic.Backend :=
  {| Agentic.search_similar := fun _ _ _ => found;
     Agentic.search_mmr := fun _ _ _ _ _ => found;
     Agentic.get_rag_config := default_rag_config;
     Agentic.round3 := fun q => q;
     Agentic.get_profile_prompt := fun _ => "";
     Agentic.get_llm := fun _ _ => Returns tt;
     Agentic.llm_draft := fun _ _ _ _ => Returns draft_json;
     Agentic.llm_critique := fun _ _ _ _ _ => critique_reply;
     Agentic.llm_fallback := fun _ _ _ _ => Returns "conservative answer";
     Agentic.json_loads := loads;
     Agentic.generate_message_id := "m-1";
     Agentic.env_max_loops := 2 |}.

(** Nothing is retrieved. *)
Definition backend_nothing : Agentic.Backend := backend [] (Returns need_more_json).
(** The critique asks for more and names no refined query. *)
Definition backend_need_more : Agentic.Backend :=
  backend [(doc_a, float_0_8)] (Returns need_more_json).
(** The critique asks for more, with a refined query, in every round. *)
Definition backend_refining : Agentic.Backend :=
  backend [(doc_a, float_0_8)] (Returns refine_json).
(** The critique call raises. *)
Definition backend_critique_down : Agentic.Backend :=
  backend [(doc_a, float_0_8)] (Raises "TimeoutError").
(** The critique reply is not JSON. *)
Definition backend_critique_garbled : Agentic.Backend :=
  backend [(doc_a, float_0_8)] (Returns "I think the draft is fine.").

(** The request of the examples. *)
Definition request (be : Agentic.Backend) (max_loops : Z) : Agentic.AgentState :=
  Agentic.request_state be "what is alpha?" "u1" 5 "similarity" (Some max_loops) None.

(** The draft reply is prose, not JSON. *)
Definition backend_draft_prose : Agentic.Backend :=
  {| Agentic.search_similar := fun _ _ _ => [(doc_a, float_0_8)];
     Agentic.search_mmr := fun _ _ _ _ _ => [(doc_a, float_0_8)];
     Agentic.get_rag_config := default_rag_config;
     Agentic.round3 := fun q => q;
     Agentic.get_profile_prompt := fun _ => "";
     Agentic.get_llm := fun _ _ => Returns tt;
     Agentic.llm_draft := fun _ _ _ _ => Returns "Alpha is the first Greek letter.";
     Agentic.llm_critique := fun _ _ _ _ _ => Raises "unreachable";
     Agentic.llm_fallback := fun _ _ _ _ => Returns "conservative answer";
     Agentic.json_loads := loads;
     Agentic.generate_message_id := "m-1";
     Agentic.env_max_loops := 2 |}.

(** The state in which [draft] runs in round 0 of [request be max_loops]. *)
Definition at_draft (be : Agentic.Backend) (max_loops : Z) : Agentic.AgentState :=
  let st0 := request be max_loops in
  match Agentic.retrieve_node be st0 with
  | Returns u => Agentic.apply_update st0 u
  | Raises _ => st0
  end.

(** The state in which [critique] runs in round 0 of [request be max_loops]:
    one source retrieved, the draft and its claim parsed from [draft_json]. *)
Definition at_critique (be : Agentic.Backend) (max_loops : Z) : Agentic.AgentState :=
  let st1 := at_draft be max_loops in
  match Agentic.draft_node be st1 with
  | Returns u => Agentic.apply_update st1 u
  | Raises _ => st1
  end.

(** An administration interface whose calls succeed; the index it creates
    is [chroma_partial]. *)
Definition admin_ok : Store.Admin :=
  {| Store.Chroma_from_documents := fun _ _ => Returns chroma_partial;
     Store.vs_add_documents := fun _ _ => Returns tt;
     Store.collection_get := fun _ _ => Returns PyNone;
     Store.collection_delete := fun _ _ => Returns tt |}.

(** A knowledge directory with [a.md] and [b.txt]: each file loads as one
    document, and the splitter cuts every document in two. *)
Definition files_two : Ingest.Files :=
  {| Ingest.glob := fun pattern =>
       if bool_decide (pattern = "*.md") then
         [{| Ingest.file_name := "a.md"; Ingest.file_path := "data/knowledge/a.md" |}]
       else if bool_decide (pattern = "*.txt") then
         [{| Ingest.file_name := "b.txt"; Ingest.file_path := "data/knowledge/b.txt" |}]
       else [];
     Ingest.TextLoader_load := fun path =>
       Returns [{| page_content := "text of " +:+ path; metadata := ∅ |}];
     Ingest.make_splitter := Returns (fun doc => [doc; doc]) |}.


(** Nothing loaded, no chunk index file. *)
Definition state_fresh : Store.State :=
  {| Store.globals := Vectorstore.not_loaded; Store.chunks_file := Store.NoFile |}.
(** An index loaded, no chunk index file. *)
Definition state_built : Store.State :=
  {| Store.globals := globals_built; Store.chunks_file := Store.NoFile |}.

End Scenario.

(** * The vocabulary of the properties *)

#[global] Instance Qlt_decision (a b : Q) : Decision (a < b)%Q.
Proof. destruct (Qlt_le_dec a b) as [H|H]; [left; exact H|right; apply Qle_not_lt, H]. Defined.
#[global] Instance Qle_decision (a b : Q) : Decision (a <= b)%Q.
Proof. destruct (Qlt_le_dec b a) as [H|H]; [right; apply Qlt_not_le, H|left; exact H]. Defined.

Section ConfidenceVocabulary.
Import Rag.

(** [m] is the maximum score across the evidence. *)
Definition is_max_score (m : Q) (docs : list (Document * Q)) : Prop :=
  (exists d, In (d, m) docs) /\ forall d s, In (d, s) docs -> (s <= m)%Q.

(** The number of items whose score is at least [min_score]. *)
Definition valid_count (min_score : Q) (docs : list (Document * Q)) : Z :=
  Z.of_nat (length (List.filter (fun p => Qle_bool min_score (snd p)) docs)).

(** The level and the flag, as the specification computes them from
    [max_score] and [valid_count]. *)
Definition evaluate (max_score : Q) (valid_count : Z) (policy : RagConfig)
  : ConfidenceLevel * bool :=
  let needs_fallback :=
    bool_decide ((max_score < min_score policy)%Q \/ valid_count < min_sources policy) in
  (if needs_fallback then LOW
   else if bool_decide ((float_0_7 <= max_score)%Q /\ 3 <= valid_count) then HIGH
   else MEDIUM,
   needs_fallback).

End ConfidenceVocabulary.

Section RagVocabulary.
Import Rag.

(** The templated fallback applies: evidence is insufficient and the mode
    is strict. *)
Definition fallback_applies (need_fallback : bool) (answer_mode : AnswerMode) : Prop :=
  need_fallback = true /\ answer_mode = STRICT.

(** [result] carries the answer that [expected] produced: it raises when
    [expected] does, and otherwise returns that answer, unless the optional
    file writer raised after the answer was made. *)
Definition produces_answer (save_to_file : bool) (result : outcome Response)
    (expected : outcome string) : Prop :=
  match expected, result with
  | Raises e, _ => result = Raises e
  | Returns a, Returns r => answer r = a
  | Returns a, Raises _ => save_to_file = true
  end.

(** The events of a stream that generated its answer: the tokens, then the
    error that interrupted them or the end event with their concatenation. *)
Definition generation_events (finish : string -> StreamEvent)
    (stream : list string * option string) : list StreamEvent :=
  (map EventToken stream.1
     ++ [match stream.2 with
         | Some e => EventError e
         | None => finish (str_join "" stream.1)
         end])%list.

End RagVocabulary.

Section AgenticVocabulary.
Import Agentic.

(** The sources a step adds: what [retrieve] found, nothing at other nodes. *)
Definition added_sources (be : Backend) (n : Node) (st : AgentState) : list SourceInfo :=
  match n with
  | retrieve => retrieved_sources be st
  | _ => []
  end.

(** What a step does to [all_sources]: it appends what the step retrieved,
    which is nothing at every node but [retrieve]. *)
Definition appends_only (be : Backend) (s : Step) : Prop :=
  all_sources (step_after s)
  = (all_sources (step_before s) ++ added_sources be (step_node s) (step_before s))%list.

(** Each step starts in the state the previous one left. *)
Fixpoint chained (st : AgentState) (steps : list Step) : Prop :=
  match steps with
  | [] => True
  | s :: rest => step_before s = st /\ chained (step_after s) rest
  end.

(** [refine] runs only before round [max_loops - 1]. *)
Definition refine_guarded (s : Step) : Prop :=
  match step_node s with
  | refine => loop_count (step_before s) < max_loops (step_before s) - 1
  | _ => True
  end.

(** The counter stays between 0 and [max_loops - 1] (0 when [max_loops] is
    less than 1), and [max_loops] never changes. *)
Definition counter_bounded (M : Z) (n : Node) (st : AgentState) : Prop :=
  max_loops st = M
  /\ 0 <= loop_count st <= Z.max 0 (M - 1)
  /\ match n with refine => loop_count st < M - 1 | _ => True end.

(** The final state: the counter in its bounds, and the trace that
    [finalize] wrote. *)
Definition final_bounded (M : Z) (st : AgentState) : Prop :=
  max_loops st = M
  /\ 0 <= loop_count st <= Z.max 0 (M - 1)
  /\ exists c, reasoning_trace st = [[("step", PyStr "finalize"); ("confidence", PyStr c)]].

(** The round ends here: [critique] wrote 'final' with confidence [c], the
    graph goes to [finalize], and [finalize] emits the draft with
    confidence [c]. *)
Definition ends_round_with (be : Backend) (c : string) (st : AgentState) (u : Update) : Prop :=
  u_decision u = Some (PyStr "final")
  /\ u_confidence u = Some (PyStr c)
  /\ next_node critique (apply_update st u) = Some finalize
  /\ exists u', finalize_node be (apply_update st u) = Returns u'
                /\ u_final_answer u' = Some (draft_answer st)
                /\ u_confidence u' = Some (PyStr c).

(** The key that sources are deduplicated by. *)
Definition source_key (s : SourceInfo) : string * string := (source s, chunk_id s).

(** The entries of [l] that the deduplication loop appends when it starts
    with the keys [seen]. *)
Fixpoint kept (seen : gset (string * string)) (l : list SourceInfo) : list SourceInfo :=
  match l with
  | [] => []
  | s :: rest =>
      if decide (source_key s ∈ seen) then kept seen rest
      else s :: kept ({[ source_key s ]} ∪ seen) rest
  end.

(** [s] stands in [l] at a position before which no entry has its key. *)
Definition first_with_key (l : list SourceInfo) (s : SourceInfo) : Prop :=
  exists i, l !! i = Some s
            /\ forall j s', (j < i)%nat -> l !! j = Some s' -> source_key s' <> source_key s.




End AgenticVocabulary.

Section EvidenceVocabulary.
Import Rag.

(** The levels in their order: LOW below MEDIUM below HIGH. *)
Definition level_rank (c : ConfidenceLevel) : nat :=
  match c with
  | LOW => 0
  | MEDIUM => 1
  | HIGH => 2
  end.


End EvidenceVocabulary.

Section FailureVocabulary.
Import Agentic.



End FailureVocabulary.

Section StoreVocabulary.
Import Vectorstore Store.

(** The chunk id under which [update_chunks_index] files a document; the
    empty string when it has none. *)
Definition chunk_id_of (doc : Document) : string := default "" (metadata doc !! "chunk_id").

(** The last document of [documents] that is filed under [chunk_id]. *)
Fixpoint last_with_id (chunk_id : string) (documents : list Document) : option Document :=
  match documents with
  | [] => None
  | doc :: rest =>
      match last_with_id chunk_id rest with
      | Some later => Some later
      | None =>
          if bool_decide (chunk_id_of doc = chunk_id /\ chunk_id <> "") then Some doc else None
      end
  end.

(** An index file that [update_chunks_index] can extend: no file, a file
    that cannot be read, or a JSON object whose ['chunks'] is an object. *)
Definition index_well_formed (file : IndexFile) : Prop :=
  match file with
  | NoFile | Unreadable => True
  | Holds (PyDict items) =>
      match assoc "chunks" items with
      | Some (PyDict _) => True
      | _ => False
      end
  | Holds _ => False
  end.

(** The globals agree: the module says ready exactly when it holds an
    instance. *)
Definition globals_agree (g : Globals) : Prop :=
  _is_ready g = true <-> _vectorstore g <> None.

End StoreVocabulary.

Section IngestVocabulary.
Import Ingest.

(** The name under which a document's chunks are numbered. *)
Definition source_name (doc : Document) : string := default "unknown" (metadata doc !! "source").

(** The character ['_']. *)
Definition underscore : Ascii.ascii := Eval cbv in Ascii.ascii_of_nat 95.

(** Whether the character [c] occurs in [s]. *)
Fixpoint has_char (c : Ascii.ascii) (s : string) : bool :=
  match s with
  | EmptyString => false
  | String c' rest => bool_decide (c' = c) || has_char c rest
  end.

(** The files that [load_documents] visits, in order. *)
Definition knowledge_files (fs : Files) : list KnowledgeFile :=
  (glob fs "*.md" ++ glob fs "*.txt")%list.

(** The loader yields at most one document for a file, as [TextLoader]
    does. *)
Definition one_document_per_file (fs : Files) : Prop :=
  forall path docs, TextLoader_load fs path = Returns docs -> (length docs <= 1)%nat.

End IngestVocabulary.

Section SourceVocabulary.


End SourceVocabulary.

Section FileNameVocabulary.
Import Utils.

(** No two underscores stand next to each other. *)
Fixpoint no_run (s : text) : Prop :=
  match s with
  | [] => True
  | c :: rest =>
      match rest with
      | c' :: _ => ~ (c = UNDERSCORE /\ c' = UNDERSCORE) /\ no_run rest
      | [] => True
      end
  end.

(** A clean name: not empty, made of kept characters only, with no run of
    underscores and no underscore at either end. *)
Definition clean_name (is_word : N -> bool) (s : text) : Prop :=
  s <> []
  /\ Forall (fun c => kept_char is_word c = true) s
  /\ no_run s
  /\ head s <> Some UNDERSCORE
  /\ last s <> Some UNDERSCORE.

End FileNameVocabulary.

Section DocumentVocabulary.



End DocumentVocabulary.

Section MemoryVocabulary.
Import Memory.

(** Every stored profile lies in the file of its own user id. *)
Definition filed_by_user (files : gmap string ProfileFile) : Prop :=
  forall user_id p, files !! user_id = Some (Stored p) -> profile_user_id p = user_id.

End MemoryVocabulary.

Section FenceVocabulary.

(** The backquote. *)
Definition backquote : Ascii.ascii := Eval cbv in Ascii.ascii_of_nat 96.

(** No backquote occurs in [s]. *)
Definition fence_free (s : string) : Prop := has_char backquote s = false.

End FenceVocabulary.

(** * Properties *)

(** ** The retriever *)

Section VectorstoreProperties.
Import Vectorstore.

Lemma get_vectorstore_unbuilt env g :
  _vectorstore g = None -> chroma_sqlite3_exists env = false ->
  get_vectorstore env g = (not_loaded, None).
Proof.
  intros Hnone Hfile. unfold get_vectorstore. rewrite Hnone, Hfile.
  destruct (get_embeddings env) as [embeddings|msg]; reflexivity.
Qed.

Lemma get_vectorstore_cached env g vs :
  _vectorstore g = Some vs -> get_vectorstore env g = (g, Some vs).
Proof. intros Hsome. unfold get_vectorstore. rewrite Hsome. reflexivity. Qed.



(** C6. When the vector index is not yet built (no instance is loaded and
    no persisted index exists), [search_similar] and [search_mmr] both
    return the empty list for every query and every parameter: neither
    raises, whether or not the embedding client can be built. *)
Theorem search_unbuilt_index_returns_empty env g query k fetch_k lambda_mult :
  _vectorstore g = None -> chroma_sqlite3_exists env = false ->
  (search_similar env g query k).2 = Returns []
  /\ (search_mmr env g query k fetch_k lambda_mult).2 = Returns [].
Proof.
  intros Hnone Hfile. unfold search_similar, search_mmr.
  rewrite (get_vectorstore_unbuilt env g Hnone Hfile). split; reflexivity.
Qed.

Lemma search_unbuilt_index_returns_empty_witness :
  (search_similar Scenario.env_unbuilt not_loaded "what is alpha?" 5).2 = Returns []
  /\ (search_mmr Scenario.env_unbuilt not_loaded "what is alpha?" 5 20 (1 # 2)).2 = Returns [].
Proof.
  apply (search_unbuilt_index_returns_empty Scenario.env_unbuilt not_loaded);
    reflexivity.
Defined.

Lemma rescore_fails vs doc : rederivation_fails vs doc -> rescore vs doc = default_score.
Proof.
  unfold rederivation_fails, rescore. intros [[msg Hraise]|Hempty].
  - rewrite Hraise. reflexivity.
  - rewrite Hempty. reflexivity.
Qed.

(** C9. In MMR mode, once the index has selected documents, the call
    returns one pair per selected document, in order, and every document
    whose secondary similarity lookup raises or returns no result is paired
    with the neutral score 0.5; the failed lookup does not fail the call. *)
Theorem search_mmr_neutral_default env g vs query k fetch_k lambda_mult docs embeddings vec :
  (get_vectorstore env g).2 = Some vs ->
  max_marginal_relevance_search vs query k fetch_k lambda_mult = Returns docs ->
  get_embeddings env = Returns embeddings ->
  embed_query embeddings query = Returns vec ->
  exists results,
    (search_mmr env g query k fetch_k lambda_mult).2 = Returns results
    /\ map fst results = docs
    /\ forall i doc, docs !! i = Some doc -> rederivation_fails vs doc ->
         results !! i = Some (doc, default_score).
Proof.
  intros Hvs Hdocs Hemb Hvec.
  exists (map (fun doc => (doc, rescore vs doc)) docs).
  split; [|split].
  - unfold search_mmr. destruct (get_vectorstore env g) as [g' vs']. simpl in Hvs.
    subst vs'. simpl. rewrite Hdocs. simpl. destruct docs as [|d docs']; [reflexivity|].
    rewrite Hemb. simpl. rewrite Hvec. reflexivity.
  - rewrite map_map. simpl. apply map_id.
  - intros i doc Hi Hfail. rewrite list_lookup_fmap, Hi. simpl.
    rewrite (rescore_fails vs doc Hfail). reflexivity.
Qed.

End VectorstoreProperties.

(** ** The confidence evaluator *)

Section ConfidenceProperties.
Import Rag.

Lemma Qlt_bool_iff a b : Qlt_bool a b = true <-> (a < b)%Q.
Proof.
  unfold Qlt_bool. rewrite negb_true_iff. split.
  - intros H. apply Qnot_le_lt. intros Hle. apply Qle_bool_iff in Hle. congruence.
  - intros H. destruct (Qle_bool b a) eqn:E; [|reflexivity].
    apply Qle_bool_iff in E. exfalso. exact (Qlt_not_le _ _ H E).
Qed.

Lemma Qlt_bool_decide a b : Qlt_bool a b = bool_decide (a < b)%Q.
Proof.
  destruct (Qlt_bool a b) eqn:E; symmetry.
  - apply bool_decide_eq_true, Qlt_bool_iff, E.
  - apply bool_decide_eq_false. intros H. apply Qlt_bool_iff in H. congruence.
Qed.

Lemma Qge_bool_decide a b : Qge_bool a b = bool_decide (b <= a)%Q.
Proof.
  unfold Qge_bool. destruct (Qle_bool b a) eqn:E; symmetry.
  - apply bool_decide_eq_true, Qle_bool_iff, E.
  - apply bool_decide_eq_false. intros H. apply Qle_bool_iff in H. congruence.
Qed.

(** The running maximum is one of the scores and bounds them all. *)
Lemma py_max_spec rest : forall first,
  In (py_max first rest) (first :: rest)
  /\ forall s, In s (first :: rest) -> (s <= py_max first rest)%Q.
Proof.
  induction rest as [|x rest IH]; intros first; simpl.
  - split; [left; reflexivity|]. intros s [Heq|[]]. subst s. apply Qle_refl.
  - destruct (Qlt_bool first x) eqn:E.
    + destruct (IH x) as [Hin Hub]. split.
      * right. exact Hin.
      * intros s [Heq|Hs].
        -- subst s. apply Qle_trans with x; [apply Qlt_le_weak, Qlt_bool_iff, E|].
           apply Hub. left. reflexivity.
        -- apply Hub. exact Hs.
    + destruct (IH first) as [Hin Hub]. split.
      * destruct Hin as [Hfirst|Hrest]; [left; exact Hfirst|right; right; exact Hrest].
      * intros s [Heq|[Heq|Hs]].
        -- subst s. apply Hub. left. reflexivity.
        -- subst s. apply Qle_trans with first; [|apply Hub; left; reflexivity].
           destruct (Qlt_le_dec first x) as [Hlt|Hle]; [|exact Hle].
           apply Qlt_bool_iff in Hlt. congruence.
        -- apply Hub. right. exact Hs.
Qed.

Lemma py_max_is_max d0 s0 rest : is_max_score (py_max s0 (map snd rest)) ((d0, s0) :: rest).
Proof.
  destruct (py_max_spec (map snd rest) s0) as [Hin Hub]. split.
  - destruct Hin as [Heq|Hrest].
    + exists d0. left. rewrite <- Heq. reflexivity.
    + apply in_map_iff in Hrest as [[d s] [Hs Hmem]]. simpl in Hs. subst s.
      exists d. right. exact Hmem.
  - intros d s [Heq|Hmem].
    + inversion Heq; subst. apply Hub. left. reflexivity.
    + apply Hub. right. apply in_map_iff. exists (d, s). split; [reflexivity|exact Hmem].
Qed.

(** Two maxima of the same evidence are the same number. *)
Lemma is_max_score_unique m m' docs :
  is_max_score m docs -> is_max_score m' docs -> (m == m')%Q.
Proof.
  intros [[d Hd] Hub] [[d' Hd'] Hub']. apply Qle_antisym; eauto.
Qed.

Lemma count_valid_acc min_score docs : forall n,
  fold_left (fun n '(_, score) => if Qge_bool score min_score then n + 1 else n) docs n
  = n + valid_count min_score docs.
Proof.
  unfold valid_count.
  induction docs as [|[d s] docs IH]; intros n; simpl; [lia|].
  rewrite IH. unfold Qge_bool. destruct (Qle_bool min_score s); simpl length; lia.
Qed.

Lemma count_valid_spec min_score docs : count_valid min_score docs = valid_count min_score docs.
Proof. unfold count_valid. rewrite count_valid_acc. lia. Qed.

Lemma evaluate_proper m m' n policy : (m == m')%Q -> evaluate m n policy = evaluate m' n policy.
Proof.
  intros Heq. unfold evaluate.
  assert (bool_decide ((m < min_score policy)%Q \/ n < min_sources policy)
          = bool_decide ((m' < min_score policy)%Q \/ n < min_sources policy)) as ->
    by (apply bool_decide_ext; rewrite Heq; reflexivity).
  assert (bool_decide ((float_0_7 <= m)%Q /\ 3 <= n)
          = bool_decide ((float_0_7 <= m')%Q /\ 3 <= n)) as ->
    by (apply bool_decide_ext; rewrite Heq; reflexivity).
  reflexivity.
Qed.

Lemma calculate_confidence_nonempty d0 s0 rest config :
  calculate_confidence ((d0, s0) :: rest) config
  = evaluate (py_max s0 (map snd rest)) (valid_count (min_score config) ((d0, s0) :: rest)) config.
Proof.
  unfold calculate_confidence, evaluate. rewrite count_valid_spec.
  set (m := py_max s0 (map snd rest)).
  set (n := valid_count (min_score config) ((d0, s0) :: rest)).
  rewrite Qlt_bool_decide, !Qge_bool_decide.
  repeat case_bool_decide; simpl; try reflexivity; exfalso; intuition lia.
Qed.

(** C3. [calculate_confidence] on empty evidence is (LOW, needs_fallback =
    true).  On any other evidence it is the evaluation of the
    specification at the maximum score and at the number of items scoring
    at least [min_score]: needs_fallback = (max_score < min_score) or
    (valid_count < min_sources); LOW when needs_fallback, else HIGH exactly
    when max_score >= 0.7 and valid_count >= 3, else MEDIUM.  In particular
    evidence with maximum score 0.8 and 3 items at or above min_score = 0.25
    is (HIGH, false) under any policy asking for at most 3 sources, the
    default policy included. *)
Theorem calculate_confidence_evaluates docs policy :
  (docs = [] -> calculate_confidence docs policy = (LOW, true))
  /\ (docs <> [] ->
      exists max_score,
        is_max_score max_score docs
        /\ calculate_confidence docs policy
           = evaluate max_score (valid_count (min_score policy) docs) policy)
  /\ (forall max_score,
        is_max_score max_score docs -> (max_score == float_0_8)%Q ->
        (min_score policy == 1 # 4)%Q -> valid_count (min_score policy) docs = 3 ->
        min_sources policy <= 3 ->
        calculate_confidence docs policy = (HIGH, false))
  /\ calculate_confidence
       [(Scenario.doc_a, float_0_8); (Scenario.doc_b, (1 # 2)%Q); (Scenario.doc_c, (3 # 10)%Q)]
       default_rag_config = (HIGH, false).
Proof.
  split; [|split; [|split]].
  - intros ->. reflexivity.
  - destruct docs as [|[d0 s0] rest]; [congruence|]. intros _.
    exists (py_max s0 (map snd rest)). split; [apply py_max_is_max|].
    apply calculate_confidence_nonempty.
  - intros m Hmax H8 Hmin Hcount Hsrc.
    destruct docs as [|[d0 s0] rest]; [destruct Hmax as [[d []] _]|].
    rewrite calculate_confidence_nonempty.
    rewrite (evaluate_proper _ m) by (eapply is_max_score_unique; [apply py_max_is_max|exact Hmax]).
    rewrite Hcount. unfold evaluate.
    rewrite bool_decide_eq_false_2.
    + rewrite bool_decide_eq_true_2; [reflexivity|].
      split; [|lia]. rewrite H8. unfold float_0_7, float_0_8, Qle. simpl. lia.
    + intros [Hlt|Hlt]; [|lia]. rewrite H8, Hmin in Hlt.
      unfold float_0_8, Qlt in Hlt. simpl in Hlt. lia.
  - vm_compute. reflexivity.
Qed.

End ConfidenceProperties.

(** ** The single-pass query *)

Section RagProperties.
Import Rag.

(** C10, as the code has it.  With the index ready, [rag_query] and
    [rag_query_stream] give the templated fallback answer exactly when
    needs_fallback is true and the mode is strict.  Otherwise, when
    retrieval returned at least one document, the answer is what the
    generation backend returns for the mode's template and the formatted
    retrieved documents (a failing generation fails [rag_query], and ends
    the stream with an error event), whatever needs_fallback and the
    confidence are; and when retrieval returned nothing the fixed
    no-documents message is the answer and generation is not called. *)
Theorem rag_query_generation_gate env sv g question user_id thread_id top_k save_to_file
    file_name save_as_document retrieval_mode answer_mode docs level need_fallback :
  (Vectorstore.is_vectorstore_ready env g).2 = true ->
  (retrieve env sv (Vectorstore.is_vectorstore_ready env g).1 question top_k retrieval_mode).2
    = Returns docs ->
  calculate_confidence docs (get_rag_config sv) = (level, need_fallback) ->
  let result :=
    (rag_query env sv g question user_id top_k save_to_file file_name retrieval_mode
       answer_mode).2 in
  let events :=
    (rag_query_stream env sv g question user_id thread_id top_k retrieval_mode answer_mode
       save_as_document).2 in
  let finish full_answer :=
    stream_end sv question user_id thread_id full_answer (extract_sources sv docs) level
      save_as_document in
  let template := get_prompt_template answer_mode in
  let context := format_documents sv docs in
  let preferences := get_profile_prompt sv user_id in
  let fallback := generate_fallback_response sv question docs in
  (fallback_applies need_fallback answer_mode ->
     produces_answer save_to_file result (Returns fallback)
     /\ events = Returns (char_tokens fallback ++ [finish fallback])%list)
  /\ (~ fallback_applies need_fallback answer_mode -> docs <> [] ->
     produces_answer save_to_file result (chain_invoke sv template context question preferences)
     /\ events = Returns (generation_events finish
                            (stream_chat_completion sv template preferences context question)))
  /\ (~ fallback_applies need_fallback answer_mode -> docs = [] ->
     produces_answer save_to_file result (Returns NO_DOCS_ANSWER)
     /\ events = Returns (char_tokens NO_DOCS_ANSWER ++ [finish NO_DOCS_ANSWER])%list).
Proof.
  intros Hready Hdocs Hconf. cbv zeta.
  unfold rag_query, rag_query_stream, fallback_applies.
  destruct (Vectorstore.is_vectorstore_ready env g) as [g1 ready]. simpl in Hready, Hdocs.
  subst ready. simpl negb. cbv iota.
  destruct (retrieve env sv g1 question top_k retrieval_mode) as [g2 found].
  simpl in Hdocs. subst found. simpl. rewrite Hconf.
  split; [|split].
  - intros [-> ->]. simpl. split; [|reflexivity].
    destruct save_to_file; simpl; [|reflexivity].
    destruct (save_answer_to_file sv _ _ file_name); simpl; reflexivity.
  - intros Hgate Hne. destruct docs as [|d docs']; [congruence|].
    assert (need_fallback && bool_decide (answer_mode = STRICT) = false) as ->.
    { destruct need_fallback; [|reflexivity]. simpl. apply bool_decide_eq_false.
      intros Hs. apply Hgate. split; [reflexivity|exact Hs]. }
    split.
    + unfold produces_answer.
      destruct (chain_invoke sv _ _ question _) as [a|e]; simpl; [|reflexivity].
      destruct save_to_file; simpl; [|reflexivity].
      destruct (save_answer_to_file sv a _ file_name); simpl; reflexivity.
    + unfold generation_events.
      destruct (stream_chat_completion sv _ _ _ question) as [tokens [e|]]; reflexivity.
  - intros Hgate ->.
    assert (need_fallback && bool_decide (answer_mode = STRICT) = false) as ->.
    { destruct need_fallback; [|reflexivity]. simpl. apply bool_decide_eq_false.
      intros Hs. apply Hgate. split; [reflexivity|exact Hs]. }
    split; [|reflexivity]. simpl.
    destruct save_to_file; simpl; [|reflexivity].
    destruct (save_answer_to_file sv _ _ file_name); simpl; reflexivity.
Qed.

End RagProperties.

(** ** The claims at work on concrete worlds: retriever and single pass *)

Section RetrieverExamples.
Import Vectorstore Rag Scenario.

Lemma search_mmr_neutral_default_witness :
  exists results,
    (search_mmr env_built globals_built "greek letters" 3 20 (1 # 2)).2 = Returns results
    /\ map fst results = [doc_a; doc_b; doc_c]
    /\ results !! 1%nat = Some (doc_b, default_score)
    /\ results !! 2%nat = Some (doc_c, default_score).
Proof.
  destruct (search_mmr_neutral_default env_built globals_built chroma_partial
              "greek letters" 3 20 (1 # 2) [doc_a; doc_b; doc_c] embeddings_ok []
              eq_refl eq_refl eq_refl eq_refl) as (results & Hcall & Hdocs & Hscore).
  exists results. split; [exact Hcall|]. split; [exact Hdocs|]. split.
  - apply Hscore; [reflexivity|]. right. reflexivity.
  - apply Hscore; [reflexivity|]. left. exists "ConnectionError". reflexivity.
Defined.

(** Balanced mode over weak evidence (needs_fallback, LOW): the answer is
    the generated one. *)
Lemma rag_query_generation_gate_witness :
  calculate_confidence [(doc_a, (1 # 10)%Q)] default_rag_config = (LOW, true)
  /\ produces_answer false
       (rag_query env_built services_up globals_weak "what is alpha?" "u1" 5 false None
          SIMILARITY BALANCED).2
       (Returns "generated")
  /\ (rag_query_stream env_built services_up globals_weak "what is alpha?" "u1" "t1" 5
        SIMILARITY BALANCED false).2
     = Returns (generation_events
                  (fun full_answer =>
                     stream_end services_up "what is alpha?" "u1" "t1" full_answer
                       (extract_sources services_up [(doc_a, (1 # 10)%Q)]) LOW false)
                  (["gene"; "rated"], None)).
Proof.
  split; [vm_compute; reflexivity|].
  destruct (rag_query_generation_gate env_built services_up globals_weak "what is alpha?"
              "u1" "t1" 5 false None false SIMILARITY BALANCED [(doc_a, (1 # 10)%Q)] LOW true
              eq_refl eq_refl eq_refl) as (_ & Hgenerated & _).
  apply Hgenerated.
  - intros [_ Hstrict]. discriminate Hstrict.
  - discriminate.
Defined.

(** C10 as stated fails.  Balanced mode, index ready, nothing retrieved:
    needs_fallback is true and the confidence LOW, the generation backend
    raises on every call, and yet both variants answer with the fixed
    no-documents message: generation was not attempted. *)
Lemma rag_query_balanced_empty_skips_generation :
  calculate_confidence [] default_rag_config = (LOW, true)
  /\ (forall template context question preferences,
        chain_invoke services_down template context question preferences
        = Raises "generation backend called")
  /\ answer <$> (rag_query env_built services_down globals_empty "what is alpha?" "u1" 5
                   false None SIMILARITY BALANCED).2
     = Returns NO_DOCS_ANSWER
  /\ (rag_query_stream env_built services_down globals_empty "what is alpha?" "u1" "t1" 5
        SIMILARITY BALANCED false).2
     = Returns (char_tokens NO_DOCS_ANSWER
                  ++ [stream_end services_down "what is alpha?" "u1" "t1" NO_DOCS_ANSWER []
                        LOW false])%list.
Proof.
  split; [reflexivity|]. split; [reflexivity|]. split; vm_compute; reflexivity.
Qed.

End RetrieverExamples.

(** ** The loop controller *)

Section AgenticProperties.
Import Agentic.

Variable be : Backend.

(** *** Outcomes *)

Lemma bind_returns {A B} (m : outcome A) (k : A -> outcome B) (b : B) :
  m ≫= k = Returns b -> exists a, m = Returns a /\ k a = Returns b.
Proof. destruct m as [a|e]; simpl; [eauto|discriminate]. Qed.

Lemma try_except_returns {A} (body : outcome A) (handler : string -> outcome A) (a : A) :
  try_except body handler = Returns a ->
  body = Returns a \/ exists e, body = Raises e /\ handler e = Returns a.
Proof. destruct body as [a'|e]; simpl; [left; assumption|right; eauto]. Qed.

(** Inversion of a chain of calls that returned. *)
Ltac returns_inv H :=
  repeat match type of H with
         | (_ ≫= _) = Returns _ =>
             let a := fresh "a" in
             let Ha := fresh "Ha" in
             apply bind_returns in H as (a & Ha & H)
         | mret _ = Returns _ => injection H as H
         | Returns _ = Returns _ => injection H as H
         | Raises _ = Returns _ => discriminate H
         end.

(** *** What each node writes *)

Lemma retrieve_node_sources st u :
  retrieve_node be st = Returns u ->
  u_all_sources u = Some (retrieved_sources be st) /\ u_loop_count u = None.
Proof.
  unfold retrieve_node. intros H. returns_inv H. subst u. split; reflexivity.
Qed.

Lemma draft_node_shape st u :
  draft_node be st = Returns u ->
  exists draft_answer claims trace_entry, u = draft_update draft_answer claims trace_entry.
Proof.
  unfold draft_node. intros H. destruct (retrieved_chunks st) as [|c chunks].
  - returns_inv H. subst u. eauto.
  - returns_inv H. apply try_except_returns in H as [H|(e & _ & H)].
    + returns_inv H. destruct a1 as [draft_answer claims]. returns_inv H. subst u. eauto.
    + returns_inv H. subst u. eauto.
Qed.

Lemma draft_node_keeps st u :
  draft_node be st = Returns u -> u_all_sources u = None /\ u_loop_count u = None.
Proof.
  intros H. apply draft_node_shape in H as (a & c & t & ->). split; reflexivity.
Qed.

(** [critique] returns a dict of one shape on every path, and at or past
    round [max_loops - 1] the decision in it is ['final']. *)
Lemma critique_node_shape st u :
  critique_node be st = Returns u ->
  exists result d refined_query gaps confidence trace_entry,
    u = critique_update result d refined_query gaps confidence trace_entry
    /\ (loop_count st >= max_loops st - 1 -> d = PyStr "final").
Proof.
  unfold critique_node. intros H. destruct (negb (py_truthy (claims st))).
  - returns_inv H. subst u. do 6 eexists. split; [reflexivity|]. intros _. reflexivity.
  - returns_inv H. apply try_except_returns in H as [H|(e & _ & H)].
    + returns_inv H. subst u. do 6 eexists. split; [reflexivity|].
      intros Hround. rewrite bool_decide_eq_true_2 by exact Hround. reflexivity.
    + returns_inv H. subst u. do 6 eexists. split; [reflexivity|]. intros _. reflexivity.
Qed.

Lemma critique_node_keeps st u :
  critique_node be st = Returns u -> u_all_sources u = None /\ u_loop_count u = None.
Proof.
  intros H. apply critique_node_shape in H as (r & d & q & g & c & t & -> & _).
  split; reflexivity.
Qed.

Lemma critique_node_decision st u :
  critique_node be st = Returns u ->
  exists d, u_decision u = Some d
            /\ (loop_count st >= max_loops st - 1 -> d = PyStr "final").
Proof.
  intros H. apply critique_node_shape in H as (r & d & q & g & c & t & -> & Hd).
  exists d. split; [reflexivity|exact Hd].
Qed.

Lemma refine_query_node_counts st u :
  refine_query_node be st = Returns u ->
  u_all_sources u = None /\ u_loop_count u = Some (loop_count st + 1).
Proof.
  unfold refine_query_node. intros H. returns_inv H. subst u. split; reflexivity.
Qed.

Lemma finalize_node_shape st u :
  finalize_node be st = Returns u ->
  u_all_sources u = None /\ u_loop_count u = None
  /\ exists c, u_confidence u = Some (PyStr (ConfidenceLevel_value c))
              /\ u_reasoning_trace u
                 = Some [[("step", PyStr "finalize");
                          ("confidence", PyStr (ConfidenceLevel_value c))]].
Proof.
  unfold finalize_node. intros H. returns_inv H. subst u.
  split; [reflexivity|]. split; [reflexivity|]. eexists. split; reflexivity.
Qed.

Lemma finalize_node_keeps st u :
  finalize_node be st = Returns u -> u_all_sources u = None /\ u_loop_count u = None.
Proof. intros H. apply finalize_node_shape in H as (H1 & H2 & _). split; assumption. Qed.

Lemma run_node_all_sources n st u :
  run_node be n st = Returns u ->
  all_sources (apply_update st u) = (all_sources st ++ added_sources be n st)%list.
Proof.
  intros H. destruct n; simpl in H; simpl.
  - apply retrieve_node_sources in H as [-> _]. reflexivity.
  - apply draft_node_keeps in H as [-> _]. rewrite app_nil_r. reflexivity.
  - apply critique_node_keeps in H as [-> _]. rewrite app_nil_r. reflexivity.
  - apply refine_query_node_counts in H as [-> _]. rewrite app_nil_r. reflexivity.
  - apply finalize_node_keeps in H as [-> _]. rewrite app_nil_r. reflexivity.
Qed.

Lemma run_node_loop_count n st u :
  run_node be n st = Returns u ->
  loop_count (apply_update st u)
  = match n with refine => loop_count st + 1 | _ => loop_count st end.
Proof.
  intros H. destruct n; simpl in H; simpl.
  - apply retrieve_node_sources in H as [_ ->]. reflexivity.
  - apply draft_node_keeps in H as [_ ->]. reflexivity.
  - apply critique_node_keeps in H as [_ ->]. reflexivity.
  - apply refine_query_node_counts in H as [_ ->]. reflexivity.
  - apply finalize_node_keeps in H as [_ ->]. reflexivity.
Qed.

(** *** Runs of the graph *)

(** A property of node and state that every transition of the graph
    preserves holds at every executed step; what holds after the last
    transition holds of the final state. *)
Lemma graph_exec_invariant (P : Node -> AgentState -> Prop) (R : AgentState -> Prop) :
  (forall n st u n', P n st -> run_node be n st = Returns u ->
     next_node n (apply_update st u) = Some n' -> P n' (apply_update st u)) ->
  (forall n st u, P n st -> run_node be n st = Returns u ->
     next_node n (apply_update st u) = None -> R (apply_update st u)) ->
  forall limit n st, P n st ->
    Forall (fun s => P (step_node s) (step_before s)) (graph_exec be limit n st).1
    /\ match (graph_exec be limit n st).2 with
       | Done final => R final
       | _ => True
       end.
Proof.
  intros Hstep Hlast. induction limit as [|limit IH]; intros n st HP; simpl.
  - split; [constructor|exact I].
  - destruct (run_node be n st) as [u|e] eqn:Hrun; simpl; [|split; [constructor|exact I]].
    destruct (next_node n (apply_update st u)) as [n'|] eqn:Hnext.
    + specialize (IH n' (apply_update st u) (Hstep n st u n' HP Hrun Hnext)).
      destruct (graph_exec be limit n' (apply_update st u)) as [steps result].
      simpl in *. destruct IH as [Hsteps Hres]. split; [|exact Hres].
      constructor; [exact HP|exact Hsteps].
    + simpl. split; [constructor; [exact HP|constructor]|].
      exact (Hlast n st u HP Hrun Hnext).
Qed.

(** What a run records is what the nodes did. *)
Lemma graph_exec_steps limit : forall n st,
  chained st (graph_exec be limit n st).1
  /\ Forall (fun s => exists u, run_node be (step_node s) (step_before s) = Returns u
                       /\ step_after s = apply_update (step_before s) u)
       (graph_exec be limit n st).1.
Proof.
  induction limit as [|limit IH]; intros n st; simpl; [split; [exact I|constructor]|].
  destruct (run_node be n st) as [u|e] eqn:Hrun; simpl; [|split; [exact I|constructor]].
  destruct (next_node n (apply_update st u)) as [n'|] eqn:Hnext.
  - specialize (IH n' (apply_update st u)).
    destruct (graph_exec be limit n' (apply_update st u)) as [steps result].
    simpl in *. destruct IH as [Hchain Hsteps]. split; [split; [reflexivity|exact Hchain]|].
    constructor; [|exact Hsteps]. exists u. simpl. split; [exact Hrun|reflexivity].
  - simpl. split; [split; [reflexivity|exact I]|].
    constructor; [|constructor]. exists u. simpl. split; [exact Hrun|reflexivity].
Qed.

(** A run that ends well ends with the state its last step left. *)
Lemma graph_exec_done limit : forall n st final,
  (graph_exec be limit n st).2 = Done final ->
  exists s, last (graph_exec be limit n st).1 = Some s
            /\ step_node s = finalize /\ step_after s = final.
Proof.
  induction limit as [|limit IH]; intros n st final; simpl; [discriminate|].
  destruct (run_node be n st) as [u|e] eqn:Hrun; simpl; [|discriminate].
  destruct (next_node n (apply_update st u)) as [n'|] eqn:Hnext.
  - specialize (IH n' (apply_update st u) final).
    destruct (graph_exec be limit n' (apply_update st u)) as [steps result].
    simpl in *. intros Hres. destruct (IH Hres) as (s & Hlast & Hnode & Hafter).
    exists s. split; [|split; assumption].
    destruct steps as [|s' steps']; [discriminate Hlast|]. exact Hlast.
  - simpl. intros Hres. injection Hres as <-. eexists. split; [reflexivity|]. simpl.
    split; [|reflexivity]. destruct n; simpl in Hnext; try discriminate; [|reflexivity].
    destruct (bool_decide _) in Hnext; discriminate.
Qed.

(** *** The forced final decision *)

Lemma should_continue_final st :
  decision st = PyStr "final" -> should_continue st = "finalize".
Proof. unfold should_continue. intros ->. reflexivity. Qed.

Lemma critique_last_round st u :
  loop_count st >= max_loops st - 1 -> critique_node be st = Returns u ->
  u_decision u = Some (PyStr "final")
  /\ should_continue (apply_update st u) = "finalize"
  /\ next_node critique (apply_update st u) = Some finalize.
Proof.
  intros Hround Hu. destruct (critique_node_decision st u Hu) as (d & Hd & Hfinal).
  rewrite (Hfinal Hround) in Hd.
  assert (should_continue (apply_update st u) = "finalize") as Hroute.
  { apply should_continue_final. simpl. rewrite Hd. reflexivity. }
  split; [exact Hd|]. split; [exact Hroute|]. simpl. rewrite Hroute. reflexivity.
Qed.

(** The only edge into [refine] leaves [critique], and only before round
    [max_loops - 1]. *)
Lemma edge_to_refine n st u :
  run_node be n st = Returns u -> next_node n (apply_update st u) = Some refine ->
  n = critique /\ loop_count st < max_loops st - 1.
Proof.
  intros Hrun Hnext. destruct n; simpl in Hnext; try discriminate.
  split; [reflexivity|]. simpl in Hrun.
  destruct (Z_lt_ge_dec (loop_count st) (max_loops st - 1)) as [Hlt|Hge]; [exact Hlt|].
  destruct (critique_last_round st u Hge Hrun) as (_ & Hroute & _).
  rewrite Hroute in Hnext. simpl in Hnext. discriminate.
Qed.

(** C1. Whatever the backend answers, when [critique] runs at a round
    that has reached [max_loops - 1] the decision it writes is 'final'
    (a 'need_more' from the backend is overridden), [should_continue] then
    routes to finalize, and so in every run of the graph no [refine] step,
    and hence no retrieval pass after it, happens at or beyond round
    [max_loops - 1]. *)
Theorem override_forces_final :
  (forall st u, loop_count st >= max_loops st - 1 -> critique_node be st = Returns u ->
     u_decision u = Some (PyStr "final")
     /\ should_continue (apply_update st u) = "finalize"
     /\ next_node critique (apply_update st u) = Some finalize)
  /\ (forall limit st, Forall refine_guarded (graph_exec be limit retrieve st).1).
Proof.
  split; [exact critique_last_round|]. intros limit st.
  apply (graph_exec_invariant
           (fun n st => match n with
                        | refine => loop_count st < max_loops st - 1
                        | _ => True
                        end)
           (fun _ => True)); [| |exact I].
  - intros n st' u n' _ Hrun Hnext. destruct n'; try exact I.
    destruct (edge_to_refine n st' u Hrun Hnext) as [-> Hlt].
    rewrite (run_node_loop_count critique st' u Hrun). exact Hlt.
  - intros; exact I.
Qed.

(** *** The round counter *)

Lemma counter_bounded_run M limit st :
  max_loops st = M -> loop_count st = 0 ->
  Forall (fun s => counter_bounded M (step_node s) (step_before s))
    (graph_exec be limit retrieve st).1
  /\ match (graph_exec be limit retrieve st).2 with
     | Done final => final_bounded M final
     | _ => True
     end.
Proof.
  intros HM H0. apply graph_exec_invariant.
  - intros n st' u n' (HM' & Hb & Hn) Hrun Hnext. unfold counter_bounded.
    rewrite (run_node_loop_count n st' u Hrun). simpl max_loops.
    split; [exact HM'|]. destruct n'.
    + destruct n; simpl in Hnext; try discriminate; [|split; [lia|exact I]].
      destruct (bool_decide _) in Hnext; discriminate.
    + destruct n; simpl in Hnext; try discriminate; [split; [lia|exact I]|].
      destruct (bool_decide _) in Hnext; discriminate.
    + destruct n; simpl in Hnext; try discriminate; [split; [lia|exact I]|].
      destruct (bool_decide _) in Hnext; discriminate.
    + destruct (edge_to_refine n st' u Hrun Hnext) as [-> Hlt]. split; lia.
    + destruct n; simpl in Hnext; try discriminate. split; [lia|exact I].
  - intros n st' u (HM' & Hb & Hn) Hrun Hnext. unfold final_bounded.
    destruct n; simpl in Hnext; try discriminate;
      [destruct (bool_decide _) in Hnext; discriminate|].
    rewrite (run_node_loop_count finalize st' u Hrun). simpl max_loops.
    split; [exact HM'|]. split; [lia|].
    simpl in Hrun. apply finalize_node_shape in Hrun as (_ & _ & c & _ & Htrace).
    exists (ConfidenceLevel_value c). simpl. rewrite Htrace. reflexivity.
  - unfold counter_bounded. split; [exact HM|]. split; [lia|exact I].
Qed.

Lemma safe_trace_final c :
  safe_trace [[("step", PyStr "finalize"); ("confidence", PyStr c)]]
  = Returns [[("step", PyStr "finalize")]].
Proof. reflexivity. Qed.

(** The response of a request whose workflow ended well. *)
Lemma agentic_rag_query_done limit question user_id top_k retrieval_mode max_loops filters final :
  graph_invoke be limit
    (request_state be question user_id top_k retrieval_mode max_loops filters) = Done final ->
  agentic_rag_query be limit question user_id top_k retrieval_mode max_loops filters
  = {| resp_message_id := generate_message_id be;
       resp_answer := final_answer final;
       resp_sources := unique_sources (all_sources final);
       resp_confidence := confidence final;
       resp_reasoning_trace := [[("step", PyStr "finalize")]];
       loops_used := loop_count final + 1;
       resp_saved_file := None |}.
Proof.
  intros Hdone. unfold agentic_rag_query. rewrite Hdone.
  pose proof (counter_bounded_run
                (Agentic.max_loops
                   (request_state be question user_id top_k retrieval_mode max_loops filters))
                limit _ eq_refl eq_refl) as [_ Hfinal].
  unfold graph_invoke in Hdone. rewrite Hdone in Hfinal.
  destruct Hfinal as (_ & _ & c & ->). rewrite safe_trace_final. reflexivity.
Qed.

(** C2, as the code has it.  When the workflow of a request ends well,
    [loops_used] is the final round counter plus one and lies between 1
    and max(1, max_loops), hence within max_loops + 1 for every max_loops
    >= 0.  When the workflow raises (a node raises, or the graph's step
    limit is reached), the error response carries [loops_used = 0]. *)
Theorem loops_used_bounds limit question user_id top_k retrieval_mode max_loops filters :
  match graph_invoke be limit
          (request_state be question user_id top_k retrieval_mode max_loops filters) with
  | Done final =>
      loops_used (agentic_rag_query be limit question user_id top_k retrieval_mode
                    max_loops filters) = loop_count final + 1
      /\ 1 <= loop_count final + 1 <= Z.max 1 (default (env_max_loops be) max_loops)
  | Failed _ | OutOfSteps =>
      loops_used (agentic_rag_query be limit question user_id top_k retrieval_mode
                    max_loops filters) = 0
  end.
Proof.
  destruct (graph_invoke be limit _) as [final|e|] eqn:Hrun.
  - rewrite (agentic_rag_query_done _ _ _ _ _ _ _ final Hrun). split; [reflexivity|].
    pose proof (counter_bounded_run (default (env_max_loops be) max_loops) limit
                  (request_state be question user_id top_k retrieval_mode max_loops filters)
                  eq_refl eq_refl) as [_ Hfinal].
    unfold graph_invoke in Hrun. rewrite Hrun in Hfinal.
    destruct Hfinal as (_ & Hb & _). lia.
  - unfold agentic_rag_query. rewrite Hrun. reflexivity.
  - unfold agentic_rag_query. rewrite Hrun. reflexivity.
Qed.

(** *** A failing critique step *)

(** C4, as the code has it.  With claims to check and the client built:
    when the critique call raises, or its reply parses to something that is
    not a JSON object, [critique] returns (nothing propagates) with decision
    'final' and confidence 'low'; when the reply is not valid JSON it
    returns with decision 'final' and confidence 'medium'.  In all three
    cases the graph goes on to [finalize], never to [refine], and
    [finalize] keeps that confidence. *)
Theorem critique_failure_is_final st :
  py_truthy (claims st) = true ->
  get_llm be (loop_count st) critique = Returns tt ->
  let reply := llm_critique be (loop_count st) (original_query st) (draft_answer st)
                 (claims st) (sources_view st) in
  (forall e, reply = Raises e ->
     exists u, critique_node be st = Returns u /\ ends_round_with be "low" st u)
  /\ (forall content result,
        reply = Returns content -> json_loads be (strip_fence content) = Some result ->
        (forall items, result <> PyDict items) ->
        exists u, critique_node be st = Returns u /\ ends_round_with be "low" st u)
  /\ (forall content,
        reply = Returns content -> json_loads be (strip_fence content) = None ->
        exists u, critique_node be st = Returns u /\ ends_round_with be "medium" st u).
Proof.
  intros Hclaims Hllm reply. subst reply. unfold critique_node, ends_round_with.
  rewrite Hclaims, Hllm. simpl. split; [|split].
  - intros e ->. simpl. eexists. split; [reflexivity|].
    repeat split. eexists. repeat split.
  - intros content result -> Hloads Hshape. simpl. rewrite Hloads. simpl.
    destruct result; try (exfalso; eapply Hshape; reflexivity); simpl;
      (eexists; split; [reflexivity|]; repeat split; eexists; repeat split).
  - intros content -> Hloads. simpl. rewrite Hloads. simpl.
    destruct (bool_decide (loop_count st >= max_loops st - 1)); simpl;
      (eexists; split; [reflexivity|]; repeat split; eexists; repeat split).
Qed.

(** *** Empty retrieval *)

Lemma graph_exec_unfold limit n st :
  graph_exec be (S limit) n st
  = match run_node be n st with
    | Raises e => ([], Failed e)
    | Returns u =>
        let st' := apply_update st u in
        let here := {| step_node := n; step_before := st; step_after := st' |} in
        match next_node n st' with
        | None => ([here], Done st')
        | Some n' =>
            let '(steps, result) := graph_exec be limit n' st' in
            (here :: steps, result)
        end
    end.
Proof. reflexivity. Qed.

(** A request whose first retrieval finds nothing ends after one round on
    the fixed answer, whatever [max_loops] is. *)
Lemma empty_retrieval_run limit question user_id top_k retrieval_mode max_loops filters :
  (4 <= limit)%nat ->
  search_results be
    (request_state be question user_id top_k retrieval_mode max_loops filters) = [] ->
  exists final,
    graph_invoke be limit
      (request_state be question user_id top_k retrieval_mode max_loops filters) = Done final
    /\ final_answer final = PyStr NOT_FOUND_ANSWER
    /\ confidence final = PyStr "medium"
    /\ all_sources final = []
    /\ loop_count final = 0.
Proof.
  intros Hlimit Hempty.
  destruct limit as [|[|[|[|limit]]]]; try lia. clear Hlimit.
  unfold graph_invoke. rewrite graph_exec_unfold.
  assert (run_node be retrieve
            (request_state be question user_id top_k retrieval_mode max_loops filters)
          = Returns
              {| u_current_query := None; u_retrieved_chunks := Some [];
                 u_all_sources := Some []; u_draft_answer := None; u_claims := None;
                 u_critique_result := None; u_decision := None; u_refined_query := None;
                 u_gaps := None; u_loop_count := None; u_final_answer := None;
                 u_confidence := None;
                 u_reasoning_trace :=
                   Some [[("step", PyStr "retrieve"); ("query", PyStr question);
                          ("chunks_found", PyNum (inject_Z 0)); ("top_score", PyNum 0%Q)]] |})
    as ->.
  { simpl. unfold retrieve_node, retrieved_sources. rewrite Hempty. reflexivity. }
  eexists. split; [reflexivity|]. repeat split.
Qed.

(** C5, as the code has it.  When retrieval at round 0 returns no result
    and max_loops = 2, the run makes no generation call and returns
    loops_used = 1, the fixed 'not found' answer, no sources, and
    confidence 'medium': the draft has no claims, and [critique] passes a
    draft without claims as 'final' with medium confidence. *)
Theorem empty_retrieval_response limit question user_id top_k retrieval_mode filters :
  (4 <= limit)%nat ->
  search_results be
    (request_state be question user_id top_k retrieval_mode (Some 2) filters) = [] ->
  agentic_rag_query be limit question user_id top_k retrieval_mode (Some 2) filters
  = {| resp_message_id := generate_message_id be;
       resp_answer := PyStr NOT_FOUND_ANSWER;
       resp_sources := [];
       resp_confidence := PyStr "medium";
       resp_reasoning_trace := [[("step", PyStr "finalize")]];
       loops_used := 1;
       resp_saved_file := None |}.
Proof.
  intros Hlimit Hempty.
  destruct (empty_retrieval_run limit question user_id top_k retrieval_mode (Some 2) filters
              Hlimit Hempty) as (final & Hrun & Hanswer & Hconf & Hsources & Hcount).
  rewrite (agentic_rag_query_done _ _ _ _ _ _ _ final Hrun).
  rewrite Hanswer, Hconf, Hsources, Hcount. reflexivity.
Qed.

(** *** Deduplicated sources *)

Lemma dedup_fold l : forall seen out,
  (fold_left dedup_step l (seen, out)).2 = (out ++ kept seen l)%list.
Proof.
  induction l as [|s rest IH]; intros seen out; simpl.
  - rewrite app_nil_r. reflexivity.
  - unfold source_key. destruct (decide ((source s, chunk_id s) ∈ seen)).
    + apply IH.
    + rewrite IH, <- app_assoc. reflexivity.
Qed.

Lemma unique_sources_kept l : unique_sources l = kept ∅ l.
Proof. unfold unique_sources. rewrite dedup_fold. reflexivity. Qed.

Lemma kept_unseen l : forall seen s, s ∈ kept seen l -> source_key s ∉ seen.
Proof.
  induction l as [|s0 rest IH]; intros seen s; simpl.
  - intros H. inversion H.
  - destruct (decide (source_key s0 ∈ seen)) as [Hin|Hout].
    + apply IH.
    + intros H. apply elem_of_cons in H as [->|H]; [exact Hout|].
      apply IH in H. set_solver.
Qed.

Lemma kept_NoDup l : forall seen, NoDup (map source_key (kept seen l)).
Proof.
  induction l as [|s0 rest IH]; intros seen; simpl.
  - constructor.
  - destruct (decide (source_key s0 ∈ seen)); [apply IH|].
    simpl. apply NoDup_cons. split; [|apply IH].
    intros Hdup. apply list_elem_of_fmap in Hdup as (s & Hkey & Hs).
    apply kept_unseen in Hs. rewrite <- Hkey in Hs. set_solver.
Qed.

Lemma kept_sublist l : forall seen, sublist (kept seen l) l.
Proof.
  induction l as [|s0 rest IH]; intros seen; simpl.
  - constructor.
  - destruct (decide (source_key s0 ∈ seen)).
    + apply sublist_cons, IH.
    + apply sublist_skip, IH.
Qed.

Lemma kept_complete l : forall seen s,
  s ∈ l -> source_key s ∈ seen \/ source_key s ∈ map source_key (kept seen l).
Proof.
  induction l as [|s0 rest IH]; intros seen s Hs.
  - inversion Hs.
  - simpl. apply elem_of_cons in Hs as [->|Hs].
    + destruct (decide (source_key s0 ∈ seen)); [left; assumption|].
      right. simpl. apply elem_of_cons. left. reflexivity.
    + destruct (decide (source_key s0 ∈ seen)) as [Hin|Hout]; [apply IH, Hs|].
      destruct (IH ({[ source_key s0 ]} ∪ seen) s Hs) as [Hseen|Hkept].
      * apply elem_of_union in Hseen as [Heq|Hseen]; [|left; exact Hseen].
        apply elem_of_singleton in Heq. right. simpl. rewrite Heq.
        apply elem_of_cons. left. reflexivity.
      * right. simpl. apply elem_of_cons. right. exact Hkept.
Qed.

Lemma kept_first l : forall seen s, s ∈ kept seen l -> first_with_key l s.
Proof.
  induction l as [|s0 rest IH]; intros seen s; simpl.
  - intros H. inversion H.
  - destruct (decide (source_key s0 ∈ seen)) as [Hin|Hout].
    + intros Hs. pose proof (kept_unseen _ _ _ Hs) as Hnew.
      destruct (IH seen s Hs) as (i & Hi & Hbefore). exists (S i). split; [exact Hi|].
      intros [|j] s' Hlt Hj; simpl in Hj.
      * injection Hj as <-. intros Heq. rewrite Heq in Hin. contradiction.
      * apply (Hbefore j); [lia|exact Hj].
    + intros Hs. apply elem_of_cons in Hs as [->|Hs].
      * exists 0%nat. split; [reflexivity|]. intros j s' Hlt. lia.
      * pose proof (kept_unseen _ _ _ Hs) as Hnew.
        destruct (IH _ s Hs) as (i & Hi & Hbefore). exists (S i). split; [exact Hi|].
        intros [|j] s' Hlt Hj; simpl in Hj.
        -- injection Hj as <-. intros Heq. apply Hnew. rewrite Heq. set_solver.
        -- apply (Hbefore j); [lia|exact Hj].
Qed.

(** C7. The [sources] of every response hold no two entries with the same
    (source, chunk_id).  When the workflow ended well they are the
    accumulated sources deduplicated by that key: a sublist of them (their
    order is kept), with every key of the accumulated sources still
    present, each kept entry being the first one that carried its key.
    The error response has no sources. *)
Theorem sources_deduplicated limit question user_id top_k retrieval_mode max_loops filters :
  NoDup (map source_key
           (resp_sources (agentic_rag_query be limit question user_id top_k retrieval_mode
                            max_loops filters)))
  /\ match graph_invoke be limit
             (request_state be question user_id top_k retrieval_mode max_loops filters) with
     | Done final =>
         resp_sources (agentic_rag_query be limit question user_id top_k retrieval_mode
                         max_loops filters) = unique_sources (all_sources final)
         /\ sublist (unique_sources (all_sources final)) (all_sources final)
         /\ (forall s, s ∈ all_sources final ->
               source_key s ∈ map source_key (unique_sources (all_sources final)))
         /\ (forall s, s ∈ unique_sources (all_sources final) ->
               first_with_key (all_sources final) s)
     | Failed _ | OutOfSteps =>
         resp_sources (agentic_rag_query be limit question user_id top_k retrieval_mode
                         max_loops filters) = []
     end.
Proof.
  destruct (graph_invoke be limit _) as [final|e|] eqn:Hrun.
  - rewrite (agentic_rag_query_done _ _ _ _ _ _ _ final Hrun). simpl.
    rewrite unique_sources_kept. split; [apply kept_NoDup|].
    split; [reflexivity|]. split; [apply kept_sublist|]. split.
    + intros s Hs. destruct (kept_complete _ ∅ s Hs) as [Hseen|Hkept]; [|exact Hkept].
      set_solver.
    + intros s. apply kept_first.
  - unfold agentic_rag_query. rewrite Hrun. simpl. split; [constructor|reflexivity].
  - unfold agentic_rag_query. rewrite Hrun. simpl. split; [constructor|reflexivity].
Qed.

(** *** Accumulated evidence *)

Lemma graph_exec_appends limit n st :
  Forall (appends_only be) (graph_exec be limit n st).1.
Proof.
  destruct (graph_exec_steps limit n st) as [_ Hsteps].
  eapply Forall_impl; [exact Hsteps|]. intros s (u & Hrun & Hafter). unfold appends_only.
  rewrite Hafter. apply run_node_all_sources, Hrun.
Qed.

Lemma appends_only_prefix s :
  appends_only be s -> all_sources (step_before s) `prefix_of` all_sources (step_after s).
Proof. intros ->. apply prefix_app_r. reflexivity. Qed.

Lemma chained_prefix steps : forall st j s,
  chained st steps -> Forall (appends_only be) steps -> steps !! j = Some s ->
  all_sources st `prefix_of` all_sources (step_before s).
Proof.
  induction steps as [|s0 rest IH]; intros st j s Hchain Hgrow Hj; [discriminate|].
  destruct Hchain as [Hhead Hchain]. apply Forall_cons in Hgrow as [Hgrow0 Hgrow].
  destruct j as [|j]; simpl in Hj.
  - injection Hj as <-. rewrite Hhead. reflexivity.
  - rewrite <- Hhead. etransitivity; [apply appends_only_prefix, Hgrow0|].
    eapply IH; eassumption.
Qed.

Lemma chained_monotone steps : forall st i j s s',
  chained st steps -> Forall (appends_only be) steps -> (i <= j)%nat ->
  steps !! i = Some s -> steps !! j = Some s' ->
  all_sources (step_before s) `prefix_of` all_sources (step_before s')
  /\ all_sources (step_after s) `prefix_of` all_sources (step_after s').
Proof.
  induction steps as [|s0 rest IH]; intros st i j s s' Hchain Hgrow Hle Hi Hj; [discriminate|].
  assert (appends_only be s') as Hs'.
  { eapply Forall_lookup_1; eassumption. }
  destruct Hchain as [Hhead Hchain]. apply Forall_cons in Hgrow as [Hgrow0 Hgrow].
  destruct i as [|i]; simpl in Hi.
  - injection Hi as <-. destruct j as [|j]; simpl in Hj.
    + injection Hj as <-. split; reflexivity.
    + pose proof (chained_prefix rest _ j s' Hchain Hgrow Hj) as Hreach. split.
      * etransitivity; [apply appends_only_prefix, Hgrow0|exact Hreach].
      * etransitivity; [exact Hreach|apply appends_only_prefix, Hs'].
  - destruct j as [|j]; [lia|]. simpl in Hj.
    eapply (IH _ i j); try eassumption. lia.
Qed.

(** C8. In every run of the graph each step leaves [all_sources] as it
    found it with the newly retrieved entries appended (all of them, and
    only at [retrieve]; nothing is removed or deduplicated), each step
    starts from the state the previous one left, so what a step sees is a
    prefix of what every later step sees, the critique steps included, and
    of what the final state holds. *)
Theorem all_sources_only_grows limit st :
  chained st (graph_exec be limit retrieve st).1
  /\ Forall (appends_only be) (graph_exec be limit retrieve st).1
  /\ (forall i j s s', (i <= j)%nat ->
        (graph_exec be limit retrieve st).1 !! i = Some s ->
        (graph_exec be limit retrieve st).1 !! j = Some s' ->
        all_sources (step_before s) `prefix_of` all_sources (step_before s')
        /\ all_sources (step_after s) `prefix_of` all_sources (step_after s'))
  /\ match (graph_exec be limit retrieve st).2 with
     | Done final =>
         all_sources st `prefix_of` all_sources final
         /\ Forall (fun s => all_sources (step_after s) `prefix_of` all_sources final)
              (graph_exec be limit retrieve st).1
     | Failed _ | OutOfSteps => True
     end.
Proof.
  destruct (graph_exec_steps limit retrieve st) as [Hchain _].
  pose proof (graph_exec_appends limit retrieve st) as Hgrow.
  split; [exact Hchain|]. split; [exact Hgrow|]. split.
  - intros i j s s'. apply (chained_monotone _ st); assumption.
  - destruct (graph_exec be limit retrieve st).2 as [final|e|] eqn:Hres; try exact I.
    destruct (graph_exec_done limit retrieve st final Hres) as (sl & Hlast & _ & Hafter).
    rewrite last_lookup in Hlast. subst final. split.
    + etransitivity; [eapply chained_prefix; eassumption|].
      apply appends_only_prefix. eapply Forall_lookup_1; eassumption.
    + apply Forall_lookup_2. intros i s Hi.
      eapply (chained_monotone _ st i); try eassumption.
      apply lookup_lt_Some in Hi. lia.
Qed.

(** *** Termination *)




End AgenticProperties.

(** ** The claims at work on concrete worlds: the loop controller *)

Section AgenticExamples.
Import Agentic Scenario.

(** With max_loops = 1 round 0 is the last one: the backend's reply asks
    for more, and the decision written is 'final'. *)
Lemma override_forces_final_witness :
  llm_critique backend_need_more 0 "what is alpha?" (PyStr "Alpha is a letter.")
    (PyList [PyStr "alpha is a letter"]) (sources_view (at_critique backend_need_more 1))
  = Returns need_more_json
  /\ exists u,
       critique_node backend_need_more (at_critique backend_need_more 1) = Returns u
       /\ u_decision u = Some (PyStr "final")
       /\ should_continue (apply_update (at_critique backend_need_more 1) u) = "finalize"
       /\ next_node critique (apply_update (at_critique backend_need_more 1) u)
          = Some finalize.
Proof.
  split; [reflexivity|].
  destruct (critique_node backend_need_more (at_critique backend_need_more 1))
    as [u|e] eqn:Hu; [|vm_compute in Hu; discriminate Hu].
  exists u. split; [reflexivity|].
  apply (proj1 (override_forces_final backend_need_more)
           (at_critique backend_need_more 1) u); [|exact Hu].
  vm_compute. intros Hlt. discriminate Hlt.
Defined.

(** Two rounds used out of max_loops = 2. *)
Lemma loops_used_bounds_witness :
  loops_used (agentic_rag_query backend_refining 25 "what is alpha?" "u1" 5 "similarity"
                (Some 2) None) = 1 + 1
  /\ 1 <= 1 + 1 <= Z.max 1 2.
Proof.
  exact (loops_used_bounds backend_refining 25 "what is alpha?" "u1" 5 "similarity"
           (Some 2) None).
Defined.

(** C2 as stated fails.  The critique asks for more and names no refined
    query; [refine_query_node] raises on the slice of [None] in its log
    message, the workflow fails, and the response carries
    [loops_used = 0], below the claimed lower bound. *)
Lemma failed_workflow_reports_zero_loops :
  graph_invoke backend_need_more 25 (request backend_need_more 2)
  = Failed "'NoneType' object is not subscriptable"
  /\ loops_used (agentic_rag_query backend_need_more 25 "what is alpha?" "u1" 5
                   "similarity" (Some 2) None) = 0
  /\ ~ (1 <= loops_used (agentic_rag_query backend_need_more 25 "what is alpha?" "u1" 5
                           "similarity" (Some 2) None) <= 2 + 1).
Proof.
  split; [vm_compute; reflexivity|]. split; [vm_compute; reflexivity|].
  assert (loops_used (agentic_rag_query backend_need_more 25 "what is alpha?" "u1" 5
                        "similarity" (Some 2) None) = 0) as -> by (vm_compute; reflexivity).
  lia.
Qed.

(** The critique call times out. *)
Lemma critique_failure_is_final_witness :
  exists u,
    critique_node backend_critique_down (at_critique backend_critique_down 2) = Returns u
    /\ ends_round_with backend_critique_down "low" (at_critique backend_critique_down 2) u.
Proof.
  pose proof (critique_failure_is_final backend_critique_down
                (at_critique backend_critique_down 2) eq_refl eq_refl) as Hcases.
  cbv zeta in Hcases. destruct Hcases as (Hraises & _ & _).
  apply (Hraises "TimeoutError"). reflexivity.
Defined.

(** C4 as stated fails.  The critique reply is prose, not JSON:
    [critique] ends the round as 'final', with confidence 'medium', not
    'low', and 'medium' is the confidence of the response. *)
Lemma garbled_critique_is_medium :
  llm_critique backend_critique_garbled 0 "what is alpha?" (PyStr "Alpha is a letter.")
    (PyList [PyStr "alpha is a letter"])
    (sources_view (at_critique backend_critique_garbled 2))
  = Returns "I think the draft is fine."
  /\ json_loads backend_critique_garbled (strip_fence "I think the draft is fine.") = None
  /\ (exists u,
        critique_node backend_critique_garbled (at_critique backend_critique_garbled 2)
        = Returns u
        /\ u_decision u = Some (PyStr "final")
        /\ u_confidence u = Some (PyStr "medium"))
  /\ resp_confidence (agentic_rag_query backend_critique_garbled 25 "what is alpha?" "u1" 5
                        "similarity" (Some 2) None) = PyStr "medium"
  /\ resp_confidence (agentic_rag_query backend_critique_garbled 25 "what is alpha?" "u1" 5
                        "similarity" (Some 2) None) <> PyStr "low".
Proof.
  split; [reflexivity|]. split; [vm_compute; reflexivity|]. split.
  - eexists. split; [vm_compute; reflexivity|]. split; reflexivity.
  - assert (resp_confidence
              (agentic_rag_query backend_critique_garbled 25 "what is alpha?" "u1" 5
                 "similarity" (Some 2) None) = PyStr "medium") as ->
      by (vm_compute; reflexivity).
    split; [reflexivity|]. discriminate.
Qed.

Lemma empty_retrieval_response_witness :
  agentic_rag_query backend_nothing 25 "what is alpha?" "u1" 5 "similarity" (Some 2) None
  = {| resp_message_id := "m-1";
       resp_answer := PyStr NOT_FOUND_ANSWER;
       resp_sources := [];
       resp_confidence := PyStr "medium";
       resp_reasoning_trace := [[("step", PyStr "finalize")]];
       loops_used := 1;
       resp_saved_file := None |}.
Proof.
  apply (empty_retrieval_response backend_nothing 25 "what is alpha?" "u1" 5 "similarity" None).
  - lia.
  - reflexivity.
Defined.

(** C5 as stated fails.  Nothing is retrieved at round 0 and
    max_loops = 2: one loop, the 'not found' answer, and confidence
    'medium', not 'low'. *)
Lemma empty_retrieval_is_medium :
  search_results backend_nothing (request backend_nothing 2) = []
  /\ loops_used (agentic_rag_query backend_nothing 25 "what is alpha?" "u1" 5 "similarity"
                   (Some 2) None) = 1
  /\ resp_answer (agentic_rag_query backend_nothing 25 "what is alpha?" "u1" 5 "similarity"
                    (Some 2) None) = PyStr NOT_FOUND_ANSWER
  /\ resp_confidence (agentic_rag_query backend_nothing 25 "what is alpha?" "u1" 5
                        "similarity" (Some 2) None) = PyStr "medium"
  /\ resp_confidence (agentic_rag_query backend_nothing 25 "what is alpha?" "u1" 5
                        "similarity" (Some 2) None) <> PyStr "low".
Proof.
  assert (agentic_rag_query backend_nothing 25 "what is alpha?" "u1" 5 "similarity"
            (Some 2) None
          = {| resp_message_id := "m-1";
               resp_answer := PyStr NOT_FOUND_ANSWER;
               resp_sources := [];
               resp_confidence := PyStr "medium";
               resp_reasoning_trace := [[("step", PyStr "finalize")]];
               loops_used := 1;
               resp_saved_file := None |}) as -> by (vm_compute; reflexivity).
  split; [reflexivity|]. simpl. repeat split. discriminate.
Qed.

(** Two rounds retrieve the same chunk twice; the response lists it once. *)
Lemma sources_deduplicated_witness :
  NoDup (map source_key
           (resp_sources (agentic_rag_query backend_refining 25 "what is alpha?" "u1" 5
                            "similarity" (Some 2) None)))
  /\ length (resp_sources (agentic_rag_query backend_refining 25 "what is alpha?" "u1" 5
                             "similarity" (Some 2) None)) = 1%nat.
Proof.
  pose proof (sources_deduplicated backend_refining 25 "what is alpha?" "u1" 5
                "similarity" (Some 2) None) as [Hnodup _].
  split; [exact Hnodup|]. vm_compute. reflexivity.
Defined.

(** The source retrieved in round 0 is still there, first, when [critique]
    runs in round 1 over two sources. *)
Lemma all_sources_only_grows_witness :
  exists s s',
    (graph_exec backend_refining 25 retrieve (request backend_refining 2)).1 !! 0%nat = Some s
    /\ (graph_exec backend_refining 25 retrieve (request backend_refining 2)).1 !! 6%nat
       = Some s'
    /\ step_node s = retrieve /\ step_node s' = critique
    /\ length (all_sources (step_after s)) = 1%nat
    /\ length (all_sources (step_before s')) = 2%nat
    /\ all_sources (step_after s) `prefix_of` all_sources (step_after s').
Proof.
  destruct (all_sources_only_grows backend_refining 25 (request backend_refining 2))
    as (_ & _ & Hmono & _).
  destruct ((graph_exec backend_refining 25 retrieve (request backend_refining 2)).1 !! 0%nat)
    as [s|] eqn:Hs; [|vm_compute in Hs; discriminate Hs].
  destruct ((graph_exec backend_refining 25 retrieve (request backend_refining 2)).1 !! 6%nat)
    as [s'|] eqn:Hs'; [|vm_compute in Hs'; discriminate Hs'].
  exists s, s'. split; [reflexivity|]. split; [reflexivity|].
  assert ((0 <= 6)%nat) as Hle by lia.
  destruct (Hmono 0%nat 6%nat s s' Hle Hs Hs') as [_ Hafter].
  vm_compute in Hs. vm_compute in Hs'. injection Hs as <-. injection Hs' as <-.
  repeat split. exact Hafter.
Defined.


End AgenticExamples.

(** * Further properties of the code *)

(** ** Text *)

Section TextProperties.

Lemma str_length_app (s t : string) :
  String.length (s +:+ t) = (String.length s + String.length t)%nat.
Proof. induction s as [|c s IH]; simpl; [reflexivity|]. rewrite IH. reflexivity. Qed.






End TextProperties.

(** ** Evidence and confidence *)

Section EvidenceProperties.
Import Rag.

Lemma valid_count_submseteq min_score (docs docs' : list (Document * Q)) :
  docs ⊆+ docs' -> valid_count min_score docs <= valid_count min_score docs'.
Proof.
  unfold valid_count. intros H.
  induction H as [|x l1 l2 _ IH|x y l|x l1 l2 _ IH|l1 l2 l3 _ IH1 _ IH2]; simpl.
  - lia.
  - destruct (Qle_bool min_score x.2); simpl; lia.
  - destruct (Qle_bool min_score x.2), (Qle_bool min_score y.2); simpl; lia.
  - destruct (Qle_bool min_score x.2); simpl; lia.
  - lia.
Qed.

Lemma is_max_score_submseteq m m' (docs docs' : list (Document * Q)) :
  docs ⊆+ docs' -> is_max_score m docs -> is_max_score m' docs' -> (m <= m')%Q.
Proof.
  intros Hsub [[d Hd] _] [_ Hub']. apply (Hub' d).
  apply list_elem_of_In. eapply elem_of_submseteq; [|exact Hsub]. apply list_elem_of_In, Hd.
Qed.

(** The evaluation is monotone in the maximum score and in the number of
    valid items. *)
Lemma evaluate_monotone m m' n n' policy :
  (m <= m')%Q -> n <= n' ->
  (level_rank (evaluate m n policy).1 <= level_rank (evaluate m' n' policy).1)%nat
  /\ ((evaluate m' n' policy).2 = true -> (evaluate m n policy).2 = true).
Proof.
  intros Hm Hn. unfold evaluate. simpl.
  assert (forall x, (m' < x)%Q -> (m < x)%Q) as Hlt
    by (intros x Hx; eapply Qle_lt_trans; eassumption).
  assert (forall x, (x <= m)%Q -> (x <= m')%Q) as Hle
    by (intros x Hx; eapply Qle_trans; eassumption).
  repeat case_bool_decide; simpl; split; try lia; try reflexivity; try discriminate;
    exfalso;
    repeat match goal with
           | H : _ \/ _ |- _ => destruct H
           | H : _ /\ _ |- _ => destruct H
           end;
    match goal with
    | H : ~ (_ \/ _) |- _ => apply H; solve [left; auto | right; lia]
    | H : ~ (_ /\ _) |- _ => apply H; split; [auto|lia]
    end.
Qed.

Lemma calculate_confidence_submseteq (docs docs' : list (Document * Q)) policy :
  docs ⊆+ docs' ->
  (level_rank (calculate_confidence docs policy).1
   <= level_rank (calculate_confidence docs' policy).1)%nat
  /\ ((calculate_confidence docs' policy).2 = true -> (calculate_confidence docs policy).2 = true).
Proof.
  intros Hsub. destruct docs as [|[d0 s0] rest].
  - simpl. split; [lia|reflexivity].
  - destruct docs' as [|[d0' s0'] rest'].
    + apply submseteq_nil_r in Hsub. discriminate.
    + rewrite !calculate_confidence_nonempty. apply evaluate_monotone.
      * eapply is_max_score_submseteq; [exact Hsub|apply py_max_is_max..].
      * apply valid_count_submseteq, Hsub.
Qed.

Lemma level_rank_inj a b : level_rank a = level_rank b -> a = b.
Proof. destruct a, b; simpl; congruence. Qed.

(** X3. More evidence never lowers the confidence: when the retrieved items
    contain those of a smaller retrieval (as a multiset, in any order), the
    level is at least as high, and the fallback is needed only if it was
    needed for the smaller one. *)
Theorem confidence_grows_with_evidence (docs docs' : list (Document * Q)) policy :
  docs ⊆+ docs' ->
  (level_rank (calculate_confidence docs policy).1
   <= level_rank (calculate_confidence docs' policy).1)%nat
  /\ ((calculate_confidence docs' policy).2 = true -> (calculate_confidence docs policy).2 = true).
Proof. apply calculate_confidence_submseteq. Qed.

(** X4. The confidence does not depend on the order of the evidence: two
    retrievals with the same items, in any order, get the same level and the
    same fallback flag. *)
Theorem confidence_order_independent (docs docs' : list (Document * Q)) policy :
  docs ≡ₚ docs' -> calculate_confidence docs policy = calculate_confidence docs' policy.
Proof.
  intros Hperm.
  destruct (calculate_confidence_submseteq docs docs' policy (Permutation_submseteq _ _ Hperm))
    as [Hrank Hflag].
  symmetry in Hperm.
  destruct (calculate_confidence_submseteq docs' docs policy (Permutation_submseteq _ _ Hperm))
    as [Hrank' Hflag'].
  destruct (calculate_confidence docs policy) as [level flag].
  destruct (calculate_confidence docs' policy) as [level' flag']. simpl in *.
  f_equal.
  - apply level_rank_inj. lia.
  - destruct flag, flag'; try reflexivity;
      [specialize (Hflag' eq_refl)|specialize (Hflag eq_refl)]; discriminate.
Qed.

End EvidenceProperties.

(** ** The single-pass query and its stream *)

Section StreamProperties.
Import Rag.







(** X7. Nothing is answered from an index that cannot be loaded: when the
    module is not ready and [get_vectorstore] finds no index (none is
    persisted, or loading it fails), [rag_query] returns the fixed
    not-initialised answer with confidence LOW and no sources, and the
    stream is a single error event; neither retrieval nor generation nor
    the file writers are called. *)
Theorem query_without_index env sv g question user_id thread_id top_k save_to_file file_name
    retrieval_mode answer_mode save_as_document :
  Vectorstore._is_ready g = false ->
  (Vectorstore.get_vectorstore env g).2 = None ->
  (rag_query env sv g question user_id top_k save_to_file file_name retrieval_mode
     answer_mode).2
  = Returns {| message_id := generate_message_id sv; answer := NOT_READY_ANSWER;
               sources := []; confidence := LOW; saved_file := None |}
  /\ (rag_query_stream env sv g question user_id thread_id top_k retrieval_mode answer_mode
        save_as_document).2
     = Returns [EventError NOT_READY_ERROR].
Proof.
  intros Hready Hnone.
  assert (Vectorstore.is_vectorstore_ready env g
          = ((Vectorstore.get_vectorstore env g).1, false)) as Hgate.
  { unfold Vectorstore.is_vectorstore_ready. rewrite Hready. f_equal.
    unfold Vectorstore.get_vectorstore in *.
    destruct (Vectorstore._vectorstore g) as [vs|]; [discriminate Hnone|].
    simpl in *.
    destruct (Vectorstore.get_embeddings env) as [emb|]; simpl in *; [|reflexivity].
    destruct (Vectorstore.chroma_sqlite3_exists env); simpl in *; [|reflexivity].
    destruct (Vectorstore.Chroma_open env emb) as [vs|]; simpl in *; [|reflexivity].
    destruct (Vectorstore.collection_count vs); simpl in *; [discriminate Hnone|reflexivity]. }
  unfold rag_query, rag_query_stream. rewrite Hgate. split; reflexivity.
Qed.

End StreamProperties.

Section EvidenceExamples.
Import Vectorstore Rag Scenario.

Lemma confidence_grows_with_evidence_witness :
  (level_rank (calculate_confidence [(doc_a, (1 # 10)%Q)] default_rag_config).1
   <= level_rank
        (calculate_confidence [(doc_b, float_0_8); (doc_a, (1 # 10)%Q)] default_rag_config).1)%nat
  /\ ((calculate_confidence [(doc_b, float_0_8); (doc_a, (1 # 10)%Q)] default_rag_config).2
      = true ->
      (calculate_confidence [(doc_a, (1 # 10)%Q)] default_rag_config).2 = true).
Proof.
  apply (confidence_grows_with_evidence [(doc_a, (1 # 10)%Q)]
           [(doc_b, float_0_8); (doc_a, (1 # 10)%Q)] default_rag_config).
  apply submseteq_cons. reflexivity.
Defined.

Lemma confidence_order_independent_witness :
  calculate_confidence [(doc_a, float_0_8); (doc_b, (1 # 2)%Q)] default_rag_config
  = calculate_confidence [(doc_b, (1 # 2)%Q); (doc_a, float_0_8)] default_rag_config.
Proof.
  apply (confidence_order_independent [(doc_a, float_0_8); (doc_b, (1 # 2)%Q)]
           [(doc_b, (1 # 2)%Q); (doc_a, float_0_8)] default_rag_config).
  apply Permutation_swap.
Defined.


Lemma query_without_index_witness :
  (rag_query env_unbuilt services_up not_loaded "what is alpha?" "u1" 5 false None SIMILARITY
     STRICT).2
  = Returns {| message_id := "m-1"; answer := NOT_READY_ANSWER; sources := [];
               confidence := LOW; saved_file := None |}
  /\ (rag_query_stream env_unbuilt services_up not_loaded "what is alpha?" "u1" "t1" 5
        SIMILARITY STRICT false).2
     = Returns [EventError NOT_READY_ERROR].
Proof.
  apply (query_without_index env_unbuilt services_up not_loaded "what is alpha?" "u1" "t1" 5
           false None SIMILARITY STRICT false); reflexivity.
Defined.

End EvidenceExamples.

(** ** Failures of the loop controller *)

Section AgenticFailures.
Import Agentic.

Variable be : Backend.












Lemma final_confidence_level limit st :
  match (graph_exec be limit retrieve st).2 with
  | Done final => exists level, confidence final = PyStr (ConfidenceLevel_value level)
  | _ => True
  end.
Proof.
  apply (graph_exec_invariant be (fun _ _ => True)
           (fun final => exists level, confidence final = PyStr (ConfidenceLevel_value level)));
    [intros; exact I| |exact I].
  intros n st' u _ Hnode Hnext.
  destruct n; simpl in Hnext; try discriminate;
    [destruct (bool_decide _) in Hnext; discriminate|].
  simpl in Hnode. apply finalize_node_shape in Hnode as (_ & _ & c & Hc & _).
  exists c. simpl. rewrite Hc. reflexivity.
Qed.

(** X10. Every response carries one of the three confidence levels: whatever
    the critic wrote in its confidence field (another word, a number,
    nothing), and however the request ended, the response's confidence is
    'high', 'medium' or 'low'. *)
Theorem response_confidence_level limit question user_id top_k retrieval_mode max_loops filters :
  exists level,
    resp_confidence
      (agentic_rag_query be limit question user_id top_k retrieval_mode max_loops filters)
    = PyStr (ConfidenceLevel_value level).
Proof.
  destruct (graph_invoke be limit
              (request_state be question user_id top_k retrieval_mode max_loops filters))
    as [final|e|] eqn:Hrun.
  - rewrite (agentic_rag_query_done be _ _ _ _ _ _ _ final Hrun). simpl.
    pose proof (final_confidence_level limit
                  (request_state be question user_id top_k retrieval_mode max_loops filters))
      as Hlevel.
    unfold graph_invoke in Hrun. rewrite Hrun in Hlevel. exact Hlevel.
  - exists LOW. unfold agentic_rag_query. rewrite Hrun. reflexivity.
  - exists LOW. unfold agentic_rag_query. rewrite Hrun. reflexivity.
Qed.

(** X11. The reasoning trace of a response has one entry.  [reasoning_trace]
    has no reducer, so each node's entry replaces the one before it: after a
    run that ended well only the entry of [finalize] is left, reduced to its
    step name, however many rounds ran; otherwise the entry records the
    error. *)
Theorem reasoning_trace_single_entry limit question user_id top_k retrieval_mode max_loops
    filters :
  let response :=
    agentic_rag_query be limit question user_id top_k retrieval_mode max_loops filters in
  match graph_invoke be limit
          (request_state be question user_id top_k retrieval_mode max_loops filters) with
  | Done _ => resp_reasoning_trace response = [[("step", PyStr "finalize")]]
  | Failed e =>
      resp_reasoning_trace response = [[("step", PyStr "error"); ("message", PyStr e)]]
  | OutOfSteps =>
      resp_reasoning_trace response
      = [[("step", PyStr "error"); ("message", PyStr GRAPH_RECURSION_ERROR)]]
  end.
Proof.
  cbv zeta.
  destruct (graph_invoke be limit
              (request_state be question user_id top_k retrieval_mode max_loops filters))
    as [final|e|] eqn:Hrun.
  - rewrite (agentic_rag_query_done be _ _ _ _ _ _ _ final Hrun). reflexivity.
  - unfold agentic_rag_query. rewrite Hrun. reflexivity.
  - unfold agentic_rag_query. rewrite Hrun. reflexivity.
Qed.

(** X12. A critic that asks for more without naming a query aborts the
    request.  When [critique] writes the decision 'need_more' (so the round
    is before [max_loops - 1]) and the refined query is [None], the graph
    goes to [refine], whose log line slices the refined query and raises
    the [TypeError]; the run fails there. *)
Theorem need_more_without_query_aborts limit st u :
  critique_node be st = Returns u ->
  u_decision u = Some (PyStr "need_more") ->
  u_refined_query u = Some PyNone ->
  (graph_exec be (S (S limit)) critique st).2
  = Failed "'NoneType' object is not subscriptable".
Proof.
  intros Hnode Hdecision Hquery.
  assert (loop_count st < max_loops st - 1) as Hround.
  { destruct (Z_lt_ge_dec (loop_count st) (max_loops st - 1)) as [Hlt|Hge]; [exact Hlt|].
    destruct (critique_node_decision be st u Hnode) as (d & Hd & Hfinal).
    rewrite (Hfinal Hge) in Hd. congruence. }
  assert (loop_count (apply_update st u) = loop_count st) as Hcount
    by exact (run_node_loop_count be critique st u Hnode).
  assert (next_node critique (apply_update st u) = Some refine) as Hnext.
  { assert (decision (apply_update st u) = PyStr "need_more") as Hd
      by (simpl; rewrite Hdecision; reflexivity).
    simpl. unfold should_continue. rewrite Hd, Hcount.
    change (max_loops (apply_update st u)) with (max_loops st).
    rewrite (bool_decide_eq_true_2 (loop_count st < max_loops st)) by lia. reflexivity. }
  rewrite graph_exec_unfold. change (run_node be critique st) with (critique_node be st).
  rewrite Hnode. cbv zeta. rewrite Hnext.
  rewrite graph_exec_unfold. change (run_node be refine (apply_update st u))
    with (refine_query_node be (apply_update st u)).
  unfold refine_query_node. simpl refined_query. rewrite Hquery. reflexivity.
Qed.

End AgenticFailures.

Section AgenticFailureExamples.
Import Agentic Scenario.


Lemma need_more_without_query_aborts_witness :
  (graph_exec backend_need_more 2 critique (at_critique backend_need_more 2)).2
  = Failed "'NoneType' object is not subscriptable".
Proof.
  destruct (critique_node backend_need_more (at_critique backend_need_more 2))
    as [u|e] eqn:Hu; [|vm_compute in Hu; discriminate Hu].
  apply (need_more_without_query_aborts backend_need_more 0
           (at_critique backend_need_more 2) u Hu).
  - vm_compute in Hu. injection Hu as <-. reflexivity.
  - vm_compute in Hu. injection Hu as <-. reflexivity.
Defined.

End AgenticFailureExamples.

(** ** The chunk index *)

Section StoreProperties.
Import Vectorstore Store.

Lemma assoc_dict_set_eq key value items : assoc key (dict_set key value items) = Some value.
Proof.
  induction items as [|[k v] rest IH]; simpl.
  - rewrite decide_True by reflexivity. reflexivity.
  - destruct (decide (k = key)) as [->|Hne]; simpl.
    + rewrite decide_True by reflexivity. reflexivity.
    + rewrite decide_False by exact Hne. exact IH.
Qed.

Lemma assoc_dict_set_ne key key' value items :
  key' <> key -> assoc key' (dict_set key value items) = assoc key' items.
Proof.
  intros Hne. induction items as [|[k v] rest IH]; simpl.
  - rewrite decide_False by congruence. reflexivity.
  - destruct (decide (k = key)) as [->|Hk]; simpl.
    + rewrite !decide_False by congruence. reflexivity.
    + destruct (decide (k = key')); [reflexivity|exact IH].
Qed.

(** One document filed into an index that has its ['chunks'] object. *)
Lemma index_document_chunks items chunks doc :
  assoc "chunks" items = Some (PyDict chunks) ->
  exists items',
    index_document (PyDict items) doc = Returns (PyDict items')
    /\ assoc "chunks" items'
       = Some (PyDict (if bool_decide (chunk_id_of doc = "") then chunks
                       else dict_set (chunk_id_of doc) (chunk_entry doc) chunks)).
Proof.
  intros Hchunks. unfold index_document. fold (chunk_id_of doc).
  destruct (bool_decide (chunk_id_of doc = "")).
  - exists items. split; [reflexivity|exact Hchunks].
  - simpl. rewrite Hchunks. simpl. eexists. split; [reflexivity|].
    apply assoc_dict_set_eq.
Qed.

Lemma index_documents_chunks documents : forall items chunks,
  assoc "chunks" items = Some (PyDict chunks) ->
  exists items' chunks',
    index_documents (PyDict items) documents = Returns (PyDict items')
    /\ assoc "chunks" items' = Some (PyDict chunks')
    /\ forall chunk_id,
         assoc chunk_id chunks'
         = match last_with_id chunk_id documents with
           | Some doc => Some (chunk_entry doc)
           | None => assoc chunk_id chunks
           end.
Proof.
  induction documents as [|doc rest IH]; intros items chunks Hchunks.
  - exists items, chunks. split; [reflexivity|]. split; [exact Hchunks|reflexivity].
  - destruct (index_document_chunks items chunks doc Hchunks) as (items1 & Hrun & Hchunks1).
    destruct (IH _ _ Hchunks1) as (items' & chunks' & Hrest & Hchunks' & Hlookup).
    exists items', chunks'. split; [simpl; rewrite Hrun; exact Hrest|].
    split; [exact Hchunks'|]. intros chunk_id. rewrite Hlookup. simpl.
    destruct (last_with_id chunk_id rest) as [later|]; [reflexivity|].
    destruct (bool_decide (chunk_id_of doc = chunk_id /\ chunk_id <> "")) eqn:Hid.
    + apply bool_decide_eq_true in Hid as [Hid Hne].
      rewrite bool_decide_eq_false_2 by congruence.
      rewrite Hid. apply assoc_dict_set_eq.
    + apply bool_decide_eq_false in Hid.
      destruct (bool_decide (chunk_id_of doc = "")) eqn:Hempty; [reflexivity|].
      apply bool_decide_eq_false in Hempty.
      apply assoc_dict_set_ne. intros ->. apply Hid. split; [reflexivity|exact Hempty].
Qed.

Lemma index_well_formed_load file :
  index_well_formed file ->
  exists items chunks,
    load_chunks_index file = PyDict items /\ assoc "chunks" items = Some (PyDict chunks).
Proof.
  destruct file as [| |[| | | | |items]]; simpl; try contradiction;
    try (intros _; do 2 eexists; split; reflexivity).
  destruct (assoc "chunks" items) as [[| | | | |chunks]|] eqn:Hc; try contradiction.
  intros _. eauto.
Qed.

(** What [update_chunks_index] leaves in a file that it can extend. *)
Lemma update_chunks_index_spec file documents :
  index_well_formed file ->
  (update_chunks_index file documents).2 = Returns tt
  /\ index_well_formed (update_chunks_index file documents).1
  /\ forall chunk_id,
       get_chunk_by_id (update_chunks_index file documents).1 chunk_id
       = match last_with_id chunk_id documents with
         | Some doc => Returns (chunk_entry doc)
         | None => get_chunk_by_id file chunk_id
         end.
Proof.
  intros Hfile. destruct (index_well_formed_load file Hfile) as (items & chunks & Hload & Hchunks).
  destruct (index_documents_chunks documents items chunks Hchunks)
    as (items' & chunks' & Hrun & Hchunks' & Hlookup).
  unfold update_chunks_index. rewrite Hload, Hrun. unfold save_chunks_index. simpl.
  rewrite Hchunks'. simpl. split; [reflexivity|]. split; [exact I|].
  intros chunk_id. unfold get_chunk_by_id. rewrite Hload. simpl.
  rewrite Hchunks', Hchunks. simpl. rewrite Hlookup.
  destruct (last_with_id chunk_id documents); reflexivity.
Qed.

(** X13. Filing and fetching chunks.  On an index file that is absent,
    unreadable or well formed, [update_chunks_index] returns, leaves a well
    formed file, and afterwards [get_chunk_by_id] finds under each id the
    entry of the last document filed under it; documents without a chunk
    id (or with an empty one) are not filed, and every other id is answered
    as before. *)
Theorem chunks_index_round_trip file documents :
  index_well_formed file ->
  (update_chunks_index file documents).2 = Returns tt
  /\ index_well_formed (update_chunks_index file documents).1
  /\ forall chunk_id,
       get_chunk_by_id (update_chunks_index file documents).1 chunk_id
       = match last_with_id chunk_id documents with
         | Some doc => Returns (chunk_entry doc)
         | None => get_chunk_by_id file chunk_id
         end.
Proof. exact (update_chunks_index_spec file documents). Qed.

(** X14. An index file without its ['chunks'] object cannot be extended:
    when the file holds a JSON object with no ['chunks'] key, filing any
    document that has a chunk id raises the [KeyError] and leaves the file
    as it was, while lookups in that file answer [None]. *)
Theorem chunks_index_without_chunks items documents doc :
  assoc "chunks" items = None ->
  doc ∈ documents -> chunk_id_of doc <> "" ->
  update_chunks_index (Holds (PyDict items)) documents
  = (Holds (PyDict items), Raises "KeyError: 'chunks'")
  /\ forall chunk_id, get_chunk_by_id (Holds (PyDict items)) chunk_id = Returns PyNone.
Proof.
  intros Hnone Hdoc Hid. split.
  - unfold update_chunks_index. simpl.
    assert (index_documents (PyDict items) documents = Raises "KeyError: 'chunks'") as ->;
      [|reflexivity].
    induction documents as [|d rest IH]; [inversion Hdoc|].
    simpl. unfold index_document. fold (chunk_id_of d).
    destruct (bool_decide (chunk_id_of d = "")) eqn:Hd.
    + apply bool_decide_eq_true in Hd. simpl. apply IH.
      apply elem_of_cons in Hdoc as [->|Hdoc]; [contradiction|exact Hdoc].
    + simpl. rewrite Hnone. reflexivity.
  - intros chunk_id. unfold get_chunk_by_id. simpl. rewrite Hnone. reflexivity.
Qed.

End StoreProperties.

(** ** The life cycle of the store *)

Section LifeCycleProperties.
Import Vectorstore Store.

Lemma globals_agree_not_loaded : globals_agree not_loaded.
Proof. unfold globals_agree. simpl. split; [discriminate|congruence]. Qed.

Lemma globals_agree_loaded vs : globals_agree {| _vectorstore := Some vs; _is_ready := true |}.
Proof. unfold globals_agree. simpl. split; [discriminate|reflexivity]. Qed.

(** [get_vectorstore] returns the instance that it leaves in the globals,
    and leaves globals that agree. *)
Lemma get_vectorstore_agrees env g :
  globals_agree g ->
  globals_agree (get_vectorstore env g).1
  /\ (get_vectorstore env g).2 = _vectorstore (get_vectorstore env g).1.
Proof.
  intros Hg. unfold get_vectorstore. destruct (_vectorstore g) as [vs|] eqn:Hvs.
  - simpl. split; [exact Hg|symmetry; exact Hvs].
  - simpl. split; [|reflexivity].
    destruct (get_embeddings env) as [emb|]; simpl; [|apply globals_agree_not_loaded].
    destruct (chroma_sqlite3_exists env); simpl; [|apply globals_agree_not_loaded].
    destruct (Chroma_open env emb) as [vs|]; simpl; [|apply globals_agree_not_loaded].
    destruct (collection_count vs); simpl;
      [apply globals_agree_loaded|apply globals_agree_not_loaded].
Qed.

(** X15. Ready means loaded.  From globals that agree (as the initial ones
    do), [is_vectorstore_ready] answers true exactly when [get_vectorstore]
    yields an instance, and every operation of the module leaves globals
    that agree: loading, the two searches, deleting, counting, adding,
    creating and resetting. *)
Theorem ready_iff_loaded env ad s query k fetch_k lambda_mult src documents :
  globals_agree (globals s) ->
  ((is_vectorstore_ready env (globals s)).2 = true
   <-> (get_vectorstore env (globals s)).2 <> None)
  /\ globals_agree (is_vectorstore_ready env (globals s)).1
  /\ globals_agree (get_vectorstore env (globals s)).1
  /\ globals_agree (search_similar env (globals s) query k).1
  /\ globals_agree (search_mmr env (globals s) query k fetch_k lambda_mult).1
  /\ globals_agree (delete_by_source env ad (globals s) src).1
  /\ globals_agree (get_document_count env (globals s)).1
  /\ globals_agree (globals (add_documents env ad s documents).1)
  /\ globals_agree (globals (create_vectorstore env ad s documents).1)
  /\ globals_agree (globals (reset_vectorstore s)).
Proof.
  intros Hg. destruct (get_vectorstore_agrees env (globals s) Hg) as [Hg' Hvs].
  assert (globals_agree (is_vectorstore_ready env (globals s)).1
          /\ ((is_vectorstore_ready env (globals s)).2 = true
              <-> (get_vectorstore env (globals s)).2 <> None)) as [Hready Hiff].
  { unfold is_vectorstore_ready. destruct (_is_ready (globals s)) eqn:Hr; simpl.
    - split; [exact Hg|]. split; [|reflexivity]. intros _.
      apply Hg in Hr. unfold get_vectorstore.
      destruct (_vectorstore (globals s)); [discriminate|contradiction].
    - split; [exact Hg'|]. rewrite Hvs. exact Hg'. }
  split; [exact Hiff|]. split; [exact Hready|]. split; [exact Hg'|].
  unfold search_similar, search_mmr, delete_by_source, get_document_count, add_documents,
    create_vectorstore, reset_vectorstore.
  destruct (get_vectorstore env (globals s)) as [g' [vs|]]; simpl in *.
  - repeat (split; [exact Hg'|]). split.
    + destruct (vs_add_documents ad vs documents); [|exact Hg'].
      destruct (update_chunks_index (chunks_file s) documents). exact Hg'.
    + split; [|apply globals_agree_not_loaded].
      destruct (get_embeddings env) as [emb|]; [|exact Hg].
      destruct (Chroma_from_documents ad documents emb); [|exact Hg].
      destruct (update_chunks_index (chunks_file s) documents). apply globals_agree_loaded.
  - repeat (split; [exact Hg'|]). split; [|apply globals_agree_not_loaded].
    destruct (get_embeddings env) as [emb|]; [|exact Hg].
    destruct (Chroma_from_documents ad documents emb); [|exact Hg].
    destruct (update_chunks_index (chunks_file s) documents). apply globals_agree_loaded.
Qed.

End LifeCycleProperties.

(** ** Ingestion *)

Section IngestProperties.
Import Vectorstore Store Ingest.

Lemma str_app_assoc (a b c : string) : (a +:+ b) +:+ c = a +:+ (b +:+ c).
Proof.
  induction a as [|x a IH]; [reflexivity|].
  change (String x ((a +:+ b) +:+ c) = String x (a +:+ (b +:+ c))). rewrite IH. reflexivity.
Qed.

Lemma str_app_inv_tail (t : string) : forall a b, a +:+ t = b +:+ t -> a = b.
Proof.
  induction a as [|x a IH]; intros [|y b] H.
  - reflexivity.
  - exfalso. apply (f_equal String.length) in H. rewrite !str_length_app in H.
    simpl in H. lia.
  - exfalso. apply (f_equal String.length) in H. rewrite !str_length_app in H.
    simpl in H. lia.
  - injection H as -> H. rewrite (IH b H). reflexivity.
Qed.

Lemma has_char_app c a b : has_char c (a +:+ b) = has_char c a || has_char c b.
Proof.
  induction a as [|x a IH]; simpl; [reflexivity|]. rewrite IH, orb_assoc. reflexivity.
Qed.

(** The text after the last occurrence of a character determines the text
    before it. *)
Lemma split_at_last c (d d' : string) : forall a b,
  has_char c d = false -> has_char c d' = false ->
  a +:+ String c d = b +:+ String c d' -> a = b /\ d = d'.
Proof.
  induction a as [|x a IH]; intros [|y b] Hd Hd' H; simpl in H.
  - injection H as ->. split; reflexivity.
  - injection H as <- ->. rewrite has_char_app in Hd. simpl in Hd.
    rewrite bool_decide_eq_true_2 in Hd by reflexivity.
    rewrite orb_true_r in Hd. discriminate.
  - injection H as -> <-. rewrite has_char_app in Hd'. simpl in Hd'.
    rewrite bool_decide_eq_true_2 in Hd' by reflexivity.
    rewrite orb_true_r in Hd'. discriminate.
  - injection H as -> H. destruct (IH b Hd Hd' H) as [-> ->]. split; reflexivity.
Qed.

Lemma pretty_N_go_no_underscore x : forall s,
  has_char underscore s = false -> has_char underscore (pretty_N_go x s) = false.
Proof.
  induction (N.lt_wf_0 x) as [x _ IH]; intros s Hs.
  assert (x = 0 \/ 0 < x)%N as [->|Hpos] by lia.
  - rewrite pretty_N_go_0. exact Hs.
  - rewrite pretty_N_go_step by exact Hpos. apply IH.
    + apply N.div_lt; [exact Hpos|reflexivity].
    + simpl. rewrite Hs, orb_false_r. apply bool_decide_eq_false.
      unfold pretty_N_char. repeat case_match; discriminate.
Qed.

Lemma pretty_no_underscore (i : Z) : 0 <= i -> has_char underscore (pretty i) = false.
Proof.
  intros Hi. destruct i as [|p|p]; [reflexivity| |lia].
  unfold pretty, pretty_Z, pretty, pretty_positive, pretty, pretty_N.
  rewrite decide_False by discriminate. apply pretty_N_go_no_underscore. reflexivity.
Qed.

(** A chunk id determines the source and the number it was made from. *)
Lemma chunk_id_inj (a b : string) (i j : Z) :
  0 <= i -> 0 <= j ->
  a +:+ "_chunk_" +:+ pretty i = b +:+ "_chunk_" +:+ pretty j -> a = b /\ i = j.
Proof.
  intros Hi Hj H.
  change ("_chunk_" +:+ pretty i) with ("_chunk" +:+ String underscore (pretty i)) in H.
  change ("_chunk_" +:+ pretty j) with ("_chunk" +:+ String underscore (pretty j)) in H.
  rewrite <- !str_app_assoc in H.
  apply split_at_last in H as [Hab Hij]; try (apply pretty_no_underscore; assumption).
  split; [exact (str_app_inv_tail _ _ _ Hab)|]. apply (inj pretty), Hij.
Qed.

Lemma enumerate_lookup {A} (l : list A) : forall start i x,
  (i, x) ∈ enumerate start l -> start <= i /\ l !! Z.to_nat (i - start) = Some x.
Proof.
  induction l as [|y l IH]; intros start i x H; simpl in H; [inversion H|].
  apply elem_of_cons in H as [[= -> ->]|H].
  - split; [lia|]. rewrite Z.sub_diag. reflexivity.
  - apply IH in H as [Hle Hx]. split; [lia|].
    replace (Z.to_nat (i - start)) with (S (Z.to_nat (i - (start + 1)))) by lia. exact Hx.
Qed.

Lemma enumerate_fst_NoDup {A} (l : list A) : forall start, NoDup (map fst (enumerate start l)).
Proof.
  induction l as [|y l IH]; intros start; simpl; [constructor|].
  apply NoDup_cons. split; [|apply IH].
  intros Hin. apply list_elem_of_fmap in Hin as ([i x] & Hi & Hmem). simpl in Hi. subst i.
  apply enumerate_lookup in Hmem as [Hle _]. lia.
Qed.

Lemma enumerate_length {A} (l : list A) : forall start, length (enumerate start l) = length l.
Proof. induction l as [|y l IH]; intros start; simpl; [reflexivity|]. rewrite IH. reflexivity. Qed.

Lemma elem_of_concat {A} (x : A) (ls : list (list A)) :
  x ∈ concat ls -> exists l, x ∈ l /\ l ∈ ls.
Proof.
  induction ls as [|l ls IH]; simpl; [intros H; inversion H|].
  intros H. apply elem_of_app in H as [H|H].
  - exists l. split; [exact H|apply elem_of_cons; left; reflexivity].
  - destruct (IH H) as (l' & Hx & Hl'). exists l'. split; [exact Hx|].
    apply elem_of_cons. right. exact Hl'.
Qed.

(** Every chunk of [split_document] carries the id made of the document's
    source name and the chunk's number. *)
Lemma split_document_ids splitter doc :
  map chunk_id_of (split_document splitter doc)
  = map (fun i => source_name doc +:+ "_chunk_" +:+ pretty i)
        (map fst (enumerate 0 (splitter doc))).
Proof.
  unfold split_document. rewrite !map_map. apply map_ext. intros [i chunk].
  unfold chunk_id_of, tag_chunk. simpl.
  rewrite lookup_insert_ne by discriminate. rewrite lookup_insert_eq. reflexivity.
Qed.

Lemma split_document_id_shape splitter doc chunk :
  chunk ∈ split_document splitter doc ->
  exists i, 0 <= i /\ chunk_id_of chunk = source_name doc +:+ "_chunk_" +:+ pretty i.
Proof.
  intros H. apply (list_elem_of_fmap_2 chunk_id_of) in H.
  rewrite split_document_ids in H.
  apply list_elem_of_fmap in H as (i & Hid & Hi).
  apply list_elem_of_fmap in Hi as ([i' x] & Hfst & Hmem). simpl in Hfst. subst i'.
  apply enumerate_lookup in Hmem as [Hle _]. exists i. split; [exact Hle|exact Hid].
Qed.

Lemma split_document_NoDup splitter doc :
  NoDup (map chunk_id_of (split_document splitter doc)).
Proof.
  rewrite split_document_ids.
  apply NoDup_fmap_2_strong; [|apply enumerate_fst_NoDup].
  intros i j Hi Hj Heq.
  apply list_elem_of_fmap in Hi as ([i' x] & Hfst & Hmem). simpl in Hfst. subst i'.
  apply enumerate_lookup in Hmem as [Hle _].
  apply list_elem_of_fmap in Hj as ([j' y] & Hfst & Hmem). simpl in Hfst. subst j'.
  apply enumerate_lookup in Hmem as [Hle' _].
  apply chunk_id_inj in Heq as [_ Heq]; assumption.
Qed.

Lemma split_all_NoDup splitter documents :
  NoDup (map source_name documents) ->
  NoDup (map chunk_id_of (concat (map (split_document splitter) documents))).
Proof.
  induction documents as [|doc rest IH]; intros Hsrc; simpl; [constructor|].
  apply NoDup_cons in Hsrc as [Hnew Hsrc].
  rewrite map_app. apply NoDup_app. split; [apply split_document_NoDup|].
  split; [|apply IH, Hsrc].
  intros id Hhere Hlater.
  apply list_elem_of_fmap in Hhere as (chunk & -> & Hchunk).
  apply split_document_id_shape in Hchunk as (i & Hi & Hid).
  apply list_elem_of_fmap in Hlater as (chunk' & Heq & Hchunk').
  apply elem_of_concat in Hchunk' as (chunks & Hchunk' & Hchunks).
  apply list_elem_of_fmap in Hchunks as (doc' & -> & Hdoc').
  apply split_document_id_shape in Hchunk' as (j & Hj & Hid').
  rewrite Hid, Hid' in Heq. apply chunk_id_inj in Heq as [Hsame _]; try assumption.
  apply Hnew. rewrite Hsame. apply list_elem_of_fmap. exists doc'. split; [reflexivity|exact Hdoc'].
Qed.

(** The ids that [split_documents] gives. *)
Lemma split_documents_chunk_ids fs documents chunks :
  NoDup (map source_name documents) ->
  split_documents fs documents = Returns chunks ->
  NoDup (map chunk_id_of chunks)
  /\ Forall (fun chunk => chunk_id_of chunk <> "") chunks.
Proof.
  intros Hsrc Hsplit. unfold split_documents in Hsplit.
  destruct (make_splitter fs) as [splitter|]; [|discriminate]. simpl in Hsplit.
  injection Hsplit as <-. split; [apply split_all_NoDup, Hsrc|].
  apply Forall_forall. intros chunk Hchunk.
  apply elem_of_concat in Hchunk as (group & Hchunk & Hgroup).
  apply list_elem_of_fmap in Hgroup as (doc & -> & _).
  apply split_document_id_shape in Hchunk as (i & _ & ->).
  intros Hempty. apply (f_equal String.length) in Hempty.
  rewrite str_length_app in Hempty. simpl in Hempty. lia.
Qed.

(** X16. Chunk ids are unique.  When the documents have pairwise different
    source names, [split_documents] gives every chunk an id that no other
    chunk has (the id spells the source name and the chunk's number, and
    can be read back), and no chunk is left without an id. *)
Theorem chunk_ids_unique fs documents chunks :
  NoDup (map source_name documents) ->
  split_documents fs documents = Returns chunks ->
  NoDup (map chunk_id_of chunks)
  /\ Forall (fun chunk => chunk_id_of chunk <> "") chunks.
Proof. exact (split_documents_chunk_ids fs documents chunks). Qed.

End IngestProperties.

Section IngestRoundTrip.
Import Vectorstore Store Ingest.

Lemma source_name_with_source file doc : source_name (with_source file doc) = file_name file.
Proof.
  unfold source_name, with_source. simpl.
  rewrite lookup_insert_ne by discriminate. rewrite lookup_insert_eq. reflexivity.
Qed.

Lemma load_file_sources fs file :
  one_document_per_file fs ->
  map source_name (load_file fs file) = []
  \/ map source_name (load_file fs file) = [file_name file].
Proof.
  intros Hone. unfold load_file.
  destruct (TextLoader_load fs (file_path file)) as [docs|] eqn:Hload; [|left; reflexivity].
  specialize (Hone _ _ Hload). destruct docs as [|d [|d' docs]]; simpl in *.
  - left. reflexivity.
  - right. rewrite source_name_with_source. reflexivity.
  - lia.
Qed.

Lemma load_files_sources fs files :
  one_document_per_file fs ->
  sublist (map source_name (concat (map (load_file fs) files))) (map file_name files).
Proof.
  intros Hone. induction files as [|file rest IH]; simpl; [constructor|].
  rewrite map_app. destruct (load_file_sources fs file Hone) as [->| ->]; simpl.
  - apply sublist_cons, IH.
  - apply sublist_skip, IH.
Qed.

(** Files with different names load as documents with different source
    names. *)
Lemma load_documents_sources fs :
  one_document_per_file fs -> NoDup (map file_name (knowledge_files fs)) ->
  NoDup (map source_name (load_documents fs)).
Proof.
  intros Hone Hnames. eapply sublist_NoDup; [exact Hnames|].
  apply load_files_sources, Hone.
Qed.

Lemma last_with_id_absent chunk_id documents :
  chunk_id ∉ map chunk_id_of documents -> last_with_id chunk_id documents = None.
Proof.
  induction documents as [|doc rest IH]; intros Hout; [reflexivity|]. simpl in *.
  rewrite IH by (intros H; apply Hout; apply elem_of_cons; right; exact H).
  rewrite bool_decide_eq_false_2; [reflexivity|].
  intros [Hid _]. apply Hout. apply elem_of_cons. left. symmetry. exact Hid.
Qed.

(** Where ids are unique, the document filed under an id is the one that
    carries it. *)
Lemma last_with_id_unique documents : forall doc,
  NoDup (map chunk_id_of documents) -> doc ∈ documents -> chunk_id_of doc <> "" ->
  last_with_id (chunk_id_of doc) documents = Some doc.
Proof.
  induction documents as [|d rest IH]; intros doc Hids Hdoc Hne; [inversion Hdoc|].
  simpl in Hids. apply NoDup_cons in Hids as [Hnew Hids]. simpl.
  apply elem_of_cons in Hdoc as [->|Hdoc].
  - rewrite last_with_id_absent by exact Hnew.
    rewrite bool_decide_eq_true_2 by (split; [reflexivity|exact Hne]). reflexivity.
  - rewrite (IH doc Hids Hdoc Hne). reflexivity.
Qed.

(** How [ingest_documents] goes once documents were loaded and split. *)
Lemma ingest_documents_split env ad fs s doc documents chunks :
  load_documents fs = doc :: documents ->
  split_documents fs (doc :: documents) = Returns chunks ->
  ingest_documents env ad fs s
  = ((create_vectorstore env ad (reset_vectorstore s) chunks).1,
     _ ← (create_vectorstore env ad (reset_vectorstore s) chunks).2;
     mret (Z.of_nat (length (doc :: documents)), Z.of_nat (length chunks))).
Proof.
  intros Hload Hsplit. unfold ingest_documents. rewrite Hload, Hsplit.
  destruct (create_vectorstore env ad (reset_vectorstore s) chunks). reflexivity.
Qed.

(** X17. After an ingest every chunk can be fetched by its id.  When the
    files of the knowledge directory have different names and load as one
    document each, and the chunk index file is absent, unreadable or well
    formed, an [ingest_documents] that returns has counted the documents
    loaded and the chunks made from them, has left the module ready with
    the instance it created, and has filed every chunk: [get_chunk_by_id]
    on a chunk's id returns the entry of that chunk. *)
Theorem ingested_chunks_can_be_fetched env ad fs s s' doc_count chunk_count :
  one_document_per_file fs ->
  NoDup (map file_name (knowledge_files fs)) ->
  index_well_formed (chunks_file s) ->
  ingest_documents env ad fs s = (s', Returns (doc_count, chunk_count)) ->
  exists chunks vs,
    split_documents fs (load_documents fs) = Returns chunks
    /\ doc_count = Z.of_nat (length (load_documents fs))
    /\ chunk_count = Z.of_nat (length chunks)
    /\ globals s' = {| _vectorstore := Some vs; _is_ready := true |}
    /\ forall chunk, chunk ∈ chunks ->
         get_chunk_by_id (chunks_file s') (chunk_id_of chunk) = Returns (chunk_entry chunk).
Proof.
  intros Hone Hnames Hfile Hrun.
  pose proof (load_documents_sources fs Hone Hnames) as Hsources.
  destruct (load_documents fs) as [|doc documents] eqn:Hload.
  { unfold ingest_documents in Hrun. rewrite Hload in Hrun. discriminate Hrun. }
  destruct (split_documents fs (doc :: documents)) as [chunks|e] eqn:Hsplit.
  2:{ unfold ingest_documents in Hrun. rewrite Hload, Hsplit in Hrun. discriminate Hrun. }
  rewrite (ingest_documents_split env ad fs s doc documents chunks Hload Hsplit) in Hrun.
  destruct (split_documents_chunk_ids fs (doc :: documents) chunks Hsources Hsplit)
    as [Hids Hfiled].
  destruct (update_chunks_index_spec (chunks_file s) chunks Hfile) as (Hupd & _ & Hlookup).
  unfold create_vectorstore in Hrun.
  destruct (get_embeddings env) as [embeddings|]; [|discriminate Hrun].
  destruct (Chroma_from_documents ad chunks embeddings) as [vs|]; [|discriminate Hrun].
  simpl chunks_file in Hrun.
  destruct (update_chunks_index (chunks_file s) chunks) as [file updated].
  simpl in Hupd, Hlookup. subst updated. simpl in Hrun. injection Hrun as <- <- <-.
  exists chunks, vs. split; [reflexivity|]. split; [reflexivity|]. split; [reflexivity|].
  split; [reflexivity|]. intros chunk Hchunk. simpl. rewrite Hlookup.
  rewrite (last_with_id_unique chunks chunk Hids Hchunk); [reflexivity|].
  exact (proj1 (Forall_forall _ _) Hfiled chunk Hchunk).
Qed.


End IngestRoundTrip.

Section StoreExamples.
Import Vectorstore Store Ingest Scenario.

(** Two chunks filed where no index file exists. *)
Lemma chunks_index_round_trip_witness :
  (update_chunks_index NoFile [doc_a; doc_b]).2 = Returns tt
  /\ index_well_formed (update_chunks_index NoFile [doc_a; doc_b]).1
  /\ forall chunk_id,
       get_chunk_by_id (update_chunks_index NoFile [doc_a; doc_b]).1 chunk_id
       = match last_with_id chunk_id [doc_a; doc_b] with
         | Some doc => Returns (chunk_entry doc)
         | None => get_chunk_by_id NoFile chunk_id
         end.
Proof. exact (chunks_index_round_trip NoFile [doc_a; doc_b] I). Defined.

(** The index file holds the empty JSON object. *)
Lemma chunks_index_without_chunks_witness :
  update_chunks_index (Holds (PyDict [])) [doc_a]
  = (Holds (PyDict []), Raises "KeyError: 'chunks'")
  /\ forall chunk_id, get_chunk_by_id (Holds (PyDict [])) chunk_id = Returns PyNone.
Proof.
  apply (chunks_index_without_chunks [] [doc_a] doc_a).
  - reflexivity.
  - apply elem_of_cons. left. reflexivity.
  - vm_compute. discriminate.
Defined.

Lemma ready_iff_loaded_witness :
  ((is_vectorstore_ready env_built not_loaded).2 = true
   <-> (get_vectorstore env_built not_loaded).2 <> None)
  /\ globals_agree (is_vectorstore_ready env_built not_loaded).1
  /\ globals_agree (get_vectorstore env_built not_loaded).1
  /\ globals_agree (search_similar env_built not_loaded "what is alpha?" 5).1
  /\ globals_agree (search_mmr env_built not_loaded "what is alpha?" 5 20 (1 # 2)).1
  /\ globals_agree (delete_by_source env_built admin_ok not_loaded "a.md").1
  /\ globals_agree (get_document_count env_built not_loaded).1
  /\ globals_agree (globals (add_documents env_built admin_ok state_fresh [doc_a]).1)
  /\ globals_agree (globals (create_vectorstore env_built admin_ok state_fresh [doc_a]).1)
  /\ globals_agree (globals (reset_vectorstore state_fresh)).
Proof.
  apply (ready_iff_loaded env_built admin_ok state_fresh "what is alpha?" 5 20 (1 # 2) "a.md"
           [doc_a]).
  unfold globals_agree. simpl. split; [discriminate|congruence].
Defined.

Lemma chunk_ids_unique_witness :
  exists chunks,
    split_documents files_two (load_documents files_two) = Returns chunks
    /\ length chunks = 4%nat
    /\ NoDup (map chunk_id_of chunks)
    /\ Forall (fun chunk => chunk_id_of chunk <> "") chunks.
Proof.
  destruct (split_documents files_two (load_documents files_two)) as [chunks|e] eqn:Hsplit;
    [|vm_compute in Hsplit; discriminate Hsplit].
  exists chunks. split; [reflexivity|]. split.
  - vm_compute in Hsplit. injection Hsplit as <-. reflexivity.
  - apply (chunk_ids_unique files_two (load_documents files_two) chunks); [|exact Hsplit].
    apply (bool_decide_unpack _). vm_compute. reflexivity.
Defined.

Lemma files_two_one_document : one_document_per_file files_two.
Proof. intros path docs [= <-]. simpl. lia. Qed.

Lemma ingested_chunks_can_be_fetched_witness :
  exists chunks vs,
    split_documents files_two (load_documents files_two) = Returns chunks
    /\ 2 = Z.of_nat (length (load_documents files_two))
    /\ 4 = Z.of_nat (length chunks)
    /\ globals (ingest_documents env_built admin_ok files_two state_built).1
       = {| _vectorstore := Some vs; _is_ready := true |}
    /\ forall chunk, chunk ∈ chunks ->
         get_chunk_by_id (chunks_file (ingest_documents env_built admin_ok files_two state_built).1)
           (chunk_id_of chunk)
         = Returns (chunk_entry chunk).
Proof.
  apply (ingested_chunks_can_be_fetched env_built admin_ok files_two state_built
           (ingest_documents env_built admin_ok files_two state_built).1 2 4).
  - exact files_two_one_document.
  - apply (bool_decide_unpack _). vm_compute. reflexivity.
  - exact I.
  - apply injective_projections; [reflexivity|]. vm_compute. reflexivity.
Defined.


End StoreExamples.

(** ** The sources of a response *)

Section SourceProperties.
Import Agentic.






End SourceProperties.

(** ** Fenced replies *)

Section FenceProperties.

Lemma split_first_unfold sep s :
  split_first sep s
  = if String.prefix sep s then
      Some ("", String.substring (String.length sep) (String.length s) s)
    else match s with
         | EmptyString => None
         | String c rest =>
             match split_first sep rest with
             | Some (before, after) => Some (String c before, after)
             | None => None
             end
         end.
Proof. destruct s; reflexivity. Qed.

Lemma prefix_cons_eq a sep s : String.prefix (String a sep) (String a s) = String.prefix sep s.
Proof.
  change (String.prefix (String a sep) (String a s))
    with (if Ascii.ascii_dec a a then String.prefix sep s else false).
  destruct (Ascii.ascii_dec a a); [reflexivity|congruence].
Qed.

Lemma prefix_cons_ne a c sep s : c <> a -> String.prefix (String a sep) (String c s) = false.
Proof.
  intros Hne.
  change (String.prefix (String a sep) (String c s))
    with (if Ascii.ascii_dec a c then String.prefix sep s else false).
  destruct (Ascii.ascii_dec a c); [congruence|reflexivity].
Qed.

Lemma prefix_app sep t : String.prefix sep (sep +:+ t) = true.
Proof.
  induction sep as [|a sep IH]; [destruct t; reflexivity|].
  change (String a sep +:+ t) with (String a (sep +:+ t)). rewrite prefix_cons_eq. exact IH.
Qed.

(** The first character of a text without backquotes is none. *)
Lemma prefix_fence_free sep s :
  fence_free s -> String.prefix (String backquote sep) s = false.
Proof.
  destruct s as [|c s]; [reflexivity|]. unfold fence_free. simpl. intros H.
  apply orb_false_iff in H as [Hc _]. apply bool_decide_eq_false in Hc.
  apply prefix_cons_ne, Hc.
Qed.

Lemma substring_all t : forall m, (String.length t <= m)%nat -> String.substring 0 m t = t.
Proof.
  induction t as [|c t IH]; intros m Hm; [destruct m; reflexivity|].
  destruct m as [|m]; simpl in *; [lia|]. rewrite IH by lia. reflexivity.
Qed.

Lemma substring_after sep t : forall m,
  (String.length t <= m)%nat -> String.substring (String.length sep) m (sep +:+ t) = t.
Proof.
  induction sep as [|a sep IH]; intros m Hm; [apply substring_all, Hm|].
  simpl. apply IH, Hm.
Qed.

(** A separator that begins with a backquote is first found after a text
    without backquotes. *)
Lemma split_first_at sep pre t :
  fence_free pre ->
  split_first (String backquote sep) (pre +:+ String backquote sep +:+ t) = Some (pre, t).
Proof.
  intros Hpre. induction pre as [|c pre IH].
  - change ("" +:+ String backquote sep +:+ t) with (String backquote sep +:+ t).
    rewrite split_first_unfold, prefix_app.
    rewrite substring_after by (rewrite str_length_app; lia). reflexivity.
  - change (String c pre +:+ String backquote sep +:+ t)
      with (String c (pre +:+ String backquote sep +:+ t)).
    rewrite split_first_unfold.
    assert (fence_free pre /\ c <> backquote) as [Hpre' Hc].
    { unfold fence_free in *. simpl in Hpre. apply orb_false_iff in Hpre as [Hc Hpre].
      apply bool_decide_eq_false in Hc. split; assumption. }
    rewrite (prefix_cons_ne backquote c) by exact Hc.
    rewrite (IH Hpre'). reflexivity.
Qed.

Lemma split_first_none sep s :
  fence_free s -> split_first (String backquote sep) s = None.
Proof.
  intros Hs. induction s as [|c s IH]; [reflexivity|].
  rewrite split_first_unfold, (prefix_fence_free sep _ Hs).
  assert (fence_free s) as Hs'.
  { unfold fence_free in *. simpl in Hs. apply orb_false_iff in Hs as [_ Hs]. exact Hs. }
  rewrite (IH Hs'). reflexivity.
Qed.

(** Nor is it found in front of the closing fence, unless 'json' follows
    that fence. *)
Lemma split_first_json_none body post :
  fence_free body -> fence_free post -> String.prefix "json" post = false ->
  split_first "```json" (body +:+ "```" +:+ post) = None.
Proof.
  intros Hbody Hpost Hjson. induction body as [|c body IH].
  - change ("" +:+ "```" +:+ post)
      with (String backquote (String backquote (String backquote post))).
    change "```json" with (String backquote (String backquote (String backquote "json"))).
    rewrite split_first_unfold, !prefix_cons_eq, Hjson.
    rewrite split_first_unfold, !prefix_cons_eq, (prefix_fence_free "json" post Hpost).
    rewrite split_first_unfold, !prefix_cons_eq.
    rewrite (prefix_fence_free (String backquote "json") post Hpost).
    rewrite (split_first_none _ post Hpost). reflexivity.
  - change (String c body +:+ "```" +:+ post) with (String c (body +:+ "```" +:+ post)).
    assert (fence_free body /\ c <> backquote) as [Hbody' Hc].
    { unfold fence_free in *. simpl in Hbody. apply orb_false_iff in Hbody as [Hc Hbody].
      apply bool_decide_eq_false in Hc. split; assumption. }
    rewrite split_first_unfold.
    change "```json" with (String backquote "``json") at 1.
    rewrite (prefix_cons_ne backquote c) by exact Hc.
    rewrite (IH Hbody'). reflexivity.
Qed.

Lemma fence_free_app a b : fence_free (a +:+ b) <-> fence_free a /\ fence_free b.
Proof. unfold fence_free. rewrite has_char_app. apply orb_false_iff. Qed.

Lemma prefix_before_fence p : forall b x,
  fence_free p -> String.prefix p b = false ->
  String.prefix p (b +:+ String backquote x) = false.
Proof.
  induction p as [|a p IH]; intros b x Hp Hb; [destruct b; discriminate Hb|].
  assert (fence_free p /\ a <> backquote) as [Hp' Ha].
  { unfold fence_free in *. simpl in Hp. apply orb_false_iff in Hp as [Ha Hp].
    apply bool_decide_eq_false in Ha. split; assumption. }
  destruct b as [|c b].
  - change ("" +:+ String backquote x) with (String backquote x).
    apply prefix_cons_ne. congruence.
  - change (String c b +:+ String backquote x) with (String c (b +:+ String backquote x)).
    destruct (Ascii.ascii_dec a c) as [<-|Hne].
    + rewrite prefix_cons_eq in *. apply IH; assumption.
    + apply prefix_cons_ne. congruence.
Qed.

(** A json fence is not found across a plain fence whose body does not
    begin with 'json'. *)
Lemma split_first_json_plain pre body post :
  fence_free pre -> fence_free body -> fence_free post ->
  String.prefix "json" body = false -> String.prefix "json" post = false ->
  split_first "```json" (pre +:+ "```" +:+ body +:+ "```" +:+ post) = None.
Proof.
  intros Hpre Hbody Hpost Hb Hp.
  pose proof (split_first_json_none body post Hbody Hpost Hp) as Hrest.
  set (R := body +:+ "```" +:+ post) in *.
  assert (String.prefix "json" R = false) as H0.
  { apply (prefix_before_fence "json" body ("``" +:+ post)); [reflexivity|exact Hb]. }
  assert (forall sep, String.prefix (String backquote sep) R
                      = match body with
                        | EmptyString => String.prefix sep ("``" +:+ post)
                        | String _ _ => false
                        end) as Hfirst.
  { intros sep. unfold R. destruct body as [|c body'].
    - change ("" +:+ "```" +:+ post) with (String backquote ("``" +:+ post)).
      apply prefix_cons_eq.
    - change (String c body' +:+ "```" +:+ post) with (String c (body' +:+ "```" +:+ post)).
      apply prefix_cons_ne. unfold fence_free in Hbody. simpl in Hbody.
      apply orb_false_iff in Hbody as [Hc _]. apply bool_decide_eq_false in Hc. exact Hc. }
  assert (String.prefix (String backquote "json") R = false) as H1.
  { rewrite Hfirst. destruct body; [|reflexivity].
    change ("``" +:+ post) with (String backquote (String backquote post)).
    apply prefix_cons_ne. discriminate. }
  assert (String.prefix (String backquote (String backquote "json")) R = false) as H2.
  { rewrite Hfirst. destruct body; [|reflexivity].
    change ("``" +:+ post) with (String backquote (String backquote post)).
    rewrite prefix_cons_eq. apply prefix_cons_ne. discriminate. }
  clearbody R. induction pre as [|c pre IH].
  - change ("" +:+ "```" +:+ R) with (String backquote (String backquote (String backquote R))).
    change "```json" with (String backquote (String backquote (String backquote "json"))).
    rewrite split_first_unfold, !prefix_cons_eq, H0.
    rewrite split_first_unfold, !prefix_cons_eq, H1.
    rewrite split_first_unfold, !prefix_cons_eq, H2.
    change (String backquote (String backquote (String backquote "json"))) with "```json".
    rewrite Hrest. reflexivity.
  - change (String c pre +:+ "```" +:+ R) with (String c (pre +:+ "```" +:+ R)).
    assert (fence_free pre /\ c <> backquote) as [Hpre' Hc].
    { unfold fence_free in *. simpl in Hpre. apply orb_false_iff in Hpre as [Hc Hpre].
      apply bool_decide_eq_false in Hc. split; assumption. }
    rewrite split_first_unfold.
    change "```json" with (String backquote "``json") at 1.
    rewrite (prefix_cons_ne backquote c) by exact Hc.
    rewrite (IH Hpre'). reflexivity.
Qed.

(** What follows a fence, cut at the closing fence. *)
Lemma fenced_body body post :
  fence_free body -> fence_free post ->
  split_0 "```" (split_0 "```json" (body +:+ "```" +:+ post)) = body
  /\ split_0 "```" (split_0 "```" (body +:+ "```" +:+ post)) = body.
Proof.
  intros Hbody Hpost.
  assert (split_0 "```" body = body) as Hstop.
  { unfold split_0. change "```" with (String backquote "``").
    rewrite (split_first_none _ body Hbody). reflexivity. }
  assert (split_0 "```" (body +:+ "```" +:+ post) = body) as Hcut.
  { unfold split_0. change "```" with (String backquote "``").
    rewrite (split_first_at "``" body post Hbody). reflexivity. }
  split; [|rewrite Hcut; exact Hstop].
  destruct (String.prefix "json" post) eqn:Hjson.
  - apply String.prefix_correct in Hjson. simpl String.length in Hjson.
    assert (exists tail, post = "json" +:+ tail) as [tail ->].
    { destruct post as [|c1 [|c2 [|c3 [|c4 tail]]]]; try discriminate Hjson.
      exists tail. simpl in Hjson. injection Hjson as -> -> -> -> _. reflexivity. }
    change (body +:+ "```" +:+ "json" +:+ tail)
      with (body +:+ String backquote "``json" +:+ tail).
    unfold split_0 at 2. change "```json" with (String backquote "``json").
    rewrite (split_first_at "``json" body tail Hbody). exact Hstop.
  - unfold split_0 at 2. rewrite (split_first_json_none body post Hbody Hpost Hjson).
    exact Hcut.
Qed.

(** X20. What [strip_fence] extracts from a reply.  For texts without
    backquotes [pre], [body] and [post]: a reply that fences [body] as
    json gives [body]; a reply that fences it with plain fences gives
    [body] too, provided neither [body] nor [post] begins with 'json'; and a
    reply without any backquote is left as it is. *)
Theorem strip_fence_extracts pre body post :
  fence_free pre -> fence_free body -> fence_free post ->
  strip_fence (pre +:+ "```json" +:+ body +:+ "```" +:+ post) = body
  /\ (String.prefix "json" body = false -> String.prefix "json" post = false ->
      strip_fence (pre +:+ "```" +:+ body +:+ "```" +:+ post) = body)
  /\ strip_fence pre = pre.
Proof.
  intros Hpre Hbody Hpost.
  destruct (fenced_body body post Hbody Hpost) as [Hjson Hplain].
  split; [|split].
  - unfold strip_fence. change "```json" with (String backquote "``json") at 1 2.
    rewrite (split_first_at "``json" pre (body +:+ "```" +:+ post) Hpre). exact Hjson.
  - intros Hb Hp. unfold strip_fence.
    rewrite (split_first_json_plain pre body post Hpre Hbody Hpost Hb Hp).
    change "```" with (String backquote "``") at 1 2.
    rewrite (split_first_at "``" pre (body +:+ "```" +:+ post) Hpre). exact Hplain.
  - unfold strip_fence. change "```json" with (String backquote "``json").
    rewrite (split_first_none _ pre Hpre). change "```" with (String backquote "``").
    rewrite (split_first_none _ pre Hpre). reflexivity.
Qed.

End FenceProperties.

(** ** File names *)

Section FileNameProperties.
Import Utils.

Variable is_word : N -> bool.

Lemma replace_unsafe_kept s :
  Forall (fun c => kept_char is_word c = true) (replace_unsafe is_word s).
Proof.
  unfold replace_unsafe. apply Forall_forall. intros c Hc.
  apply list_elem_of_fmap in Hc as (c0 & -> & _).
  destruct (kept_char is_word c0) eqn:E; [exact E|].
  unfold kept_char, UNDERSCORE. rewrite (bool_decide_eq_true_2 (95 = 95)%N) by reflexivity.
  rewrite orb_true_r. reflexivity.
Qed.

Lemma squeeze_sub s : forall c, c ∈ squeeze s -> c ∈ s.
Proof.
  induction s as [|a rest IH]; intros c; simpl; [intros H; inversion H|].
  destruct rest as [|b rest']; [intros H; exact H|].
  destruct (bool_decide (a = UNDERSCORE) && bool_decide (b = UNDERSCORE)).
  - intros H. apply elem_of_cons. right. apply IH, H.
  - intros H. apply elem_of_cons in H as [->|H]; [apply elem_of_cons; left; reflexivity|].
    apply elem_of_cons. right. apply IH, H.
Qed.

Lemma squeeze_head s : s <> [] -> exists rest, squeeze s = rest /\ head (squeeze s) <> None
  /\ (forall c, head (squeeze s) = Some c -> c = UNDERSCORE -> head s = Some UNDERSCORE).
Proof.
  induction s as [|a rest IH]; intros Hne; [congruence|].
  exists (squeeze (a :: rest)). split; [reflexivity|]. simpl.
  destruct rest as [|b rest']; [simpl; split; [discriminate|intros c [= <-] ->; reflexivity]|].
  destruct (bool_decide (a = UNDERSCORE) && bool_decide (b = UNDERSCORE)) eqn:E.
  - destruct (IH ltac:(discriminate)) as (_ & _ & Hnone & Hhead). split; [exact Hnone|].
    intros c Hc Hu. apply andb_true_iff in E as [Ea _]. apply bool_decide_eq_true in Ea.
    rewrite Ea. reflexivity.
  - simpl. split; [discriminate|]. intros c [= <-] ->. reflexivity.
Qed.

Lemma squeeze_no_run s : no_run (squeeze s).
Proof.
  induction s as [|a rest IH]; [exact I|]. simpl.
  destruct rest as [|b rest']; [exact I|].
  destruct (bool_decide (a = UNDERSCORE) && bool_decide (b = UNDERSCORE)) eqn:E; [exact IH|].
  change (no_run (a :: squeeze (b :: rest'))).
  destruct (squeeze (b :: rest')) as [|b' tail] eqn:Hs; [exact I|].
  simpl. split; [|exact IH].
  intros [Ha Hb']. subst a b'.
  destruct (squeeze_head (b :: rest') ltac:(discriminate)) as (_ & _ & _ & Hhead).
  rewrite Hs in Hhead. specialize (Hhead UNDERSCORE eq_refl eq_refl). simpl in Hhead.
  injection Hhead as ->. rewrite !bool_decide_eq_true_2 in E by reflexivity. discriminate.
Qed.

Lemma lstrip_suffix s : exists dropped, s = (dropped ++ lstrip s)%list.
Proof.
  induction s as [|a rest IH]; [exists []; reflexivity|]. simpl.
  destruct (bool_decide (a = UNDERSCORE)).
  - destruct IH as [dropped Hd]. exists (a :: dropped). simpl. rewrite <- Hd. reflexivity.
  - exists []. reflexivity.
Qed.

Lemma lstrip_head s : head (lstrip s) <> Some UNDERSCORE.
Proof.
  induction s as [|a rest IH]; [discriminate|]. simpl.
  destruct (bool_decide (a = UNDERSCORE)) eqn:E; [exact IH|].
  apply bool_decide_eq_false in E. simpl. congruence.
Qed.

Lemma lstrip_id s : head s <> Some UNDERSCORE -> lstrip s = s.
Proof.
  destruct s as [|a rest]; [reflexivity|]. simpl. intros H.
  rewrite bool_decide_eq_false_2; [reflexivity|]. congruence.
Qed.

Lemma no_run_app_r (a b : text) : no_run (a ++ b)%list -> no_run b.
Proof.
  induction a as [|x a IH]; [intros H; exact H|]. intros H. apply IH.
  simpl in H. destruct (a ++ b)%list; [exact I|]. apply H.
Qed.

Lemma no_run_app_l (a : text) : forall b, no_run (a ++ b)%list -> no_run a.
Proof.
  induction a as [|x a IH]; intros b H; [exact I|]. simpl in *.
  destruct a as [|y a']; [exact I|]. simpl in H. destruct H as [H1 H2].
  split; [exact H1|]. apply (IH b). exact H2.
Qed.

Lemma no_run_reverse s : no_run s -> no_run (reverse s).
Proof.
  induction s as [|a rest IH]; [intros _; exact I|]. intros H.
  rewrite reverse_cons.
  assert (no_run rest) as Hrest by (simpl in H; destruct rest; [exact I|apply H]).
  specialize (IH Hrest).
  assert (forall l, no_run l -> (forall z, last l = Some z -> ~ (z = UNDERSCORE /\ a = UNDERSCORE))
                    -> no_run (l ++ [a])%list) as Hsnoc.
  { induction l as [|y l IHl]; intros Hl Hz; [exact I|]. simpl.
    destruct l as [|y' l']; simpl.
    - split; [|exact I]. apply Hz. reflexivity.
    - simpl in Hl. destruct Hl as [Hl1 Hl2]. split; [exact Hl1|].
      apply IHl; [exact Hl2|]. intros z Hlast. apply Hz. exact Hlast. }
  apply Hsnoc; [exact IH|]. intros z Hlast. rewrite last_reverse in Hlast.
  destruct rest as [|b rest']; [discriminate|]. simpl in Hlast. injection Hlast as <-.
  simpl in H. destruct H as [H _]. intros [Hb Ha]. apply H. split; assumption.
Qed.

Lemma strip_clean s :
  Forall (fun c => kept_char is_word c = true) s -> no_run s ->
  strip s <> [] -> clean_name is_word (strip s).
Proof.
  intros Hkept Hrun Hne. unfold clean_name. split; [exact Hne|].
  destruct (lstrip_suffix s) as [d1 Hd1].
  destruct (lstrip_suffix (reverse (lstrip s))) as [d2 Hd2].
  assert (lstrip s = reverse (lstrip (reverse (lstrip s))) ++ reverse d2)%list as Hmid.
  { rewrite <- reverse_app, <- Hd2, reverse_involutive. reflexivity. }
  fold (strip s) in Hmid.
  assert (s = d1 ++ strip s ++ reverse d2)%list as Hs by (rewrite <- Hmid; exact Hd1).
  split; [|split; [|split]].
  - rewrite Hs in Hkept. apply Forall_app in Hkept as [_ Hkept].
    apply Forall_app in Hkept as [Hkept _]. exact Hkept.
  - rewrite Hs in Hrun. apply no_run_app_r in Hrun. apply no_run_app_l in Hrun. exact Hrun.
  - pose proof (lstrip_head s) as Hh. rewrite Hmid in Hh.
    destruct (strip s) as [|a rest]; [congruence|]. exact Hh.
  - unfold strip. rewrite last_reverse. apply lstrip_head.
Qed.

(** What is clean is left as it is. *)
Lemma clean_name_fixed s : clean_name is_word s -> sanitize_filename is_word s = s.
Proof.
  intros (Hne & Hkept & Hrun & Hhead & Hlast). unfold sanitize_filename.
  assert (replace_unsafe is_word s = s) as ->.
  { unfold replace_unsafe. clear -Hkept. induction Hkept as [|c l Hc _ IH]; [reflexivity|].
    simpl. rewrite Hc, IH. reflexivity. }
  assert (squeeze s = s) as ->.
  { clear -Hrun. induction s as [|a rest IH]; [reflexivity|]. simpl in *.
    destruct rest as [|b rest']; [reflexivity|]. destruct Hrun as [Hab Hrun].
    destruct (bool_decide (a = UNDERSCORE) && bool_decide (b = UNDERSCORE)) eqn:E.
    - apply andb_true_iff in E as [Ea Eb]. apply bool_decide_eq_true in Ea, Eb.
      exfalso. apply Hab. split; assumption.
    - rewrite (IH Hrun). reflexivity. }
  assert (strip s = s) as ->.
  { unfold strip. rewrite (lstrip_id s Hhead).
    rewrite lstrip_id by (rewrite head_reverse; exact Hlast).
    apply reverse_involutive. }
  destruct s; [congruence|reflexivity].
Qed.

(** X21. What [sanitize_filename] returns.  The result is the word
    'unnamed' when nothing is left of the name, and otherwise a clean name:
    not empty, made only of word characters, '-', '.', '_' and CJK
    ideographs, with no two underscores in a row and none at either end.
    So the result is never empty, a character outside that class, such as
    a path separator, never occurs in it, and a clean name is returned
    unchanged. *)
Theorem sanitize_filename_clean filename :
  (sanitize_filename is_word filename = UNNAMED
   \/ clean_name is_word (sanitize_filename is_word filename))
  /\ sanitize_filename is_word filename <> []
  /\ (forall c, kept_char is_word c = false -> c ∉ UNNAMED ->
        c ∉ sanitize_filename is_word filename)
  /\ (clean_name is_word filename -> sanitize_filename is_word filename = filename).
Proof.
  assert (sanitize_filename is_word filename = UNNAMED
          \/ clean_name is_word (sanitize_filename is_word filename)) as Hcases.
  { unfold sanitize_filename.
    destruct (strip (squeeze (replace_unsafe is_word filename))) as [|a rest] eqn:Hs;
      [left; reflexivity|].
    right. rewrite <- Hs. apply strip_clean.
    - apply Forall_forall. intros c Hc. apply squeeze_sub in Hc.
      exact (proj1 (Forall_forall _ _) (replace_unsafe_kept filename) c Hc).
    - apply squeeze_no_run.
    - rewrite Hs. discriminate. }
  split; [exact Hcases|]. split; [|split].
  - destruct Hcases as [->|(Hne & _)]; [discriminate|exact Hne].
  - intros c Hc Hun. destruct Hcases as [->|(_ & Hkept & _)]; [exact Hun|].
    intros Hin. apply (proj1 (Forall_forall _ _) Hkept) in Hin. congruence.
  - apply clean_name_fixed.
Qed.

End FileNameProperties.

Section DocumentProperties.
Import Utils.









End DocumentProperties.

(** ** User profiles *)

Section MemoryProperties.
Import Memory.

Lemma load_user_profile_id files user_id :
  filed_by_user files -> profile_user_id (load_user_profile files user_id) = user_id.
Proof.
  intros Hfiles. unfold load_user_profile.
  destruct (files !! user_id) as [[|p]|] eqn:Hfile; try reflexivity.
  exact (Hfiles user_id p Hfile).
Qed.

(** X23. Updating a profile and reading it back.  When every stored profile
    lies in the file of its own user, [update_user_profile] returns the
    user's previous profile (the default one when the file is absent or
    rejected) with exactly the given fields replaced, stores it so that
    [load_user_profile] and [get_profile_prompt] read it back for that
    user, leaves what every other user loads unchanged, and keeps the
    profiles filed by user. *)
Theorem profile_update_round_trip files user_id new_language new_output_style new_format
    new_tone :
  filed_by_user files ->
  let before := load_user_profile files user_id in
  let '(files', profile) :=
    update_user_profile files user_id new_language new_output_style new_format new_tone in
  profile = {| profile_user_id := user_id;
               language := default (language before) new_language;
               output_style := default (output_style before) new_output_style;
               format := default (format before) new_format;
               tone := default (tone before) new_tone |}
  /\ load_user_profile files' user_id = profile
  /\ get_profile_prompt files' user_id = profile_prompt profile
  /\ (forall other, other <> user_id ->
        load_user_profile files' other = load_user_profile files other)
  /\ filed_by_user files'.
Proof.
  intros Hfiles. cbv zeta. unfold update_user_profile.
  pose proof (load_user_profile_id files user_id Hfiles) as Hid.
  set (before := load_user_profile files user_id) in *.
  set (profile := {| profile_user_id := profile_user_id before;
                     language := default (language before) new_language;
                     output_style := default (output_style before) new_output_style;
                     format := default (format before) new_format;
                     tone := default (tone before) new_tone |}).
  assert (load_user_profile (save_user_profile files profile) user_id = profile) as Hload.
  { unfold load_user_profile, save_user_profile, profile. cbn [profile_user_id].
    rewrite Hid, lookup_insert_eq. reflexivity. }
  split; [unfold profile; rewrite Hid; reflexivity|].
  split; [exact Hload|]. split; [unfold get_profile_prompt; rewrite Hload; reflexivity|].
  split.
  - intros other Hother. unfold load_user_profile, save_user_profile, profile.
    cbn [profile_user_id]. rewrite Hid. rewrite lookup_insert_ne by congruence. reflexivity.
  - intros uid p. unfold save_user_profile, profile. cbn [profile_user_id]. rewrite Hid.
    destruct (decide (uid = user_id)) as [->|Hne].
    + rewrite lookup_insert_eq. intros [= <-]. reflexivity.
    + rewrite lookup_insert_ne by congruence. apply Hfiles.
Qed.

(** X24. A profile filed under another user's name is not updated.  When
    the file of [user_id] holds a profile whose own id is another user's,
    [update_user_profile] writes the updated profile into that other
    user's file: the file of [user_id] is left as it was, so the update is
    not seen when the profile is loaded again. *)
Theorem misfiled_profile_update files user_id p new_language new_output_style new_format
    new_tone :
  files !! user_id = Some (Stored p) -> profile_user_id p <> user_id ->
  let '(files', profile) :=
    update_user_profile files user_id new_language new_output_style new_format new_tone in
  load_user_profile files' user_id = p
  /\ files' !! profile_user_id p = Some (Stored profile).
Proof.
  intros Hfile Hne. unfold update_user_profile, load_user_profile, save_user_profile.
  rewrite Hfile. cbn [profile_user_id]. rewrite lookup_insert_ne by exact Hne. rewrite Hfile.
  split; [reflexivity|]. rewrite lookup_insert_eq. reflexivity.
Qed.

End MemoryProperties.

(** ** The further properties at work on concrete worlds *)

Section UtilityExamples.
Import Utils Memory.

(** A fenced reply, with words around the fence. *)
Lemma strip_fence_extracts_witness :
  strip_fence ("Here it is: " +:+ "```json" +:+ "{}" +:+ "```" +:+ " Done.") = "{}"
  /\ (String.prefix "json" "{}" = false -> String.prefix "json" " Done." = false ->
      strip_fence ("Here it is: " +:+ "```" +:+ "{}" +:+ "```" +:+ " Done.") = "{}")
  /\ strip_fence "Here it is: " = "Here it is: ".
Proof.
  apply (strip_fence_extracts "Here it is: " "{}" " Done."); reflexivity.
Defined.


(** A user without a profile file asks for concise answers. *)
Lemma profile_update_round_trip_witness :
  load_user_profile (update_user_profile ∅ "u1" None (Some "简洁") None None).1 "u1"
  = (update_user_profile ∅ "u1" None (Some "简洁") None None).2
  /\ (update_user_profile ∅ "u1" None (Some "简洁") None None).2
     = {| profile_user_id := "u1"; language := "zh-CN"; output_style := "简洁";
          format := "markdown"; tone := "专业" |}.
Proof.
  assert (filed_by_user ∅) as Hempty.
  { intros user_id p Hfile. rewrite lookup_empty in Hfile. discriminate Hfile. }
  pose proof (profile_update_round_trip ∅ "u1" None (Some "简洁") None None Hempty) as Hupdate.
  cbv zeta in Hupdate.
  destruct (update_user_profile ∅ "u1" None (Some "简洁") None None) as [files' profile].
  destruct Hupdate as (Hprofile & Hload & _). split; [exact Hload|].
  simpl. rewrite Hprofile. reflexivity.
Defined.

(** The file of [u1] holds a profile that names [u2]. *)
Lemma misfiled_profile_update_witness :
  load_user_profile
    (update_user_profile {[ "u1" := Stored (default_profile "u2") ]} "u1" None (Some "简洁")
       None None).1 "u1"
  = default_profile "u2".
Proof.
  pose proof (misfiled_profile_update {[ "u1" := Stored (default_profile "u2") ]} "u1"
                (default_profile "u2") None (Some "简洁") None None) as Hupdate.
  destruct (update_user_profile {[ "u1" := Stored (default_profile "u2") ]} "u1" None
              (Some "简洁") None None) as [files' profile].
  apply Hupdate; [apply lookup_singleton_eq|discriminate].
Defined.

End UtilityExamples.
